(* ===== verification/_CoqProject ===== *)
-Q . S2P
Prelude.v
PyFloat.v
PyFormat.v
DateTime.v
Models.v
Database.v
Filters.v
QueryGen.v
Pipeline.v
Writers.v
Consumers.v
Display.v
Extract.v
Main.v
