(* ===== verification/Prelude.v ===== *)
(** * A verification development of the NEO close-approach database

    The program (src/) loads near-Earth objects (NEOs) and their close
    approaches to Earth, links them in memory and answers filtered
    queries over the approaches:

    - [models.py]: the classes [NearEarthObject] and [CloseApproach]:
      their constructors normalise missing numbers to NaN, and each object
      holds a reference to the other (an NEO's [approaches] list, an
      approach's [neo] back-reference);
    - [database.py]: [NEODatabase.__init__] builds the designation index
      and links every approach to its NEO; [get_neo_by_designation],
      [get_neo_by_name] are linear lookups; [query] is a generator that
      yields the approaches passing every filter, through
      [check_approach_against_filters];
    - [filters.py]: the [AttributeFilter] hierarchy (one subclass per
      attribute), [create_filters] that turns command-line criteria into
      a list of filters, and [limit] that truncates the result stream;
    - [extract.py] and [write.py]: CSV/JSON readers and writers around
      the core; [helpers.py] (not under src/) parses and prints the
      approach timestamps.

    Data flow: loaders -> model constructors -> [NEODatabase] (linkage)
    -> [create_filters] -> [query] -> [limit] -> writers.

    ** Files of the development (in dependency order)

    - [Prelude] (this file): the Python runtime pieces every component
      shares: exceptions as values ([exn]; [result] with the [py_scope]
      bind notation [x <- c ;; k]), generators as finite streams that
      may end in an exception ([gen], [drain], CPython's [islice], which
      never pulls the item after the [n]-th), truthiness ([Truthy]),
      [str.upper]/[str.capitalize] on ASCII, insertion-ordered dicts
      ([dict_get], [dict_set], [dict_update] for [{**d1, **d2}]), [mapR]
      for a loop of fallible calls, the hint database [neo] and the
      generic list lemmas.
    - [PyFloat]: floats as rationals, two infinities and NaN, with the
      IEEE comparisons (false on NaN), truthiness, [x or float("nan")]
      ([or_nan], [nan_if_falsy]) and the [Proper] instances for the
      equivalence [feqv] of rationals.
    - [PyFormat]: the standard-library text formatting the display
      methods call (library code, not part of src/, so its definitions
      are helpers of [Display] rather than models of repository lines),
      as CPython computes it: [format(x, ".2f")] ([format_fixed]: exact value
      rounded half to even, [round_half_even]) and [repr] of a string
      ([py_repr_str]: the quote choice, backslash and [\xhh] escapes on
      the Latin-1 range), with the readers [read_fixed] (fixed-point
      [float(s)]) and [eval_str_literal] (the tokenizer [lex_str] of a
      string literal) that state their round trips.
    - [DateTime]: [helpers.cd_to_datetime] / [datetime_to_str] (modelled
      from the spec, helpers.py is not in src/) on the fixed-width form
      [YYYY-Mon-DD hh:mm], [datetime.date()] and the date order.
    - [Models]: modules [NearEarthObject] and [CloseApproach]: a Record of
      the attributes, the constructor, [fullname], [time_str],
      [serialize] and the two updates the database performs.  Object
      references are indices into the database's lists, so that the
      aliasing of [approach.neo] and of the [approaches] lists is kept.
    - [Database]: module [NEODatabase]: the constructor's two loops
      ([index_from], [link]), both lookups, [check_approach_against_filters]
      (no short circuit) and the [query] generator, all against the class
      [Callable] that states what a filter offers the query loop.
    - [Filters]: the [AttributeFilter] hierarchy as one record tagged by
      its class, [__call__] with Python's comparison semantics
      ([py_compare]), the [Callable] instance, [create_filters] (with its
      truthiness tests) and [limit] (with islice's range checks).
    - [QueryGen]: [NEODatabase.query] as the generator object Python
      runs: the [frame] a [next()] call resumes (created, suspended in
      the filtering or the plain loop on the approaches left, finished),
      [gen_next] for one call, the traces of calls as an inductive
      relation [steps] indexed by the approaches received, and
      [eventually] for what some later call produces.
    - [Pipeline]: main.py's composition [limit(query(create_filters(..)))]
      (modelled from the spec) and the end-to-end theorems and scenarios.
    - [Writers]: write.py's [write_to_csv] and [write_to_json] down to the
      cells of each CSV row and the value tree [json.dump] encodes.
    - [Consumers]: the two loops that drive the generator object:
      islice's loop inside [limit] ([islice_next], which stops after the
      [n]-th item and returns the frame it leaves the generator in) and
      the [for result in results] loop of [write_to_csv]
      ([csv_rows_next], one [next()] per row, by well-founded recursion
      on the generator's variant).
    - [Display]: [NearEarthObject.__str__] / [__repr__],
      [CloseApproach.__str__] / [__repr__] (models.py) and
      [AttributeFilter.__repr__] (filters.py), each the f-string of the
      code over [PyFormat]'s formatting and [Writers.py_str].
    - [Extract]: extract.py's row conversions: [csv.DictReader]'s row
      dicts, the loop bodies of [load_neos] and [load_approaches]
      ([dict(zip(fields, data))], [float(...)] before the constructor),
      and [load_approaches] on the value [json.load] returns
      ([load_approaches_json]: [get('data')], iteration, [zip]).
    - [Main]: the query command of main.py end to end, from the loaded
      files to the rows of the CSV file.

    ** What is proved

    - Linkage ([Database]): from unlinked loader output, every approach
      index is in an NEO's list exactly when it points to that NEO, once,
      in input order; references point to an NEO of the same (last)
      designation; orphans stay unlinked.  Lookups are specified against
      [upper()] / [capitalize()] (the designation lookup is not exact,
      as its docstring says, but case-normalised, as the spec says).
    - Queries: [query] yields exactly the approaches passing every filter
      when none raises, raises the first exception otherwise, is monotone
      in the filters; the loop equals [all()] without exceptions.
    - The query generator ([QueryGen]): when no filter raises, calling
      [next()] until it stops receives exactly the matching approaches,
      in order ([gen_observe_spec]); along any trace of calls, what has
      been received is the matches among the approaches the chosen loop
      has passed, and the loop resumes on the rest ([steps_trace_ok], by
      induction on the trace), so nothing is yielded twice or out of
      order; every matching approach with no raising filter before it is
      yielded by some call ([gen_yields_matching], liveness).
    - Filters: typed filters never raise on linked approaches, NEO filters
      raise on orphans, NaN never matches, and [create_filters] implements
      the criteria for non-zero bounds; a bound of [0.0], whatever the
      other criteria, leaves the query's result unchanged
      ([create_filters_drops_zero_bound]); with a hazardous or diameter
      criterion the generator raises [AttributeError] at the first
      orphan, after running over the approaches before it
      ([orphan_neo_criterion_raises]).
    - [limit]: pass-through for [None]/[0], first [n] items otherwise,
      [ValueError] outside [0 .. sys.maxsize], and over a query it never
      examines approaches after the [n]-th match: on the generator
      object, islice's [n] calls of [next()] leave it suspended right
      after that match ([Consumers.limit_suspends_after_nth]).
    - Interleaving ([Consumers]): when a filter raises inside the
      generator [write_to_csv] pulls from, the rows of the earlier
      matches are already written and the filter's exception escapes
      the writer ([csv_rows_next_filter_raises]).
    - Writers: the exact CSV row and JSON object of a linked approach,
      the partial CSV file and the absent JSON file on an orphan, and RFC
      validity of the JSON output exactly when its numbers are finite.
    - Loaders: [DictReader] rows hold the cell of each column (or
      [None]), the loaders return unlinked, well-formed objects, so the
      linkage theorems apply to what main.py loads, and a neos.csv row's
      designation, name and [pha] flag come back out of the CSV writer.
      On documents of cad.json's shape each approach is built from the
      cells under the fields named [des], [cd], [dist] and [v_rel],
      wherever they sit ([load_approaches_json_fields]); otherwise the
      loader raises [AttributeError] or [TypeError] as stated by
      [load_approaches_json_errors].
    - Display: [NearEarthObject.__repr__] is
      unambiguous on designation, name and hazard flag (the literal of
      [repr] ends at its closing quote); [str] of a database approach
      names the last NEO of its designation, and raises
      [AttributeError] when none has it.  The library lemmas this rests
      on (in [PyFormat]): the [.{d}f] text of a finite float has the
      shape sign, digits, point, [d] digits and reads back as the value
      rounded half to even, within half a unit of the last decimal;
      [repr] of a string evaluates back to it.
    - End to end ([Main]): after a successful load of designated rows
      whose approaches all have their NEO, the query command writes the
      CSV header and the rows of the first [n] matching approaches.
    - The findings (the designation docstring, zero bounds,
      [capitalize], duplicate designations,
      orphans and NEO filters, no short circuit, [null] names, [NaN] in
      JSON, [str] of an orphan approach, the lossy [__repr__]) are
      theorems in [Database], [Filters], [Pipeline], [Consumers],
      [Writers] and [Display].

    ** Bounds and fuel

    No definition of the code needs fuel: every loop of the code is a
    structural recursion over a list or a finite generator, and the
    literal reader [lex_str] recurses on the rest of its input.  The
    consumer of the query generator ([QueryGen.run], [QueryGen.observe])
    calls [next()] a given number of times, and the writer's loop
    [Consumers.csv_rows_next] needs no fuel, its recursion being
    well-founded on the same variant; [len(approaches) + 1] calls
    are enough, since each call on a live frame removes at least one
    approach from those left, or finishes the generator
    ([gen_terminates]).  Integers keep their
    width where the code checks it: [limit]'s [n] is a [Z] checked
    against [sys.maxsize = 2^63 - 1] as islice does.  Years are four
    digits ([MAXYEAR = 9999]), as the fixed-width format requires.
    [format_fixed] works on the exact rational value of the float, so
    its digits are those CPython prints for any precision [d].

    ** Not modelled

    File I/O, the CSV tokenizer and the text parsing of [json.load] (the
    loaders start from rows of cells and from the JSON value), loaded
    rows without a string designation (Python builds an object whose
    designation is [None] or a number, which the records do not
    represent), argument parsing and
    printing in main.py, case mapping beyond ASCII ([str.upper] and
    [str.capitalize] act on ASCII letters only), characters beyond U+00FF
    in strings (a character is an [ascii], so [repr]'s escapes are
    modelled on the Latin-1 range), the byte-level CSV quoting and JSON
    text encoding, [repr(float)] and [float(str)] (parameters of the
    sections of [Writers], [Extract] and [Display]), and the escapes of
    string literals that [repr] never writes ([\a], octal, [\N],
    [\u]), which [lex_str] rejects.
*)

From stdpp Require Export base list gmap strings.
From Stdlib Require Export ZArith Lia ZifyNat ZifyBool Sorted.

(** [lia] also reasons about [Nat.div], [Nat.modulo] by constants and the
    boolean comparisons of the code. *)
Ltac Zify.zify_post_hook ::= Z.to_euclidean_division_equations.

Declare Scope py_scope.
Delimit Scope py_scope with py.

(** ** Python exceptions as values *)

Inductive exn :=
| AttributeError
| TypeError
| ValueError
| UnsupportedCriterionError.

#[export] Instance exn_eq_dec : EqDecision exn.
Proof. solve_decision. Defined.

(** A computation that returns a value or raises. *)
Inductive result (A : Type) : Type :=
| Ok (a : A)
| Raise (e : exn).
Arguments Ok {A} a.
Arguments Raise {A} e.

#[export] Instance result_eq_dec {A} `{EqDecision A} : EqDecision (result A).
Proof. solve_decision. Defined.

Definition rbind {A B} (c : result A) (k : A -> result B) : result B :=
  match c with
  | Ok a => k a
  | Raise e => Raise e
  end.

Notation "x <- c ;; k" := (rbind c (fun x => k))
  (at level 100, c at next level, right associativity) : py_scope.
Open Scope py_scope.

Lemma rbind_Ok {A B} (a : A) (k : A -> result B) : rbind (Ok a) k = k a.
Proof. reflexivity. Qed.

Lemma rbind_Raise {A B} e (k : A -> result B) : rbind (Raise e) k = Raise e.
Proof. reflexivity. Qed.

Lemma rbind_eq_Ok {A B} (c : result A) (k : A -> result B) b :
  rbind c k = Ok b -> exists a, c = Ok a /\ k a = Ok b.
Proof. destruct c; simpl; [eauto | discriminate]. Qed.

(** ** Generators

    A Python generator that is consumed to the end is a finite sequence
    of yielded values, terminated either by exhaustion or by an exception
    escaping the generator body. *)
Inductive gen (A : Type) : Type :=
| GDone
| GYield (a : A) (rest : gen A)
| GRaise (e : exn).
Arguments GDone {A}.
Arguments GYield {A} a rest.
Arguments GRaise {A} e.

Fixpoint gen_of_list {A} (l : list A) : gen A :=
  match l with
  | [] => GDone
  | a :: l' => GYield a (gen_of_list l')
  end.

(** [list(g)]: consume the whole generator. *)
Fixpoint drain {A} (g : gen A) : result (list A) :=
  match g with
  | GDone => Ok []
  | GYield a g' => l <- drain g' ;; Ok (a :: l)
  | GRaise e => Raise e
  end.

(** [itertools.islice(g, 0, n)] consumed by [list]: CPython's islice stops
    as soon as [n] items were produced, without pulling the next one. *)
Fixpoint islice {A} (n : nat) (g : gen A) : result (list A) :=
  match n with
  | 0 => Ok []
  | S n' =>
      match g with
      | GDone => Ok []
      | GYield a g' => l <- islice n' g' ;; Ok (a :: l)
      | GRaise e => Raise e
      end
  end.

(** ** Python truthiness ([bool(x)]) *)
Class Truthy (A : Type) := truthy : A -> bool.
Arguments truthy {A _} _.

#[export] Instance truthy_bool : Truthy bool := fun b => b.
#[export] Instance truthy_option {A} `{Truthy A} : Truthy (option A) :=
  fun o => match o with Some a => truthy a | None => false end.
#[export] Instance truthy_list {A} : Truthy (list A) :=
  fun l => match l with [] => false | _ => true end.
#[export] Instance truthy_string : Truthy string :=
  fun s => match s with EmptyString => false | _ => true end.

(** ** Shared lemmas and automation *)

Create HintDb neo.
Create Rewrite HintDb neo.

Lemma drain_gen_of_list {A} (l : list A) : drain (gen_of_list l) = Ok l.
Proof. induction l as [|a l IH]; simpl; [done | by rewrite IH]. Qed.

Lemma islice_gen_of_list {A} n (l : list A) : islice n (gen_of_list l) = Ok (take n l).
Proof.
  revert l; induction n as [|n IH]; intros [|a l]; simpl; try done.
  by rewrite IH.
Qed.

Lemma islice_drain {A} n (g : gen A) l :
  drain g = Ok l -> islice n g = Ok (take n l).
Proof.
  revert g l; induction n as [|n IH]; intros g l Hd; [done |].
  destruct g as [|a g|e]; simpl in *; simplify_eq; [done |].
  destruct (drain g) as [l'|] eqn:E; simpl in Hd; simplify_eq.
  by rewrite (IH _ _ E).
Qed.

(** Two booleans are equal when they are true together. *)
Lemma bool_eq_iff (b1 b2 : bool) : (b1 = true <-> b2 = true) -> b1 = b2.
Proof. destruct b1, b2; intros [H1 H2]; try done; [by rewrite H1 | by rewrite H2]. Qed.

#[export] Hint Rewrite @drain_gen_of_list @islice_gen_of_list : neo.
#[export] Hint Resolve rbind_eq_Ok : neo.

(** [inv_result H] splits a hypothesis [rbind c k = Ok b] into the
    successful intermediate value and the continuation. *)
Ltac inv_result H :=
  let a := fresh "a" in
  let Ha := fresh "Ha" in
  let Hk := fresh "Hk" in
  apply rbind_eq_Ok in H as (a & Ha & Hk).

(** ** Python [str] methods on ASCII text

    [str.upper], [str.lower] and [str.capitalize] on strings of ASCII
    characters (designations and names of the data set are ASCII; the
    Unicode case tables agree with these on ASCII).  Since Python 3.8
    [capitalize] puts the first character in title case and lowercases
    all the others. *)
Definition ascii_upper (c : Ascii.ascii) : Ascii.ascii :=
  let n := Ascii.nat_of_ascii c in
  if (97 <=? n) && (n <=? 122) then Ascii.ascii_of_nat (n - 32) else c.

Definition ascii_lower (c : Ascii.ascii) : Ascii.ascii :=
  let n := Ascii.nat_of_ascii c in
  if (65 <=? n) && (n <=? 90) then Ascii.ascii_of_nat (n + 32) else c.

Fixpoint str_map (f : Ascii.ascii -> Ascii.ascii) (s : string) : string :=
  match s with
  | EmptyString => EmptyString
  | String c s' => String (f c) (str_map f s')
  end.

Definition str_upper (s : string) : string := str_map ascii_upper s.
Definition str_lower (s : string) : string := str_map ascii_lower s.

Definition str_capitalize (s : string) : string :=
  match s with
  | EmptyString => EmptyString
  | String c s' => String (ascii_upper c) (str_lower s')
  end.

Lemma str_map_length f s : String.length (str_map f s) = String.length s.
Proof. induction s; simpl; auto. Qed.

Lemma ascii_upper_idem c : ascii_upper (ascii_upper c) = ascii_upper c.
Proof. destruct c as [[] [] [] [] [] [] [] []]; reflexivity. Qed.

Lemma str_upper_idem s : str_upper (str_upper s) = str_upper s.
Proof.
  unfold str_upper. induction s as [|c s IH]; cbn [str_map]; [done|].
  by rewrite ascii_upper_idem, IH.
Qed.

(** ** Linear search ([for x in l: if p(x): return x; return None]) *)

Lemma find_Some_elem {A} (f : A -> bool) (l : list A) x :
  List.find f l = Some x -> x ∈ l /\ f x = true.
Proof. intros H. apply find_some in H as [H1 H2]. by rewrite list_elem_of_In. Qed.

Lemma find_None_iff {A} (f : A -> bool) (l : list A) :
  List.find f l = None <-> forall x, x ∈ l -> f x = false.
Proof.
  induction l as [|y l IH]; simpl.
  - split; [set_solver | done].
  - destruct (f y) eqn:E; split; try done.
    + intros H. by rewrite (H y) in E by (apply elem_of_cons; by left).
    + intros H x [->|Hx]%elem_of_cons; [done|]. by apply IH.
    + intros H. apply IH. intros x Hx. apply H, elem_of_cons. by right.
Qed.

(** When at most one element satisfies the test, the search finds it. *)
Lemma find_unique {A} (f : A -> bool) (l : list A) x :
  (forall y z, y ∈ l -> z ∈ l -> f y = true -> f z = true -> y = z) ->
  x ∈ l -> f x = true -> List.find f l = Some x.
Proof.
  intros Hu Hx Hf. destruct (List.find f l) as [y|] eqn:E.
  - apply find_Some_elem in E as [Hy Hfy]. f_equal. by apply Hu.
  - apply find_None_iff with (x := x) in E; [congruence | done].
Qed.

(** Two elements of a list with the same key are equal when the keys are
    distinct. *)
Lemma NoDup_fmap_elem_inj {A B} (g : A -> B) (l : list A) x y :
  NoDup (g <$> l) -> x ∈ l -> y ∈ l -> g x = g y -> x = y.
Proof.
  induction l as [|z l IH]; simpl; [set_solver|].
  intros [Hz Hl]%NoDup_cons [->|Hx]%elem_of_cons [->|Hy]%elem_of_cons Hg; auto.
  - exfalso. apply Hz. rewrite Hg. by apply list_elem_of_fmap_2.
  - exfalso. apply Hz. rewrite <- Hg. by apply list_elem_of_fmap_2.
Qed.

(** A strictly increasing list has no repetition. *)
Lemma StronglySorted_lt_NoDup (l : list nat) : StronglySorted lt l -> NoDup l.
Proof.
  induction 1 as [|a l Hs IH Hf]; constructor; [|done].
  intros Ha. apply Forall_forall with (x := a) in Hf; [lia | done].
Qed.

(** Filtering with a stronger test keeps a sublist of what a weaker test
    keeps, in the same order. *)
Lemma filter_sublist_mono {A} (P Q : A -> Prop) `{!forall x, Decision (P x)}
    `{!forall x, Decision (Q x)} (l : list A) :
  (forall x, x ∈ l -> P x -> Q x) -> filter P l `sublist_of` filter Q l.
Proof.
  induction l as [|x l IH]; intros Himp; [constructor|].
  rewrite !filter_cons.
  assert (IH' : filter P l `sublist_of` filter Q l)
    by (apply IH; intros y Hy; apply Himp, elem_of_cons; by right).
  case_decide as HP; case_decide as HQ.
  - by apply sublist_skip.
  - exfalso. apply HQ, Himp; [apply elem_of_cons; by left | done].
  - by apply sublist_cons.
  - done.
Qed.

(** ** Generators run one after the other *)

Fixpoint gen_app {A} (g1 g2 : gen A) : gen A :=
  match g1 with
  | GDone => g2
  | GYield a g => GYield a (gen_app g g2)
  | GRaise e => GRaise e
  end.

(** [islice] only pulls from the second generator when the first one has
    fewer than [n] items. *)
(** A stream followed by an exception raises it once the stream is drained. *)
Lemma drain_gen_app_raise {A} (g : gen A) l e :
  drain g = Ok l -> drain (gen_app g (GRaise e)) = Raise e.
Proof.
  revert l; induction g as [|a g IH|e']; intros l Hd; simpl in *; [done| |done].
  destruct (drain g) as [l'|] eqn:E; [|done]. by rewrite (IH l').
Qed.

Lemma islice_gen_app_l {A} n (g1 g2 : gen A) l :
  drain g1 = Ok l -> n <= length l -> islice n (gen_app g1 g2) = islice n g1.
Proof.
  revert n l; induction g1 as [|a g IH|e]; intros n l Hd Hn; simpl in *.
  - simplify_eq. simpl in Hn. by replace n with 0 by lia.
  - destruct (drain g) as [l'|] eqn:E; simpl in Hd; simplify_eq. simpl in Hn.
    destruct n as [|n]; [done|]. simpl. by rewrite (IH n l' eq_refl) by lia.
  - done.
Qed.

(** Two tests that agree on the elements of a list filter it alike. *)
Lemma filter_ext_in {A} (P Q : A -> Prop) `{!forall x, Decision (P x)}
    `{!forall x, Decision (Q x)} (l : list A) :
  (forall x, x ∈ l -> P x <-> Q x) -> filter P l = filter Q l.
Proof.
  induction l as [|x l IH]; intros HPQ; [done|]. rewrite !filter_cons.
  rewrite IH by (intros y Hy; apply HPQ, elem_of_cons; by right).
  assert (Hx : P x <-> Q x) by (apply HPQ, elem_of_cons; by left).
  do 2 case_decide; naive_solver.
Qed.

(** ** Python dictionaries

    A [dict] with string keys, as the code builds it with literals,
    [d[k] = v], [{**d1, **d2}] and [dict(zip(keys, values))]: a list of
    entries in insertion order, one per key.  Assigning an existing key
    keeps its position, a new key goes to the end. *)
Definition pydict (V : Type) := list (string * V).

Fixpoint dict_get {V} (d : pydict V) (k : string) : option V :=
  match d with
  | [] => None
  | (k', v) :: d' => if String.eqb k' k then Some v else dict_get d' k
  end.

(** [d.get(k, default)]. *)
Definition dict_get_or {V} (d : pydict V) (k : string) (dflt : V) : V :=
  default dflt (dict_get d k).

(** [d[k] = v]. *)
Fixpoint dict_set {V} (d : pydict V) (k : string) (v : V) : pydict V :=
  match d with
  | [] => [(k, v)]
  | (k', v') :: d' => if String.eqb k' k then (k, v) :: d' else (k', v') :: dict_set d' k v
  end.

(** [{**d1, **d2}], or [d1.update(d2)] on a copy: the entries of [d2]
    assigned in order. *)
Definition dict_update {V} (d1 d2 : pydict V) : pydict V :=
  fold_left (fun d kv => dict_set d kv.1 kv.2) d2 d1.

(** [dict(pairs)]: a later pair of the same key overrides an earlier one. *)
Definition dict_of_pairs {V} (l : list (string * V)) : pydict V := dict_update [] l.

Lemma dict_get_set {V} (d : pydict V) k v k' :
  dict_get (dict_set d k v) k' = if String.eqb k k' then Some v else dict_get d k'.
Proof.
  induction d as [|[k0 v0] d IH]; simpl.
  - done.
  - destruct (String.eqb_spec k0 k) as [->|Hne]; simpl; [by destruct (String.eqb k k')|].
    rewrite IH. destruct (String.eqb_spec k0 k'), (String.eqb_spec k k'); congruence.
Qed.

(** A key of [d2] gets the last value [d2] gives it; the other keys keep
    their value in [d1]. *)
Lemma dict_get_update {V} (d1 d2 : pydict V) k :
  dict_get (dict_update d1 d2) k =
    match dict_get (reverse d2) k with Some v => Some v | None => dict_get d1 k end.
Proof.
  unfold dict_update. revert d1; induction d2 as [|[k0 v0] d2 IH]; intros d1; simpl; [done|].
  rewrite IH, reverse_cons. clear IH. induction (reverse d2) as [|[k1 v1] r IHr]; simpl.
  - rewrite dict_get_set. by destruct (String.eqb k0 k).
  - by destruct (String.eqb k1 k).
Qed.

(** The keys of [dict_set d k v]: those of [d], and [k] at the end when
    it is new. *)
Lemma dict_set_keys {V} (d : pydict V) k v :
  map fst (dict_set d k v) = if bool_decide (k ∈ map fst d) then map fst d else map fst d ++ [k].
Proof.
  induction d as [|[k0 v0] d IH]; simpl; [done|].
  destruct (String.eqb_spec k0 k) as [->|Hne]; simpl.
  - rewrite bool_decide_true by (apply elem_of_cons; by left). done.
  - rewrite IH. case_bool_decide as Hin; case_bool_decide as Hin'; try done.
    + exfalso. apply Hin', elem_of_cons. by right.
    + exfalso. apply elem_of_cons in Hin' as [->|]; [done|]. by apply Hin.
Qed.

#[export] Hint Rewrite @dict_get_set : neo.

(** ** Mapping a fallible function over a list

    [[f(x) for x in l]] where [f] may raise: the first exception stops
    the loop. *)
Fixpoint mapR {A B} (f : A -> result B) (l : list A) : result (list B) :=
  match l with
  | [] => Ok []
  | x :: l' => y <- f x ;; ys <- mapR f l' ;; Ok (y :: ys)
  end.

Lemma mapR_Ok {A B} (f : A -> result B) l ys :
  mapR f l = Ok ys <-> Forall2 (fun x y => f x = Ok y) l ys.
Proof.
  revert ys; induction l as [|x l IH]; intros ys; simpl.
  - split; [intros [= <-]; constructor | intros H; by inversion H].
  - destruct (f x) as [y|e] eqn:Ef; simpl.
    + destruct (mapR f l) as [ys'|e] eqn:Em; simpl.
      * split; [intros [= <-]; constructor; [done | by apply IH]|].
        intros (y' & ys'' & Hy & Hl & ->)%Forall2_cons_inv_l.
        apply IH in Hl. cbn in Hy. rewrite Ef in Hy. by simplify_eq.
      * split; [done|]. intros (y' & ys'' & _ & Hl & _)%Forall2_cons_inv_l.
        apply IH in Hl. by simplify_eq.
    + split; [done|]. intros (y' & ? & Hy & _)%Forall2_cons_inv_l. cbn in Hy. rewrite Ef in Hy. by simplify_eq.
Qed.

(** When every call returns or raises [e], and one raises, the map
    raises [e]. *)
Lemma mapR_Raise {A B} (f : A -> result B) l e :
  (forall x, x ∈ l -> f x = Raise e \/ exists y, f x = Ok y) ->
  (exists x, x ∈ l /\ f x = Raise e) -> mapR f l = Raise e.
Proof.
  induction l as [|x l IH]; intros Hall (z & Hz & Hfz); [by apply elem_of_nil in Hz|].
  simpl. destruct (Hall x) as [-> | [y Hy]]; [apply elem_of_cons; by left|done|].
  rewrite Hy. simpl. rewrite IH; [done| |].
  - intros w Hw. apply Hall, elem_of_cons. by right.
  - apply elem_of_cons in Hz as [->|Hz]; [congruence|]. by exists z.
Qed.

(** Lookups in a dict whose keys are distinct. *)
Lemma dict_get_Some_elem {V} (d : pydict V) k v : dict_get d k = Some v -> (k, v) ∈ d.
Proof.
  induction d as [|[k0 v0] d IH]; simpl; [done|].
  destruct (String.eqb_spec k0 k) as [->|_]; intros H; [simplify_eq; by left|].
  right. by apply IH.
Qed.

Lemma dict_get_None {V} (d : pydict V) k : dict_get d k = None <-> k ∉ map fst d.
Proof.
  induction d as [|[k0 v0] d IH]; simpl; [split; [intros _ ?%elem_of_nil; done|done]|].
  rewrite elem_of_cons. destruct (String.eqb_spec k0 k) as [->|Hne]; [naive_solver|].
  rewrite IH. naive_solver.
Qed.

Lemma dict_get_NoDup {V} (d : pydict V) k v :
  NoDup (map fst d) -> (k, v) ∈ d -> dict_get d k = Some v.
Proof.
  induction d as [|[k0 v0] d IH]; simpl; [by intros _ ?%elem_of_nil|].
  intros (Hk0 & Hnd)%NoDup_cons Hin%elem_of_cons.
  destruct (String.eqb_spec k0 k) as [->|Hne].
  - destruct Hin as [Heq|Hin]; [by simplify_eq|].
    exfalso. apply Hk0, list_elem_of_fmap. by exists (k, v).
  - destruct Hin as [Heq|Hin]; [simplify_eq|by apply IH].
Qed.

(** [dict(pairs)] with distinct keys looks up like the pairs. *)
Lemma dict_of_pairs_get {V} (l : list (string * V)) k :
  NoDup (map fst l) -> dict_get (dict_of_pairs l) k = dict_get l k.
Proof.
  intros Hnd. unfold dict_of_pairs. rewrite dict_get_update.
  assert (Hp : map fst (reverse l) ≡ₚ map fst l)
    by (apply Permutation_map, reverse_Permutation).
  assert (Hr : NoDup (map fst (reverse l))) by by rewrite Hp.
  destruct (dict_get l k) as [v|] eqn:E.
  - rewrite (dict_get_NoDup _ k v Hr); [done|].
    apply elem_of_reverse, dict_get_Some_elem, E.
  - apply dict_get_None in E. rewrite (proj2 (dict_get_None _ _)); [done|].
    by rewrite Hp.
Qed.

Lemma zip_fst_sublist {A B} (ks : list A) (vs : list B) : map fst (zip ks vs) `sublist_of` ks.
Proof.
  revert vs; induction ks as [|k ks IH]; intros [|v vs]; simpl.
  - done.
  - done.
  - apply sublist_nil_l.
  - by apply sublist_skip.
Qed.

(** [dict(zip(keys, values))] with distinct keys: the [i]-th key maps to
    the [i]-th value, when there is one. *)
Lemma dict_get_zip {V} (ks : list string) (vs : list V) i k :
  NoDup ks -> ks !! i = Some k -> dict_get (zip ks vs) k = vs !! i.
Proof.
  revert vs i; induction ks as [|k0 ks IH]; intros vs i Hnd Hi; [done|].
  apply NoDup_cons in Hnd as [Hk0 Hnd]. destruct vs as [|v vs]; [by destruct i|].
  change (zip (k0 :: ks) (v :: vs)) with ((k0, v) :: zip ks vs). cbn [dict_get].
  destruct i as [|i]; simpl in Hi |- *.
  - simplify_eq. by rewrite String.eqb_refl.
  - destruct (String.eqb_spec k0 k) as [->|_]; [|by apply IH].
    exfalso. apply Hk0. by eapply list_elem_of_lookup_2.
Qed.

(** A loop of calls that each return completes. *)
Lemma mapR_total {A B} (f : A -> result B) l :
  (forall x, x ∈ l -> exists y, f x = Ok y) -> exists ys, mapR f l = Ok ys.
Proof.
  induction l as [|x l IH]; intros Hall; [by exists []|].
  destruct (Hall x) as [y Hy]; [apply elem_of_cons; by left|].
  destruct IH as [ys Hys]; [intros z Hz; apply Hall, elem_of_cons; by right|].
  exists (y :: ys). simpl. by rewrite Hy, Hys.
Qed.

(** Mapping the values of a dict commutes with lookups, also through
    [dict(pairs)]. *)
Lemma dict_get_fmap {V W} (f : V -> W) (d : pydict V) k :
  dict_get (prod_map id f <$> d) k = f <$> dict_get d k.
Proof.
  induction d as [|[k0 v0] d IH]; [done|].
  change (dict_get ((k0, f v0) :: (prod_map id f <$> d)) k = f <$> dict_get ((k0, v0) :: d) k).
  simpl. by destruct (String.eqb k0 k).
Qed.

Lemma dict_of_pairs_fmap {V W} (f : V -> W) (l : list (string * V)) k :
  dict_get (dict_of_pairs (prod_map id f <$> l)) k = f <$> dict_get (dict_of_pairs l) k.
Proof.
  unfold dict_of_pairs. rewrite !dict_get_update, <- fmap_reverse, dict_get_fmap.
  by destruct (dict_get (reverse l) k).
Qed.

Lemma zip_fmap_r {A B C} (f : B -> C) (ks : list A) (vs : list B) :
  zip ks (f <$> vs) = prod_map id f <$> zip ks vs.
Proof.
  revert vs; induction ks as [|k ks IH]; intros [|v vs]; [done..|].
  change ((k, f v) :: zip ks (f <$> vs) = (k, f v) :: (prod_map id f <$> zip ks vs)).
  by rewrite IH.
Qed.
