(* ===== verification/PyFloat.v ===== *)
(** * Python floats as the program uses them

    The core never does arithmetic on floats: it compares them
    ([operator.eq], [operator.le], [operator.ge] in the filters), tests
    their truthiness ([diameter or float("nan")], [if distance_min:]) and
    stores them.  A finite IEEE double is a rational number and the IEEE
    comparisons of two finite doubles are the comparisons of those
    rationals, so a float is modelled as a rational ([PFin]), one of the
    two infinities, or NaN.  Every comparison involving NaN is false.

    Two rationals with different representations ([1#2] and [2#4]) stand
    for the same float: [feqv] is that equivalence and every operation of
    the file is [Proper] for it. *)

From S2P Require Import Prelude.
From Stdlib Require Import QArith_base.

Inductive pyfloat :=
| PFin (q : Q)
| PInf
| NInf
| PNaN.

#[export] Instance Q_eq_dec : EqDecision Q.
Proof.
  intros [a b] [c d].
  destruct (decide (a = c)), (decide (b = d)); [left; by subst | right; congruence..].
Defined.

#[export] Instance pyfloat_eq_dec : EqDecision pyfloat.
Proof. solve_decision. Defined.

(** [operator.eq] on floats. *)
Definition float_eq (x y : pyfloat) : bool :=
  match x, y with
  | PFin a, PFin b => Qeq_bool a b
  | PInf, PInf | NInf, NInf => true
  | _, _ => false
  end.

(** [operator.le] on floats. *)
Definition float_le (x y : pyfloat) : bool :=
  match x, y with
  | PNaN, _ | _, PNaN => false
  | NInf, _ | _, PInf => true
  | PInf, _ | _, NInf => false
  | PFin a, PFin b => Qle_bool a b
  end.

(** [operator.ge]: [x >= y] is [y <= x] for IEEE floats, NaN included. *)
Definition float_ge (x y : pyfloat) : bool := float_le y x.

(** [bool(x)]: only zero (either sign) is falsy; NaN and the infinities
    are truthy. *)
#[export] Instance truthy_float : Truthy pyfloat :=
  fun x => match x with PFin q => negb (Qeq_bool q 0) | _ => true end.

(** [x if x else float("nan")] (models.py, [CloseApproach.__init__]). *)
Definition nan_if_falsy (x : pyfloat) : pyfloat :=
  if truthy x then x else PNaN.

(** [x or float("nan")] where [x] may be [None]
    (models.py, [NearEarthObject.__init__]). *)
Definition or_nan (x : option pyfloat) : pyfloat :=
  match x with
  | Some f => nan_if_falsy f
  | None => PNaN
  end.

(** A float literal [num / den], e.g. [0.32] is [float_lit 32 100]. *)
Definition float_lit (num : Z) (den : positive) : pyfloat := PFin (Qmake num den).

(** [bool] is a subclass of [int]: [True] compares as [1.0]. *)
Definition float_of_bool (b : bool) : pyfloat := PFin (if b then 1 else 0).

Definition is_nan (x : pyfloat) : bool :=
  match x with PNaN => true | _ => false end.

(** Same float, possibly written with different rationals. *)
Definition feqv (x y : pyfloat) : Prop :=
  match x, y with
  | PFin a, PFin b => a == b
  | _, _ => x = y
  end.

(** ** The equivalence and the morphisms *)

#[export] Instance feqv_equiv : Equivalence feqv.
Proof.
  split.
  - intros [q| | |]; simpl; [apply Qeq_refl | done..].
  - intros [a| | |] [b| | |]; simpl; intros H; first [congruence | by apply Qeq_sym].
  - intros [a| | |] [b| | |] [c| | |]; simpl; intros H1 H2;
    first [congruence | by apply Qeq_trans with b].
Qed.

#[export] Instance float_le_proper : Proper (feqv ==> feqv ==> eq) float_le.
Proof.
  intros [a| | |] [a'| | |] Ha [b| | |] [b'| | |] Hb; simpl in *; try done;
    try congruence.
  apply bool_eq_iff. rewrite !Qle_bool_iff. by rewrite Ha, Hb.
Qed.

#[export] Instance float_eq_proper : Proper (feqv ==> feqv ==> eq) float_eq.
Proof.
  intros [a| | |] [a'| | |] Ha [b| | |] [b'| | |] Hb; simpl in *; try done;
    try congruence.
  apply bool_eq_iff. rewrite !Qeq_bool_iff. by rewrite Ha, Hb.
Qed.

#[export] Instance float_ge_proper : Proper (feqv ==> feqv ==> eq) float_ge.
Proof. intros x x' Hx y y' Hy. unfold float_ge. by rewrite Hx, Hy. Qed.

#[export] Instance truthy_float_proper : Proper (feqv ==> eq) (truthy (A:=pyfloat)).
Proof.
  intros [a| | |] [b| | |] H; cbn in *; try done; try congruence.
  f_equal. apply bool_eq_iff. rewrite !Qeq_bool_iff. by rewrite H.
Qed.

(** ** NaN and the comparisons *)

Lemma float_le_nan_l y : float_le PNaN y = false.
Proof. done. Qed.

Lemma float_le_nan_r x : float_le x PNaN = false.
Proof. by destruct x. Qed.

Lemma float_eq_nan_l y : float_eq PNaN y = false.
Proof. done. Qed.

Lemma float_eq_nan_r x : float_eq x PNaN = false.
Proof. by destruct x. Qed.

Lemma float_ge_nan_l y : float_ge PNaN y = false.
Proof. apply float_le_nan_r. Qed.

Lemma float_ge_nan_r x : float_ge x PNaN = false.
Proof. done. Qed.

#[export] Hint Rewrite float_le_nan_l float_le_nan_r float_eq_nan_l float_eq_nan_r
  float_ge_nan_l float_ge_nan_r : neo.

(** ** Order facts on the non-NaN floats *)

Lemma float_le_refl x : is_nan x = false -> float_le x x = true.
Proof. destruct x; simpl; try done. intros _. apply Qle_bool_iff, Qle_refl. Qed.

Lemma float_le_trans x y z :
  float_le x y = true -> float_le y z = true -> float_le x z = true.
Proof.
  destruct x as [a| | |], y as [b| | |], z as [c| | |]; simpl; try done.
  rewrite !Qle_bool_iff. apply Qle_trans.
Qed.

Lemma float_le_total x y :
  is_nan x = false -> is_nan y = false ->
  float_le x y = true \/ float_le y x = true.
Proof.
  destruct x as [a| | |], y as [b| | |]; simpl; auto; try done.
  intros _ _. rewrite !Qle_bool_iff. destruct (Qlt_le_dec a b) as [H|H]; auto.
  left. by apply Qlt_le_weak.
Qed.

(** Equality is the conjunction of the two bounds, as [DateFilter] and
    the distance bounds rely on: [x == v] iff [x <= v] and [x >= v]. *)
Lemma float_eq_le_ge x y : float_eq x y = float_le x y && float_ge x y.
Proof.
  unfold float_ge.
  destruct x as [a| | |], y as [b| | |]; simpl; try done.
  apply bool_eq_iff. rewrite andb_true_iff, Qeq_bool_iff, !Qle_bool_iff.
  split; [intros H; rewrite H; split; apply Qle_refl | intros [H1 H2]; by apply Qle_antisym].
Qed.

(** The value [x or float("nan")] is never a falsy zero: a missing or
    zero diameter becomes NaN. *)
Lemma or_nan_truthy x : truthy (or_nan x) = true.
Proof.
  destruct x as [f|]; [|done]. unfold or_nan, nan_if_falsy.
  destruct (truthy f) eqn:E; [exact E | done].
Qed.

Lemma nan_if_falsy_truthy x : truthy x = true -> nan_if_falsy x = x.
Proof. unfold nan_if_falsy. by intros ->. Qed.

Lemma nan_if_falsy_falsy x : truthy x = false -> nan_if_falsy x = PNaN.
Proof. unfold nan_if_falsy. by intros ->. Qed.
