(* ===== verification/PyFormat.v ===== *)
(** * Python's text formatting of floats and strings

    The display methods of models.py and filters.py print floats with
    [format(x, ".2f")] / [".3f"] and strings with [repr].  This file
    models both as CPython computes them:

    - [format_fixed d x]: the exact value of the float rounded to [d]
      decimals, ties to even ([round_half_even]), printed as an optional
      minus sign, the integer digits (no leading zeros) and, when [d > 0],
      a point and exactly [d] digits; [nan], [inf], [-inf] for the
      special values.  A negative value that rounds to zero keeps its
      sign ([-0.00]).  [-0.0] itself is not a value of [pyfloat];
    - [py_repr_str s]: the quote CPython chooses (a double quote when the
      string holds a single quote and no double quote), backslash escapes
      for the backslash, the quote, tab, newline and carriage return,
      [\xhh] for the other unprintable characters of the Latin-1 range,
      and every other character as itself.

    Their readers, [read_fixed] (what [float(s)] computes on such a text)
    and [eval_str_literal] (what [eval] computes on a string literal),
    state the round trips. *)

From Stdlib Require Import Ascii QArith Qround Qabs Lqa DecimalString DecimalN.
From S2P Require Import Prelude PyFloat.

(** ** Fixed-point formatting *)

(** The decimal digits of [n], as [str(n)] prints them. *)
Definition digits (n : N) : list ascii :=
  String.list_ascii_of_string (NilEmpty.string_of_uint (N.to_uint n)).

(** Rounding of the exact value to the nearest integer, ties to even. *)
Definition round_half_even (q : Q) : Z :=
  let f := Qfloor q in
  match Qcompare (q - inject_Z f) (1 # 2) with
  | Lt => f
  | Gt => f + 1
  | Eq => if Z.even f then f else f + 1
  end.

(** The digits of the scaled magnitude [m], padded with zeros to at
    least [d + 1] digits, with the point before the last [d]. *)
Definition fixed_digits (d : nat) (m : N) : list ascii :=
  let ds := digits m in
  let p := repeat "0"%char (S d - length ds) ++ ds in
  let k := length p - d in
  take k p ++ (match d with 0 => [] | S _ => "."%char :: drop k p end).

(** [10 ^ d] as a rational. *)
Definition scale (d : nat) : Q := inject_Z (10 ^ Z.of_nat d)%Z.

(** [format(x, f".{d}f")]. *)
Definition format_fixed (d : nat) (x : pyfloat) : string :=
  match x with
  | PNaN => "nan"
  | PInf => "inf"
  | NInf => "-inf"
  | PFin q =>
      String.string_of_list_ascii
        ((if Qle_bool 0 q then [] else ["-"%char])
         ++ fixed_digits d (Z.abs_N (round_half_even (q * scale d))))
  end.

(** *** Reading a fixed-point text back *)

(** The text before the first point, and the text after it if any. *)
Fixpoint split_dot (l : list ascii) : list ascii * option (list ascii) :=
  match l with
  | [] => ([], None)
  | c :: l' =>
      if (c =? ".")%char then ([], Some l')
      else let '(a, b) := split_dot l' in (c :: a, b)
  end.

(** A nonempty run of decimal digits as a natural number (leading zeros
    allowed, as [float] allows them). *)
Definition read_uint (l : list ascii) : option N :=
  N.of_uint <$> NilZero.uint_of_string (String.string_of_list_ascii l).

(** The value [float(s)] gives to a fixed-point text: an optional minus
    sign, digits, and optionally a point and more digits, with at least
    one digit in all.  Texts of any other form ([float] also reads
    exponents, blanks and the special values) give [None]. *)
Definition read_fixed (s : string) : option Q :=
  let l := String.list_ascii_of_string s in
  let '(neg, body) := match l with
                      | c :: r => if (c =? "-")%char then (true, r) else (false, l)
                      | [] => (false, l)
                      end in
  let '(ip, fp) := split_dot body in
  let fp := default [] fp in
  match read_uint (ip ++ fp) with
  | Some n =>
      let v := Qdiv (inject_Z (Z.of_N n)) (scale (length fp)) in
      Some (if neg then Qopp v else v)
  | None => None
  end.

Definition is_digit (c : ascii) : bool :=
  (48 <=? nat_of_ascii c)%nat && (nat_of_ascii c <=? 57)%nat.

(** ** Lemmas on the digits *)

Lemma is_digit_not_dot c : is_digit c = true -> (c =? ".")%char = false.
Proof. intros H. apply Ascii.eqb_neq. by intros ->. Qed.

Lemma is_digit_not_minus c : is_digit c = true -> (c =? "-")%char = false.
Proof. intros H. apply Ascii.eqb_neq. by intros ->. Qed.

Lemma string_of_uint_digits u :
  Forall (fun c => is_digit c = true)
    (String.list_ascii_of_string (NilEmpty.string_of_uint u)).
Proof. induction u; simpl; by constructor. Qed.

Lemma digits_all n : Forall (fun c => is_digit c = true) (digits n).
Proof. apply string_of_uint_digits. Qed.

Lemma digits_nonempty n : digits n <> [].
Proof.
  unfold digits. destruct n as [|p]; [done|]. cbn [N.to_uint].
  destruct (Pos.to_uint p) eqn:E; [|done..].
  pose proof (DecimalPos.Unsigned.of_to p) as Hp.
  rewrite E in Hp. discriminate Hp.
Qed.

Lemma uint_of_zeros k l u :
  NilEmpty.uint_of_string (String.string_of_list_ascii l) = Some u ->
  NilEmpty.uint_of_string (String.string_of_list_ascii (repeat "0"%char k ++ l))
  = Some (Nat.iter k Decimal.D0 u).
Proof. intros H. induction k as [|k IH]; simpl; [done|]. by rewrite IH. Qed.

Lemma of_uint_D0s k u : N.of_uint (Nat.iter k Decimal.D0 u) = N.of_uint u.
Proof.
  induction k as [|k IH]; [done|]. simpl.
  rewrite <- DecimalN.Unsigned.of_uint_norm, <- IH, <- (DecimalN.Unsigned.of_uint_norm (Nat.iter k _ _)).
  reflexivity.
Qed.

Lemma uint_of_string_nonempty l :
  l <> [] ->
  NilZero.uint_of_string (String.string_of_list_ascii l)
  = NilEmpty.uint_of_string (String.string_of_list_ascii l).
Proof. by destruct l. Qed.

(** Zeros in front of the digits of [n] read back as [n]. *)
Lemma read_uint_digits k n : read_uint (repeat "0"%char k ++ digits n) = Some n.
Proof.
  unfold read_uint.
  rewrite uint_of_string_nonempty
    by (intros [_ H]%app_eq_nil; by apply (digits_nonempty n)).
  rewrite (uint_of_zeros k _ (N.to_uint n)); simpl.
  - by rewrite of_uint_D0s, DecimalN.Unsigned.of_to.
  - unfold digits. by rewrite String.string_of_list_ascii_of_string, NilEmpty.usu.
Qed.

Lemma split_dot_digits ip r :
  Forall (fun c => is_digit c = true) ip ->
  split_dot (ip ++ r) = (ip ++ (split_dot r).1, (split_dot r).2).
Proof.
  induction 1 as [|c ip Hc _ IH]; [simpl; by destruct (split_dot r)|].
  simpl. rewrite (is_digit_not_dot c Hc), IH. done.
Qed.

(** The layout [fixed_digits] produces: integer digits, and for [d > 0]
    a point and [d] digits, which together spell the padded digits of
    [m]. *)
Lemma fixed_digits_split d m :
  exists ip fp,
    fixed_digits d m = ip ++ (match d with 0 => [] | S _ => "."%char :: fp end) /\
    ip <> [] /\ length fp = d /\
    ip ++ fp = repeat "0"%char (S d - length (digits m)) ++ digits m.
Proof.
  unfold fixed_digits.
  set (p := repeat "0"%char (S d - length (digits m)) ++ digits m).
  assert (Hp : S d <= length p) by (subst p; rewrite length_app, repeat_length; lia).
  exists (take (length p - d) p), (drop (length p - d) p).
  split_and!.
  - by destruct d.
  - intros H. apply (f_equal length) in H. rewrite length_take in H. simpl in H. lia.
  - rewrite length_drop. lia.
  - apply take_drop.
Qed.

(** ** Lemmas on the rounding *)

Local Open Scope Q_scope.

Lemma scale_pos d : 0 < scale d.
Proof.
  unfold scale. change 0 with (inject_Z 0). rewrite <- Zlt_Qlt.
  apply Z.pow_pos_nonneg; lia.
Qed.

Lemma round_half_even_between q :
  (Qfloor q <= round_half_even q <= Qfloor q + 1)%Z.
Proof.
  unfold round_half_even.
  destruct (_ ?= _); [destruct (Z.even _)|..]; lia.
Qed.

Lemma round_half_even_nonneg q : 0 <= q -> (0 <= round_half_even q)%Z.
Proof.
  intros Hq. pose proof (Qlt_floor q) as H. pose proof (round_half_even_between q).
  assert (0 < Qfloor q + 1)%Z; [|lia].
  rewrite Zlt_Qlt, inject_Z_plus in *. change (inject_Z 0) with 0. lra.
Qed.

Lemma round_half_even_nonpos q : q < 0 -> (round_half_even q <= 0)%Z.
Proof.
  intros Hq. pose proof (Qfloor_le q) as H. pose proof (round_half_even_between q).
  assert (Qfloor q < 0)%Z; [|lia].
  rewrite Zlt_Qlt. change (inject_Z 0) with 0. lra.
Qed.

(** The rounded integer is within one half of the value. *)
Lemma round_half_even_close q : Qabs (inject_Z (round_half_even q) - q) <= 1 # 2.
Proof.
  apply Qabs_Qle_condition.
  pose proof (Qfloor_le q). pose proof (Qlt_floor q).
  unfold round_half_even. rewrite inject_Z_plus in *.
  destruct (Qcompare_spec (q - inject_Z (Qfloor q)) (1 # 2));
    [destruct (Z.even _)|..]; rewrite ?inject_Z_plus; change (inject_Z 1) with 1 in *;
    split; lra.
Qed.

Lemma Qle_bool_scale q d : Qle_bool 0 (q * scale d) = Qle_bool 0 q.
Proof.
  pose proof (scale_pos d).
  apply eq_bool_prop_intro. rewrite !Is_true_true, !Qle_bool_iff.
  split; intros H'.
  - destruct (Qlt_le_dec q 0) as [Hn|]; [|done].
    assert (q * scale d < 0) by nra. lra.
  - nra.
Qed.

(** The sign and the magnitude printed by [format_fixed] put together
    give the rounded value. *)
Lemma signed_round q d :
  (let v := inject_Z (Z.of_N (Z.abs_N (round_half_even (q * scale d)))) / scale d in
   if Qle_bool 0 q then v else - v)
  == inject_Z (round_half_even (q * scale d)) / scale d.
Proof.
  pose proof (scale_pos d). simpl. rewrite Zabs2N.id_abs.
  destruct (Qle_bool 0 q) eqn:E.
  - apply Qle_bool_iff in E.
    rewrite Z.abs_eq; [reflexivity|]. apply round_half_even_nonneg. nra.
  - assert (q < 0) by (apply Qnot_le_lt; by rewrite <- Qle_bool_iff, E).
    rewrite Z.abs_neq by (apply round_half_even_nonpos; nra).
    rewrite inject_Z_opp. unfold Qdiv. ring.
Qed.

Close Scope Q_scope.

Lemma padded_digits_all k m :
  Forall (fun c => is_digit c = true) (repeat "0"%char k ++ digits m).
Proof.
  apply Forall_app. split; [|apply digits_all].
  apply List.Forall_forall. intros c ->%repeat_spec. done.
Qed.

(** The reader on a text of the layout [format_fixed] prints. *)
Lemma read_fixed_layout (neg : bool) ip fp d :
  Forall (fun c => is_digit c = true) ip -> ip <> [] -> length fp = d ->
  read_fixed (String.string_of_list_ascii
    ((if neg then ["-"%char] else []) ++ ip ++ (match d with 0 => [] | S _ => "."%char :: fp end)))
  = (fun n => let v := Qdiv (inject_Z (Z.of_N n)) (scale d) in
              if neg then Qopp v else v) <$> read_uint (ip ++ fp).
Proof.
  intros Hip Hne Hlen. unfold read_fixed.
  rewrite String.list_ascii_of_string_of_list_ascii. cbv zeta.
  set (tail := match d with 0 => [] | S _ => _ end).
  assert (Hb : match (if neg then ["-"%char] else []) ++ ip ++ tail with
               | c :: r => if (c =? "-")%char then (true, r)
                           else (false, (if neg then ["-"%char] else []) ++ ip ++ tail)
               | [] => (false, (if neg then ["-"%char] else []) ++ ip ++ tail)
               end = (neg, ip ++ tail)).
  { destruct neg; [done|]. destruct ip as [|c ip']; [done|].
    inversion Hip; subst. simpl. by rewrite is_digit_not_minus. }
  rewrite Hb, split_dot_digits by done. subst tail.
  destruct d as [|d]; simpl.
  - destruct fp; [|done]. rewrite !app_nil_r. by destruct (read_uint ip).
  - rewrite app_nil_r, Hlen. by destruct (read_uint (ip ++ fp)).
Qed.

(** The text [format_fixed] prints for a finite float reads back as the
    rounded value. *)
Lemma read_format_fixed d q :
  exists x, read_fixed (format_fixed d (PFin q)) = Some x /\
            (x == inject_Z (round_half_even (q * scale d)) / scale d)%Q.
Proof.
  set (m := Z.abs_N (round_half_even (q * scale d))).
  destruct (fixed_digits_split d m) as (ip & fp & E & Hne & Hlen & Hp).
  pose proof (padded_digits_all (S d - length (digits m)) m) as Hd.
  rewrite <- Hp in Hd. apply Forall_app in Hd as [Hip _].
  unfold format_fixed. fold m. rewrite E.
  replace (if Qle_bool 0 q then [] else ["-"%char])
    with (if negb (Qle_bool 0 q) then ["-"%char] else []) by by destruct (Qle_bool 0 q).
  rewrite read_fixed_layout, Hp, read_uint_digits by done. simpl.
  eexists; split; [reflexivity|].
  rewrite <- signed_round. by destruct (Qle_bool 0 q).
Qed.

(** No text [format_fixed] prints holds a comma. *)
Lemma format_fixed_no_comma d x :
  Forall (fun c => c <> ","%char) (String.list_ascii_of_string (format_fixed d x)).
Proof.
  destruct x as [q| | |]; [|repeat constructor; discriminate..].
  set (m := Z.abs_N (round_half_even (q * scale d))).
  destruct (fixed_digits_split d m) as (ip & fp & E & _ & _ & Hp).
  pose proof (padded_digits_all (S d - length (digits m)) m) as Hd.
  rewrite <- Hp in Hd. apply Forall_app in Hd as [Hip Hfp].
  unfold format_fixed. fold m.
  rewrite String.list_ascii_of_string_of_list_ascii, E.
  assert (Hdc : forall l, Forall (fun c => is_digit c = true) l -> Forall (fun c => c <> ","%char) l)
    by (intros l Hl; eapply Forall_impl; [exact Hl|]; by intros c Hc ->).
  apply Forall_app; split; [destruct (Qle_bool 0 q); repeat constructor; discriminate|].
  apply Forall_app; split; [by apply Hdc|].
  destruct d; [constructor|]. constructor; [discriminate | by apply Hdc].
Qed.

(** ** Properties of [format_fixed] *)

(** The text [format(x, f".{d}f")] prints for a finite float is an
    optional minus sign, a nonempty run of integer digits and, when
    [d > 0], a point followed by exactly [d] digits. *)
Theorem format_fixed_shape d q :
  exists sign ip fp,
    String.list_ascii_of_string (format_fixed d (PFin q))
      = sign ++ ip ++ (match d with 0 => [] | S _ => "."%char :: fp end) /\
    (sign = [] \/ sign = ["-"%char]) /\ ip <> [] /\ length fp = d /\
    Forall (fun c => is_digit c = true) (ip ++ fp).
Proof.
  set (m := Z.abs_N (round_half_even (q * scale d))).
  destruct (fixed_digits_split d m) as (ip & fp & E & Hne & Hlen & Hp).
  exists (if Qle_bool 0 q then [] else ["-"%char]), ip, fp.
  unfold format_fixed. fold m.
  rewrite String.list_ascii_of_string_of_list_ascii, E, Hp.
  split_and!; [done | by destruct (Qle_bool 0 q); auto | done | done |].
  apply padded_digits_all.
Qed.

(** Reading back what [format(x, f".{d}f")] prints for a finite
    float gives the float's exact value rounded to [d] decimals: the
    integer nearest to [x * 10^d], ties to even, over [10^d]. *)
Theorem format_fixed_roundtrip d q :
  exists x, read_fixed (format_fixed d (PFin q)) = Some x /\
            (x == inject_Z (round_half_even (q * scale d)) / scale d)%Q.
Proof. apply read_format_fixed. Qed.

(** What [format(x, f".{d}f")] prints for a finite float reads
    back as a value within half a unit of the last printed decimal of
    the float. *)
Theorem format_fixed_error d q :
  exists x, read_fixed (format_fixed d (PFin q)) = Some x /\
            (Qabs (x - q) <= (1 # 2) / scale d)%Q.
Proof.
  destruct (read_format_fixed d q) as (x & Hx & Ex). exists x. split; [done|].
  pose proof (scale_pos d) as Hs. pose proof (round_half_even_close (q * scale d)) as Hc.
  rewrite Ex. set (r := inject_Z (round_half_even (q * scale d))) in *.
  setoid_replace (r / scale d - q)%Q with ((r - q * scale d) / scale d)%Q
    using relation Qeq by (field; lra).
  unfold Qdiv. rewrite Qabs_Qmult, (Qabs_pos (/ scale d)) by (apply Qlt_le_weak, Qinv_lt_0_compat, Hs).
  apply Qmult_le_r; [by apply Qinv_lt_0_compat | exact Hc].
Qed.

(** ** [repr] of a string *)

(** The characters of a string are those of the Latin-1 range: a Rocq
    [ascii] is a code point below 256. *)

(** The lowercase hex digit of [n < 16]. *)
Definition hex_digit (n : nat) : ascii :=
  ascii_of_nat (if (n <? 10)%nat then 48 + n else 87 + n).

(** [Py_UNICODE_ISPRINTABLE] on the Latin-1 range: the printable ASCII
    characters and the Latin-1 letters and signs from U+00A1 on, the
    soft hyphen U+00AD apart. *)
Definition printable (c : ascii) : bool :=
  let n := nat_of_ascii c in
  ((32 <=? n) && (n <? 127))%nat || ((161 <=? n) && negb (n =? 173))%nat.

(** How [unicode_repr] writes one character inside quote [q]. *)
Definition escape_char (q c : ascii) : list ascii :=
  if (c =? q)%char || (c =? "\")%char then ["\"%char; c]
  else if (c =? "009")%char then ["\"%char; "t"%char]
  else if (c =? "010")%char then ["\"%char; "n"%char]
  else if (c =? "013")%char then ["\"%char; "r"%char]
  else if printable c then [c]
  else ["\"%char; "x"%char; hex_digit (nat_of_ascii c / 16);
        hex_digit (nat_of_ascii c mod 16)].

(** The quote [unicode_repr] chooses: single unless the text holds a
    single quote and no double quote. *)
Definition repr_quote (l : list ascii) : ascii :=
  if existsb (fun c => (c =? "'")%char) l && negb (existsb (fun c => (c =? "034")%char) l)
  then "034"%char else "'"%char.

(** [repr(s)]. *)
Definition py_repr_str (s : string) : string :=
  let l := String.list_ascii_of_string s in
  let q := repr_quote l in
  String.string_of_list_ascii (q :: concat (map (escape_char q) l) ++ [q]).

(** *** Evaluating a string literal *)

Definition hex_value (c : ascii) : option nat :=
  let n := nat_of_ascii c in
  if (48 <=? n) && (n <=? 57) then Some (n - 48)
  else if (97 <=? n) && (n <=? 102) then Some (n - 87)
  else if (65 <=? n) && (n <=? 70) then Some (n - 55)
  else None.

(** The one-character escapes [repr] writes. *)
Definition simple_escape (e : ascii) : option ascii :=
  if (e =? "\")%char || (e =? "'")%char || (e =? "034")%char then Some e
  else if (e =? "t")%char then Some "009"%char
  else if (e =? "n")%char then Some "010"%char
  else if (e =? "r")%char then Some "013"%char
  else None.

(** The tokenizer on the body of a literal opened by quote [q]: the
    value up to the first unescaped [q], and the text after that quote.
    A raw newline is a syntax error.  Escapes other than [\xhh] and those
    of [simple_escape] ([\a], octal, [\N], [\u] and the like) are outside
    the model and give [None]. *)
Fixpoint lex_str (q : ascii) (l : list ascii) : option (list ascii * list ascii) :=
  match l with
  | [] => None
  | c :: r =>
      if (c =? q)%char then Some ([], r)
      else if (c =? "\")%char then
        match r with
        | [] => None
        | e :: r' =>
            if (e =? "x")%char then
              match r' with
              | h1 :: h2 :: r'' =>
                  match hex_value h1, hex_value h2 with
                  | Some a, Some b =>
                      prod_map (cons (ascii_of_nat (16 * a + b))) id <$> lex_str q r''
                  | _, _ => None
                  end
              | _ => None
              end
            else match simple_escape e with
                 | Some c' => prod_map (cons c') id <$> lex_str q r'
                 | None => None
                 end
        end
      else if (c =? "010")%char then None
      else prod_map (cons c) id <$> lex_str q r
  end.

(** A string literal at the head of a text: its value and the rest. *)
Definition lex_literal (l : list ascii) : option (list ascii * list ascii) :=
  match l with
  | q :: r => if (q =? "'")%char || (q =? "034")%char then lex_str q r else None
  | [] => None
  end.

(** [eval] of a one-line string literal: nothing may follow it. *)
Definition eval_str_literal (s : string) : option string :=
  match lex_literal (String.list_ascii_of_string s) with
  | Some (v, []) => Some (String.string_of_list_ascii v)
  | _ => None
  end.

(** Every character written by [escape_char] reads back as itself,
    whatever follows it. *)
Lemma lex_escape_char q c rest :
  q = "'"%char \/ q = "034"%char ->
  lex_str q (escape_char q c ++ rest) = prod_map (cons c) id <$> lex_str q rest.
Proof.
  intros [-> | ->]; destruct c as [[] [] [] [] [] [] [] []]; reflexivity.
Qed.

Lemma lex_escaped q l rest :
  q = "'"%char \/ q = "034"%char ->
  lex_str q (concat (map (escape_char q) l) ++ q :: rest) = Some (l, rest).
Proof.
  intros Hq. induction l as [|c l IH].
  - simpl. by rewrite Ascii.eqb_refl.
  - simpl. by rewrite <- app_assoc, lex_escape_char, IH.
Qed.

Lemma list_ascii_of_string_app s1 s2 :
  String.list_ascii_of_string (s1 +:+ s2)
  = String.list_ascii_of_string s1 ++ String.list_ascii_of_string s2.
Proof. induction s1; simpl; by f_equal. Qed.

(** [repr(s)] followed by any text lexes as the literal of value [s]
    and that text. *)
Lemma lex_repr_str s rest :
  lex_literal (String.list_ascii_of_string (py_repr_str s) ++ rest)
  = Some (String.list_ascii_of_string s, rest).
Proof.
  unfold py_repr_str. rewrite String.list_ascii_of_string_of_list_ascii.
  set (q := repr_quote _).
  assert (Hq : q = "'"%char \/ q = "034"%char) by (unfold q, repr_quote; destruct (_ && _); auto).
  simpl. rewrite <- app_assoc. simpl.
  replace ((q =? "'")%char || (q =? "034")%char) with true by (by destruct Hq as [-> | ->]).
  by rewrite lex_escaped.
Qed.

(** A [repr] of a string is never a prefix of another's: the literal
    ends at its closing quote. *)
Lemma repr_str_prefix_free s1 s2 r1 r2 :
  String.list_ascii_of_string (py_repr_str s1) ++ r1
  = String.list_ascii_of_string (py_repr_str s2) ++ r2 ->
  s1 = s2 /\ r1 = r2.
Proof.
  intros E. pose proof (lex_repr_str s1 r1) as H1. rewrite E, lex_repr_str in H1.
  injection H1 as Hs ->. split; [|done].
  by rewrite <- (String.string_of_list_ascii_of_string s1), <- Hs,
    String.string_of_list_ascii_of_string.
Qed.

(** [repr] of a string is a string literal that evaluates back to
    the same string, whichever quote [repr] chooses. *)
Theorem repr_str_roundtrip s : eval_str_literal (py_repr_str s) = Some s.
Proof.
  unfold eval_str_literal.
  rewrite <- (app_nil_r (String.list_ascii_of_string (py_repr_str s))), lex_repr_str.
  by rewrite String.string_of_list_ascii_of_string.
Qed.
