(* ===== verification/DateTime.v ===== *)
(** * Approach timestamps

    [CloseApproach.__init__] parses the approach time with
    [helpers.cd_to_datetime] and [time_str]/[serialize] print it with
    [helpers.datetime_to_str].  helpers.py is not part of src/: both
    helpers are modelled from the spec (format [YYYY-MMM-DD hh:mm] in,
    [YYYY-MM-DD hh:mm] out), as [datetime.strptime(s, "%Y-%b-%d %H:%M")]
    and [dt.strftime("%Y-%m-%d %H:%M")] do on the fixed-width form:
    the month abbreviation is matched without regard to case, the
    calendar date must exist (leap years included), and a malformed
    string raises [ValueError].  [DateFilter.get] uses [datetime.date()],
    compared by Python's lexicographic date order. *)

From S2P Require Import Prelude.
From Stdlib Require Import Ascii.

Record datetime := mk_datetime {
  year : nat; month : nat; day : nat; hour : nat; minute : nat }.

Record date := mk_date { date_year : nat; date_month : nat; date_day : nat }.

#[export] Instance datetime_eq_dec : EqDecision datetime.
Proof. solve_decision. Defined.
#[export] Instance date_eq_dec : EqDecision date.
Proof. solve_decision. Defined.

(** ** Calendar *)

Definition is_leap (y : nat) : bool :=
  (y mod 4 =? 0) && (negb (y mod 100 =? 0) || (y mod 400 =? 0)).

Definition days_in_month (y m : nat) : nat :=
  match m with
  | 1 | 3 | 5 | 7 | 8 | 10 | 12 => 31
  | 4 | 6 | 9 | 11 => 30
  | 2 => if is_leap y then 29 else 28
  | _ => 0
  end.

(** [datetime.MAXYEAR] (9999), written as a product: a [nat] literal of
    that size is not unfolded by [lia]. *)
Definition MAXYEAR : nat := 99 * 101.

(** The range checks of Python's [datetime] constructor. *)
Definition valid_datetime (dt : datetime) : bool :=
  (1 <=? year dt) && (year dt <=? MAXYEAR) && (1 <=? month dt) && (month dt <=? 12)
  && (1 <=? day dt) && (day dt <=? days_in_month (year dt) (month dt))
  && (hour dt <? 24) && (minute dt <? 60).

(** ** Digits and month names *)

Definition digit_of (c : ascii) : option nat :=
  let n := nat_of_ascii c in
  if (48 <=? n) && (n <=? 57) then Some (n - 48) else None.

Definition ascii_of_digit (n : nat) : ascii := ascii_of_nat (48 + n).

Definition num2 (c1 c2 : ascii) : option nat :=
  match digit_of c1, digit_of c2 with
  | Some a, Some b => Some (10 * a + b)
  | _, _ => None
  end.

Definition num4 (c1 c2 c3 c4 : ascii) : option nat :=
  match num2 c1 c2, num2 c3 c4 with
  | Some a, Some b => Some (100 * a + b)
  | _, _ => None
  end.

Definition pad2 (n : nat) : list ascii :=
  [ascii_of_digit (n / 10); ascii_of_digit (n mod 10)].

Definition pad4 (n : nat) : list ascii := pad2 (n / 100) ++ pad2 (n mod 100).

Definition month_abbrs : list string :=
  ["Jan"; "Feb"; "Mar"; "Apr"; "May"; "Jun";
   "Jul"; "Aug"; "Sep"; "Oct"; "Nov"; "Dec"]%string.

Fixpoint month_index (s : string) (l : list string) (i : nat) : option nat :=
  match l with
  | [] => None
  | m :: l' => if String.eqb (str_lower m) (str_lower s) then Some i
               else month_index s l' (S i)
  end.

(** [%b]: month abbreviation, case-insensitive, numbered from 1. *)
Definition month_of (s : string) : option nat := month_index s month_abbrs 1.

Definition month_abbr (m : nat) : string := default ""%string (month_abbrs !! (m - 1)).

(** ** The two helpers *)

(** [cd_to_datetime(s)]: [datetime.strptime(s, "%Y-%b-%d %H:%M")]. *)
Definition cd_to_datetime (s : string) : result datetime :=
  match String.list_ascii_of_string s with
  | [y1; y2; y3; y4; s1; m1; m2; m3; s2; d1; d2; s3; h1; h2; s4; n1; n2] =>
      if (s1 =? "-")%char && (s2 =? "-")%char && (s3 =? " ")%char && (s4 =? ":")%char then
        match num4 y1 y2 y3 y4, month_of (String.string_of_list_ascii [m1; m2; m3]),
              num2 d1 d2, num2 h1 h2, num2 n1 n2 with
        | Some y, Some mo, Some d, Some h, Some mi =>
            let dt := mk_datetime y mo d h mi in
            if valid_datetime dt then Ok dt else Raise ValueError
        | _, _, _, _, _ => Raise ValueError
        end
      else Raise ValueError
  | _ => Raise ValueError
  end.

(** [datetime_to_str(dt)]: [dt.strftime("%Y-%m-%d %H:%M")]. *)
Definition datetime_to_str (dt : datetime) : string :=
  String.string_of_list_ascii
    (pad4 (year dt) ++ ["-"%char] ++ pad2 (month dt) ++ ["-"%char] ++ pad2 (day dt)
     ++ [" "%char] ++ pad2 (hour dt) ++ [":"%char] ++ pad2 (minute dt)).

(** The compact input form of a datetime, the inverse of [cd_to_datetime]. *)
Definition datetime_to_cd (dt : datetime) : string :=
  String.string_of_list_ascii
    (pad4 (year dt) ++ ["-"%char] ++ String.list_ascii_of_string (month_abbr (month dt))
     ++ ["-"%char] ++ pad2 (day dt) ++ [" "%char] ++ pad2 (hour dt) ++ [":"%char]
     ++ pad2 (minute dt)).

(** ** [datetime.date()] and the date order *)

Definition date_of (dt : datetime) : date := mk_date (year dt) (month dt) (day dt).

Definition date_compare (a b : date) : comparison :=
  match Nat.compare (date_year a) (date_year b) with
  | Eq => match Nat.compare (date_month a) (date_month b) with
          | Eq => Nat.compare (date_day a) (date_day b)
          | c => c
          end
  | c => c
  end.

Definition date_eqb (a b : date) : bool := bool_decide (a = b).
Definition date_le (a b : date) : bool :=
  match date_compare a b with Gt => false | _ => true end.
Definition date_ge (a b : date) : bool := date_le b a.

(** ** Digits: parsing inverts printing *)

Lemma digit_of_Some c n : digit_of c = Some n -> n < 10 /\ ascii_of_digit n = c.
Proof.
  unfold digit_of, ascii_of_digit.
  destruct ((48 <=? nat_of_ascii c) && (nat_of_ascii c <=? 57)) eqn:E; [|discriminate].
  intros [= <-]. apply andb_true_iff in E as [E1 E2]. apply Nat.leb_le in E1, E2.
  split; [lia|]. replace (48 + (nat_of_ascii c - 48)) with (nat_of_ascii c) by lia.
  apply ascii_nat_embedding.
Qed.

Lemma digit_of_ascii_of_digit n : n < 10 -> digit_of (ascii_of_digit n) = Some n.
Proof.
  intros Hn. unfold digit_of, ascii_of_digit. rewrite nat_ascii_embedding by lia.
  replace ((48 <=? 48 + n) && (48 + n <=? 57)) with true; [f_equal; lia|].
  symmetry. apply andb_true_iff; split; apply Nat.leb_le; lia.
Qed.

Lemma pad2_spec n : n < 100 ->
  exists c1 c2, pad2 n = [c1; c2] /\ num2 c1 c2 = Some n.
Proof.
  intros Hn. eexists _, _. split; [reflexivity|]. unfold num2.
  rewrite !digit_of_ascii_of_digit by lia. f_equal. lia.
Qed.

Lemma num2_pad2 c1 c2 n : num2 c1 c2 = Some n -> n < 100 /\ pad2 n = [c1; c2].
Proof.
  unfold num2. destruct (digit_of c1) as [a|] eqn:E1; [|done].
  destruct (digit_of c2) as [b|] eqn:E2; [|done].
  intros H; assert (n = 10 * a + b) as -> by (cbv beta iota in H; congruence).
  apply digit_of_Some in E1 as [Ha <-], E2 as [Hb <-].
  split; [lia|]. unfold pad2.
  assert (E1 : (10 * a + b) / 10 = a) by lia.
  assert (E2 : (10 * a + b) mod 10 = b) by lia. by rewrite E1, E2.
Qed.

Lemma pad4_spec n : n < 100 * 100 ->
  exists c1 c2 c3 c4, pad4 n = [c1; c2; c3; c4] /\ num4 c1 c2 c3 c4 = Some n.
Proof.
  intros Hn. unfold pad4, num4.
  destruct (pad2_spec (n / 100) ltac:(lia)) as (c1 & c2 & -> & E1).
  destruct (pad2_spec (n mod 100) ltac:(lia)) as (c3 & c4 & -> & E2).
  exists c1, c2, c3, c4. rewrite E1, E2. split; [done|]. f_equal. lia.
Qed.

Lemma pad4_split a b : b < 100 -> pad4 (100 * a + b) = pad2 a ++ pad2 b.
Proof.
  intros Hb. unfold pad4.
  assert (E1 : (100 * a + b) / 100 = a) by lia.
  assert (E2 : (100 * a + b) mod 100 = b) by lia. by rewrite E1, E2.
Qed.

Lemma num4_pad4 c1 c2 c3 c4 n :
  num4 c1 c2 c3 c4 = Some n -> pad4 n = [c1; c2; c3; c4].
Proof.
  unfold num4. destruct (num2 c1 c2) as [a|] eqn:E1; [|done].
  destruct (num2 c3 c4) as [b|] eqn:E2; [|done].
  intros H; assert (n = 100 * a + b) as -> by (cbv beta iota in H; congruence).
  apply num2_pad2 in E1 as [Ha Ea], E2 as [Hb Eb].
  by rewrite pad4_split, Ea, Eb.
Qed.

Lemma month_abbr_spec m : 1 <= m <= 12 ->
  exists c1 c2 c3, String.list_ascii_of_string (month_abbr m) = [c1; c2; c3]
    /\ month_of (String c1 (String c2 (String c3 EmptyString))) = Some m.
Proof.
  intros Hm.
  assert (m = 1 \/ m = 2 \/ m = 3 \/ m = 4 \/ m = 5 \/ m = 6 \/ m = 7 \/ m = 8
          \/ m = 9 \/ m = 10 \/ m = 11 \/ m = 12) as Hc by lia.
  repeat destruct Hc as [-> | Hc]; subst; eexists _, _, _; split; reflexivity.
Qed.

(** The booleans of [valid_datetime] as arithmetic facts. *)
Lemma valid_datetime_spec dt : valid_datetime dt = true ->
  1 <= year dt <= MAXYEAR /\ 1 <= month dt <= 12 /\
  1 <= day dt <= days_in_month (year dt) (month dt) /\ hour dt < 24 /\ minute dt < 60.
Proof.
  unfold valid_datetime. rewrite !andb_true_iff, !Nat.leb_le, !Nat.ltb_lt. lia.
Qed.

Lemma days_in_month_le y m : days_in_month y m <= 31.
Proof. unfold days_in_month. repeat case_match; lia. Qed.

(** Splits a successful [cd_to_datetime] into its seventeen characters,
    the separator checks and the parsed fields. *)
Ltac cd_inv H :=
  unfold cd_to_datetime in H;
  repeat (case_match; try discriminate);
  simplify_eq;
  repeat match goal with
  | E : _ && _ = true |- _ => apply andb_true_iff in E as [? ?]
  | E : (_ =? _)%char = true |- _ => apply Ascii.eqb_eq in E; subst
  end.

(** ** Timestamps: parsing and printing *)

(** A timestamp accepted by [cd_to_datetime] is a real calendar
    datetime (month 1..12, a day that exists in that month of that year,
    hour < 24, minute < 60). *)
Lemma cd_to_datetime_valid s dt :
  cd_to_datetime s = Ok dt -> valid_datetime dt = true.
Proof. intros H. cd_inv H. done. Qed.

(** Parsing the compact form of a valid datetime gives it back:
    [cd_to_datetime] inverts the input format. *)
Theorem cd_to_datetime_roundtrip dt :
  valid_datetime dt = true -> cd_to_datetime (datetime_to_cd dt) = Ok dt.
Proof.
  intros Hv. pose proof (valid_datetime_spec _ Hv) as (Hy & Hm & Hd & Hh & Hmi).
  pose proof (days_in_month_le (year dt) (month dt)).
  destruct (pad4_spec (year dt) ltac:(unfold MAXYEAR in *; lia)) as (y1 & y2 & y3 & y4 & Ey & Ny).
  destruct (month_abbr_spec (month dt) Hm) as (m1 & m2 & m3 & Em & Nm).
  destruct (pad2_spec (day dt) ltac:(lia)) as (d1 & d2 & Ed & Nd).
  destruct (pad2_spec (hour dt) ltac:(lia)) as (h1 & h2 & Eh & Nh).
  destruct (pad2_spec (minute dt) ltac:(lia)) as (n1 & n2 & En & Nn).
  unfold cd_to_datetime, datetime_to_cd.
  rewrite Ey, Em, Ed, Eh, En, String.list_ascii_of_string_of_list_ascii.
  cbn -[month_of num4 num2 valid_datetime]. rewrite Ny, Nm, Nd, Nh, Nn.
  destruct dt; simpl in *. by rewrite Hv.
Qed.

(** [time_str] / [serialize] reproduce the input timestamp: the string
    printed by [datetime_to_str] for a parsed timestamp is the input with
    the month name replaced by its two-digit number, character for
    character elsewhere. *)
Theorem datetime_to_str_reformat s dt :
  cd_to_datetime s = Ok dt ->
  datetime_to_str dt =
    String.string_of_list_ascii
      (take 5 (String.list_ascii_of_string s) ++ pad2 (month dt)
       ++ drop 8 (String.list_ascii_of_string s)).
Proof.
  intros H. cd_inv H. unfold datetime_to_str; cbn [year month day hour minute].
  repeat match goal with
  | E : num4 _ _ _ _ = Some _ |- _ => rewrite (num4_pad4 _ _ _ _ _ E); clear E
  | E : num2 _ _ = Some _ |- _ => rewrite (proj2 (num2_pad2 _ _ _ E)); clear E
  end.
  done.
Qed.

(** ** The date order *)

Ltac nat_compare_cases :=
  repeat match goal with
  | |- context [Nat.compare ?x ?y] => destruct (Nat.compare_spec x y)
  end.

Lemma date_compare_eq a b : date_compare a b = Eq <-> a = b.
Proof.
  destruct a as [y1 m1 d1], b as [y2 m2 d2]; unfold date_compare; simpl.
  nat_compare_cases; split; intros; simplify_eq; try done; lia.
Qed.

Lemma date_le_refl a : date_le a a = true.
Proof. unfold date_le. by rewrite (proj2 (date_compare_eq a a) eq_refl). Qed.

Lemma date_le_trans a b c : date_le a b = true -> date_le b c = true -> date_le a c = true.
Proof.
  destruct a as [y1 m1 d1], b as [y2 m2 d2], c as [y3 m3 d3];
    unfold date_le, date_compare; simpl.
  nat_compare_cases; intros; simplify_eq; try done; lia.
Qed.

Lemma date_le_total a b : date_le a b = true \/ date_ge a b = true.
Proof.
  destruct a as [y1 m1 d1], b as [y2 m2 d2]; unfold date_ge, date_le, date_compare; simpl.
  nat_compare_cases; auto; lia.
Qed.

(** Equality of dates is the conjunction of the two bounds. *)
Lemma date_eqb_le_ge a b : date_eqb a b = date_le a b && date_ge a b.
Proof.
  unfold date_eqb. case_bool_decide as E.
  - subst. unfold date_ge. by rewrite date_le_refl.
  - destruct a as [y1 m1 d1], b as [y2 m2 d2]; unfold date_ge, date_le, date_compare; simpl.
    nat_compare_cases; subst; try done; try lia; congruence.
Qed.

(** ** Witnesses *)

Lemma cd_to_datetime_valid_witness :
  cd_to_datetime "1900-Jan-01 00:00" = Ok (mk_datetime 1900 1 1 0 0) /\
  valid_datetime (mk_datetime 1900 1 1 0 0) = true.
Proof.
  assert (H : cd_to_datetime "1900-Jan-01 00:00" = Ok (mk_datetime 1900 1 1 0 0))
    by (vm_compute; reflexivity).
  split; [exact H|]. exact (cd_to_datetime_valid _ _ H).
Defined.

Lemma cd_to_datetime_roundtrip_witness :
  valid_datetime (mk_datetime 2024 2 29 23 59) = true /\
  cd_to_datetime (datetime_to_cd (mk_datetime 2024 2 29 23 59)) = Ok (mk_datetime 2024 2 29 23 59).
Proof.
  assert (H : valid_datetime (mk_datetime 2024 2 29 23 59) = true) by (vm_compute; reflexivity).
  split; [exact H|]. exact (cd_to_datetime_roundtrip _ H).
Defined.
