(* ===== verification/Models.v ===== *)
(** * The entities: [NearEarthObject] and [CloseApproach] (models.py)

    Each Python class is a Module holding a Record [t] of the object's
    attributes and one definition per method.  The mutual references of
    the Python objects are kept as indices into the database's two lists
    ([Database.NEODatabase]): an NEO's [approaches] lists positions of
    approaches, an approach's [neo] is the position of its NEO.  Two
    objects that are the same Python object are the same index, which is
    how the model keeps the aliasing of [approach.neo] and of the
    [approaches] lists that the linkage pass mutates.

    [pyval] is the small set of Python values the entities expose to the
    filters and to the serialisers. *)

From S2P Require Import Prelude PyFloat DateTime.

(** Python values read from the entities: [None], [bool], [float], [str]
    and [datetime.date]. *)
Inductive pyval :=
| VNone
| VBool (b : bool)
| VFloat (x : pyfloat)
| VStr (s : string)
| VDate (d : date).

#[export] Instance pyval_eq_dec : EqDecision pyval.
Proof. solve_decision. Defined.

Module NearEarthObject.

Record t := mk {
  designation : string;
  name : option string;
  diameter : pyfloat;
  hazardous : bool;
  approaches : list nat }.

(** [NearEarthObject.__init__(designation, name, diameter, hazardous)]:
    a missing or zero diameter becomes NaN; [approaches] starts empty. *)
Definition init (designation : string) (name : option string)
    (diameter : option pyfloat) (hazardous : bool) : t :=
  mk designation name (or_nan diameter) hazardous [].

(** The [fullname] property. *)
Definition fullname (n : t) : string :=
  if truthy (name n) then (designation n +:+ " " +:+ default "" (name n))%string
  else designation n.

(** [serialize()]: the dictionary, in insertion order. *)
Definition serialize (n : t) : list (string * pyval) :=
  [("designation", VStr (designation n));
   ("name", match name n with Some s => VStr s | None => VNone end);
   ("diameter_km", VFloat (diameter n));
   ("potentially_hazardous", VBool (hazardous n))]%string.

(** [neo.approaches.append(i)]. *)
Definition add_approach (i : nat) (n : t) : t :=
  mk (designation n) (name n) (diameter n) (hazardous n) (approaches n ++ [i]).

(** The object invariant the constructor establishes: the diameter is
    never a falsy zero (unknown diameters are NaN). *)
Definition wf (n : t) : bool := truthy (diameter n).

End NearEarthObject.

Module CloseApproach.

Record t := mk {
  designation : string;
  time : datetime;
  distance : pyfloat;
  velocity : pyfloat;
  neo : option nat }.

(** [CloseApproach.__init__(designation, time, velocity, distance, neo=...)]:
    the time string is parsed (and may raise [ValueError]); a falsy
    distance or velocity becomes NaN; [neo] is the keyword argument,
    [None] when absent. *)
Definition init (designation : string) (time : string)
    (velocity distance : pyfloat) (neo : option nat) : result t :=
  dt <- cd_to_datetime time ;;
  Ok (mk designation dt (nan_if_falsy distance) (nan_if_falsy velocity) neo).

(** The [time_str] property. *)
Definition time_str (a : t) : string := datetime_to_str (time a).

(** [serialize()]. *)
Definition serialize (a : t) : list (string * pyval) :=
  [("velocity_km_s", VFloat (velocity a));
   ("datetime_utc", VStr (datetime_to_str (time a)));
   ("distance_au", VFloat (distance a))]%string.

(** [approach.neo = neos[j]]. *)
Definition set_neo (j : nat) (a : t) : t :=
  mk (designation a) (time a) (distance a) (velocity a) (Some j).

(** The object invariant the constructor establishes: a calendar-valid
    time, and no falsy zero distance or velocity. *)
Definition wf (a : t) : bool :=
  valid_datetime (time a) && truthy (distance a) && truthy (velocity a).

End CloseApproach.

(** ** The constructors establish the invariants *)

Lemma NearEarthObject_init_wf d n x h :
  NearEarthObject.wf (NearEarthObject.init d n x h) = true.
Proof. apply or_nan_truthy. Qed.

Lemma nan_if_falsy_is_truthy x : truthy (nan_if_falsy x) = true.
Proof. apply (or_nan_truthy (Some x)). Qed.

(** Every approach the constructor builds is well formed: its time is a
    real calendar datetime and its distance and velocity are not zero. *)
Lemma CloseApproach_init_wf d s v x o a :
  CloseApproach.init d s v x o = Ok a -> CloseApproach.wf a = true.
Proof.
  unfold CloseApproach.init. destruct (cd_to_datetime s) as [dt|] eqn:E; [|done].
  simpl. intros [= <-]. unfold CloseApproach.wf; simpl.
  by rewrite (cd_to_datetime_valid _ _ E), !nan_if_falsy_is_truthy.
Qed.

(** C35: [time_str] of a constructed approach reproduces the timestamp it was
    given, with the month name turned into its two-digit number. *)
Theorem CloseApproach_time_str d s v x o a :
  CloseApproach.init d s v x o = Ok a ->
  CloseApproach.time_str a =
    String.string_of_list_ascii
      (take 5 (String.list_ascii_of_string s) ++ pad2 (month (CloseApproach.time a))
       ++ drop 8 (String.list_ascii_of_string s)).
Proof.
  unfold CloseApproach.init. destruct (cd_to_datetime s) as [dt|] eqn:E; [|done].
  simpl. intros [= <-]. by apply datetime_to_str_reformat.
Qed.

(** The linkage updates keep the invariants. *)
Lemma add_approach_wf i n :
  NearEarthObject.wf (NearEarthObject.add_approach i n) = NearEarthObject.wf n.
Proof. done. Qed.

Lemma set_neo_wf j a : CloseApproach.wf (CloseApproach.set_neo j a) = CloseApproach.wf a.
Proof. done. Qed.

#[export] Hint Rewrite add_approach_wf set_neo_wf : neo.

(** ** Witnesses *)

Definition sample_approach : CloseApproach.t :=
  CloseApproach.mk "433" (mk_datetime 1900 1 1 0 0) (float_lit 32 100) (float_lit 55 10) None.

Lemma CloseApproach_time_str_witness :
  CloseApproach.init "433" "1900-Jan-01 00:00" (float_lit 55 10) (float_lit 32 100) None
    = Ok sample_approach /\
  CloseApproach.time_str sample_approach =
    String.string_of_list_ascii
      (take 5 (String.list_ascii_of_string "1900-Jan-01 00:00")
       ++ pad2 (month (CloseApproach.time sample_approach))
       ++ drop 8 (String.list_ascii_of_string "1900-Jan-01 00:00")).
Proof.
  assert (H : CloseApproach.init "433" "1900-Jan-01 00:00" (float_lit 55 10) (float_lit 32 100) None
                = Ok sample_approach) by (vm_compute; reflexivity).
  split; [exact H|]. exact (CloseApproach_time_str _ _ _ _ _ _ H).
Defined.
