(* ===== verification/Database.v ===== *)
(** * The database: linkage, lookups and queries (database.py)

    [NEODatabase.t] is the state of a Python [NEODatabase]: its two lists
    [_neos] and [_approaches].  The constructor is modelled as the Python
    code runs it: a first pass builds the dictionary
    [designations_with_indices] (a [gmap string nat], later entries
    overwriting earlier ones), a second pass walks the approaches in order
    and, for each one whose designation is a key, sets [approach.neo] and
    appends the approach to that NEO's [approaches] list ([link]).

    The query loop only needs to call a filter on an approach: that is the
    [Callable] interface, stated here and implemented by [Filters].  A
    filter call may dereference [approach.neo], hence the NEO list it is
    given.  [query] is a generator ([gen]): it yields the matching
    approaches in order and ends with the exception a filter raised, if
    any. *)

From S2P Require Import Prelude PyFloat DateTime Models.
From Stdlib Require Import Sorted.

(** What a filter promises the query loop: [filter(approach)] returns a
    boolean or raises. *)
Class Callable (F : Type) :=
  call : list NearEarthObject.t -> F -> CloseApproach.t -> result bool.

Module NEODatabase.

Record t := mk {
  _neos : list NearEarthObject.t;
  _approaches : list CloseApproach.t }.

(** [for index, neo in enumerate(self._neos):
       designations_with_indices[neo.designation] = index] *)
Fixpoint index_from (i : nat) (neos : list NearEarthObject.t)
    (m : gmap string nat) : gmap string nat :=
  match neos with
  | [] => m
  | n :: rest => index_from (S i) rest (<[NearEarthObject.designation n := i]> m)
  end.

Definition designations_with_indices (neos : list NearEarthObject.t) : gmap string nat :=
  index_from 0 neos ∅.

(** [for approach in approaches: if approach.designation in index: ...]:
    the [i]-th approach is linked to the NEO at position [j]: its [neo]
    is set and it is appended to that NEO's [approaches]. *)
Fixpoint link (idx : gmap string nat) (i : nat) (aps : list CloseApproach.t)
    (neos : list NearEarthObject.t) : list NearEarthObject.t * list CloseApproach.t :=
  match aps with
  | [] => (neos, [])
  | a :: rest =>
      match idx !! CloseApproach.designation a with
      | Some j =>
          let '(ns, rs) := link idx (S i) rest (alter (NearEarthObject.add_approach i) j neos) in
          (ns, CloseApproach.set_neo j a :: rs)
      | None =>
          let '(ns, rs) := link idx (S i) rest neos in
          (ns, a :: rs)
      end
  end.

(** [NEODatabase.__init__(neos, approaches)]. *)
Definition init (neos : list NearEarthObject.t) (approaches : list CloseApproach.t) : t :=
  let '(ns, aps) := link (designations_with_indices neos) 0 approaches neos in
  mk ns aps.

(** [get_neo_by_designation(designation)]: the first NEO whose
    designation equals [designation.upper()]. *)
Definition get_neo_by_designation (db : t) (designation : string)
    : option NearEarthObject.t :=
  List.find (fun n => String.eqb (NearEarthObject.designation n) (str_upper designation))
    (_neos db).

(** [get_neo_by_name(name)]: the first NEO whose name equals
    [name.capitalize()] ([None == s] is false). *)
Definition get_neo_by_name (db : t) (name : string) : option NearEarthObject.t :=
  List.find (fun n => match NearEarthObject.name n with
                      | Some s => String.eqb s (str_capitalize name)
                      | None => false
                      end) (_neos db).

Section Query.
Context {F : Type} `{Callable F}.

(** The loop of [check_approach_against_filters]: every filter is
    called (no short circuit); a false result clears [match_filter];
    an exception leaves the loop. *)
Fixpoint check_loop (neos : list NearEarthObject.t) (a : CloseApproach.t)
    (fs : list F) (match_filter : bool) : result bool :=
  match fs with
  | [] => Ok match_filter
  | f :: fs' =>
      b <- call neos f a ;;
      if b then check_loop neos a fs' match_filter
      else check_loop neos a fs' false
  end.

Definition check_approach_against_filters (neos : list NearEarthObject.t)
    (a : CloseApproach.t) (fs : list F) : result bool :=
  check_loop neos a fs true.

(** The filtering branch of [query]. *)
Fixpoint scan (neos : list NearEarthObject.t) (fs : list F)
    (aps : list CloseApproach.t) : gen CloseApproach.t :=
  match aps with
  | [] => GDone
  | a :: rest =>
      match check_approach_against_filters neos a fs with
      | Ok true => GYield a (scan neos fs rest)
      | Ok false => scan neos fs rest
      | Raise e => GRaise e
      end
  end.

(** [query(filters)]: with no filters every approach is yielded. *)
Definition query (db : t) (fs : list F) : gen CloseApproach.t :=
  if truthy fs then scan (_neos db) fs (_approaches db)
  else gen_of_list (_approaches db).

End Query.

(** ** The designation index *)

(** Position of the last NEO whose designation is [d]. *)
Fixpoint last_index (d : string) (neos : list NearEarthObject.t) : option nat :=
  match neos with
  | [] => None
  | n :: rest =>
      match last_index d rest with
      | Some k => Some (S k)
      | None => if String.eqb (NearEarthObject.designation n) d then Some 0 else None
      end
  end.

Lemma index_from_lookup i neos m d :
  index_from i neos m !! d =
    match last_index d neos with Some k => Some (i + k) | None => m !! d end.
Proof.
  revert i m; induction neos as [|n rest IH]; intros i m; simpl; [done|].
  rewrite IH. destruct (last_index d rest); [f_equal; lia|].
  destruct (String.eqb_spec (NearEarthObject.designation n) d) as [<-|Hne].
  - rewrite lookup_insert_eq. f_equal. lia.
  - by rewrite lookup_insert_ne.
Qed.

(** The dictionary maps a designation to the position of its last NEO
    (later entries overwrite earlier ones). *)
Lemma designations_with_indices_lookup neos d :
  designations_with_indices neos !! d = last_index d neos.
Proof.
  unfold designations_with_indices. rewrite index_from_lookup.
  destruct (last_index d neos); [done | apply lookup_empty].
Qed.

Lemma last_index_Some d neos k :
  last_index d neos = Some k ->
  exists n, neos !! k = Some n /\ NearEarthObject.designation n = d.
Proof.
  revert k; induction neos as [|n rest IH]; intros k; simpl; [done|].
  destruct (last_index d rest) as [k'|] eqn:E.
  - intros [= <-]. by apply IH.
  - destruct (String.eqb_spec (NearEarthObject.designation n) d); intros; simplify_eq; eauto.
Qed.

Lemma last_index_None d neos :
  last_index d neos = None <->
  forall n, n ∈ neos -> NearEarthObject.designation n <> d.
Proof.
  induction neos as [|m rest IH]; simpl.
  - split; [set_solver | done].
  - destruct (last_index d rest) as [k|] eqn:E; split; try done.
    + intros H. destruct (last_index_Some _ _ _ E) as (x & Hx & <-).
      exfalso. apply (H x); [|done]. apply elem_of_cons; right.
      by eapply list_elem_of_lookup_2.
    + destruct (String.eqb_spec (NearEarthObject.designation m) d); [done|].
      intros _ x [->|Hx]%elem_of_cons; [done|]. by apply IH.
    + intros H. destruct (String.eqb_spec (NearEarthObject.designation m) d); [|done].
      exfalso. by apply (H m); [apply elem_of_cons; left|].
Qed.

Lemma last_index_last d neos k k' n :
  last_index d neos = Some k -> k < k' -> neos !! k' = Some n ->
  NearEarthObject.designation n <> d.
Proof.
  revert k k'; induction neos as [|m rest IH]; intros k k'; simpl; [done|].
  destruct (last_index d rest) as [k''|] eqn:E.
  - intros [= <-] Hlt Hk'. destruct k' as [|k']; [lia|]. apply (IH k'' k'); [done|lia|done].
  - case_match; intros; simplify_eq. destruct k' as [|k']; [lia|]. simpl in *.
    apply (proj1 (last_index_None d rest) E). by eapply list_elem_of_lookup_2.
Qed.

(** ** The linkage pass *)

(** [neo.approaches.append(i)] for every [i] of [l], in order. *)
Definition add_approaches (l : list nat) (n : NearEarthObject.t) : NearEarthObject.t :=
  foldl (fun n i => NearEarthObject.add_approach i n) n l.

(** What the second pass does to one approach. *)
Definition relink (idx : gmap string nat) (a : CloseApproach.t) : CloseApproach.t :=
  match idx !! CloseApproach.designation a with
  | Some j => CloseApproach.set_neo j a
  | None => a
  end.

(** Positions, from [i] on, of the approaches the second pass links to
    the NEO at position [j]. *)
Fixpoint linked_to (idx : gmap string nat) (j i : nat) (aps : list CloseApproach.t) : list nat :=
  match aps with
  | [] => []
  | a :: rest =>
      (if decide (idx !! CloseApproach.designation a = Some j) then [i] else [])
      ++ linked_to idx j (S i) rest
  end.

Lemma add_approaches_eq l n :
  add_approaches l n =
    NearEarthObject.mk (NearEarthObject.designation n) (NearEarthObject.name n)
      (NearEarthObject.diameter n) (NearEarthObject.hazardous n)
      (NearEarthObject.approaches n ++ l).
Proof.
  revert n; induction l as [|i l IH]; intros [d nm di h ap]; simpl.
  - by rewrite app_nil_r.
  - rewrite IH. simpl. by rewrite <- app_assoc.
Qed.

Lemma link_fst idx i aps neos j :
  (link idx i aps neos).1 !! j = add_approaches (linked_to idx j i aps) <$> neos !! j.
Proof.
  revert i neos; induction aps as [|a rest IH]; intros i neos; simpl.
  - by destruct (neos !! j).
  - destruct (idx !! CloseApproach.designation a) as [j'|] eqn:E.
    + pose proof (IH (S i) (alter (NearEarthObject.add_approach i) j' neos)) as IH'.
      destruct (link idx (S i) rest _) as [ns rs]. simpl in *. rewrite IH', list_lookup_alter.
      case_decide as Hj; [subst; rewrite decide_True by done; simpl; by destruct (neos !! j)|].
      rewrite decide_False by congruence. done.
    + pose proof (IH (S i) neos) as IH'.
      destruct (link idx (S i) rest neos) as [ns rs]. simpl in *.
      by rewrite IH'.
Qed.

Lemma link_snd idx i aps neos : (link idx i aps neos).2 = relink idx <$> aps.
Proof.
  revert i neos; induction aps as [|a rest IH]; intros i neos; simpl; [done|].
  unfold relink at 1. destruct (idx !! CloseApproach.designation a) as [j'|].
  - specialize (IH (S i) (alter (NearEarthObject.add_approach i) j' neos)).
    destruct (link idx (S i) rest _) as [ns rs]. simpl in *. by rewrite IH.
  - specialize (IH (S i) neos). destruct (link idx (S i) rest neos) as [ns rs].
    simpl in *. by rewrite IH.
Qed.

Lemma linked_to_lower idx j i aps k : k ∈ linked_to idx j i aps -> i <= k.
Proof.
  revert i; induction aps as [|a rest IH]; intros i; simpl; [set_solver|].
  case_decide; simpl; [intros [->|Hk]%elem_of_cons; [lia|]| intros Hk];
    specialize (IH (S i) Hk); lia.
Qed.

Lemma linked_to_elem idx j i aps k :
  k ∈ linked_to idx j i aps <->
  exists a, aps !! (k - i) = Some a /\ i <= k /\ idx !! CloseApproach.designation a = Some j.
Proof.
  revert i; induction aps as [|a rest IH]; intros i; simpl.
  - rewrite elem_of_nil. split; [done|]. intros (a & Ha & _). by rewrite lookup_nil in Ha.
  - rewrite elem_of_app, IH. split.
    + intros [Hk | (a' & Ha' & Hle & Hd)].
      * case_decide; [|by apply elem_of_nil in Hk]. apply list_elem_of_singleton in Hk as ->.
        exists a. by rewrite Nat.sub_diag.
      * exists a'. replace (k - i) with (S (k - S i)) by lia. split_and!; [done|lia|done].
    + intros (a' & Ha' & Hle & Hd). destruct (decide (k = i)) as [->|Hne].
      * left. rewrite Nat.sub_diag in Ha'. simpl in Ha'. simplify_eq.
        rewrite decide_True by done. by apply list_elem_of_singleton.
      * right. exists a'. replace (k - i) with (S (k - S i)) in Ha' by lia.
        split_and!; [done|lia|done].
Qed.

Lemma linked_to_sorted idx j i aps : StronglySorted lt (linked_to idx j i aps).
Proof.
  revert i; induction aps as [|a rest IH]; intros i; simpl; [constructor|].
  case_decide; simpl; [|apply IH]. constructor; [apply IH|].
  apply Forall_forall. intros k Hk%linked_to_lower. lia.
Qed.

(** ** The constructor *)

(** The inputs as the loaders build them: no NEO has approaches yet and
    no approach has an NEO. *)
Definition unlinked (neos : list NearEarthObject.t) (aps : list CloseApproach.t) : Prop :=
  Forall (fun n => NearEarthObject.approaches n = []) neos /\
  Forall (fun a => CloseApproach.neo a = None) aps.

Lemma init_neos_lookup neos aps j :
  _neos (init neos aps) !! j =
    add_approaches (linked_to (designations_with_indices neos) j 0 aps) <$> neos !! j.
Proof.
  unfold init. pose proof (link_fst (designations_with_indices neos) 0 aps neos j) as H.
  by destruct (link _ _ _ _).
Qed.

Lemma init_approaches_eq neos aps :
  _approaches (init neos aps) = relink (designations_with_indices neos) <$> aps.
Proof.
  unfold init. pose proof (link_snd (designations_with_indices neos) 0 aps neos) as H.
  by destruct (link _ _ _ _).
Qed.

Lemma relink_neo idx a :
  CloseApproach.neo (relink idx a) =
    match idx !! CloseApproach.designation a with Some j => Some j | None => CloseApproach.neo a end.
Proof. unfold relink. by destruct (idx !! _). Qed.

Lemma relink_designation idx a :
  CloseApproach.designation (relink idx a) = CloseApproach.designation a.
Proof. unfold relink. by destruct (idx !! _). Qed.

(** The constructor's effect on one approach: its [neo] is set to the
    last NEO of its designation when there is one. *)
Lemma init_approach_at neos aps i a :
  aps !! i = Some a ->
  _approaches (init neos aps) !! i =
    Some (match last_index (CloseApproach.designation a) neos with
          | Some j => CloseApproach.set_neo j a
          | None => a
          end).
Proof.
  intros Hi. rewrite init_approaches_eq, list_lookup_fmap, Hi. simpl.
  unfold relink. by rewrite designations_with_indices_lookup.
Qed.

(** The NEO an approach is linked to exists and has its designation. *)
Lemma init_linked_neo neos aps d j :
  last_index d neos = Some j ->
  exists n, _neos (init neos aps) !! j = Some n /\ NearEarthObject.designation n = d.
Proof.
  intros Ej. destruct (last_index_Some _ _ _ Ej) as (n0 & Hn0 & Hd).
  rewrite init_neos_lookup, Hn0. eexists; split; [done|]. by rewrite add_approaches_eq.
Qed.

(** From unlinked inputs the [approaches] of NEO [j] are the indices,
    in input order, of the approaches linked to [j]. *)
Lemma init_neo_approaches neos aps j n :
  unlinked neos aps -> _neos (init neos aps) !! j = Some n ->
  NearEarthObject.approaches n = linked_to (designations_with_indices neos) j 0 aps.
Proof.
  intros [Hn _] Hj. rewrite init_neos_lookup in Hj.
  destruct (neos !! j) as [n0|] eqn:E; simplify_eq/=.
  rewrite add_approaches_eq. simpl. by rewrite (Forall_lookup_1 _ _ _ _ Hn E).
Qed.

Lemma init_members neos aps j n i :
  unlinked neos aps -> _neos (init neos aps) !! j = Some n ->
  i ∈ NearEarthObject.approaches n <->
    exists a, _approaches (init neos aps) !! i = Some a /\ CloseApproach.neo a = Some j.
Proof.
  intros Hu Hj. rewrite (init_neo_approaches _ _ _ _ Hu Hj).
  rewrite linked_to_elem, Nat.sub_0_r, init_approaches_eq. destruct Hu as [_ Ha]. split.
  - intros (a & Hai & _ & Hd). exists (relink (designations_with_indices neos) a).
    by rewrite list_lookup_fmap, Hai, relink_neo, Hd.
  - intros (a' & Ha' & Hneo). rewrite list_lookup_fmap in Ha'.
    destruct (aps !! i) as [a|] eqn:Eai; simplify_eq/=. exists a.
    split_and!; [done|lia|]. rewrite relink_neo in Hneo.
    destruct (_ !! CloseApproach.designation a) eqn:Ed; [congruence|].
    by rewrite (Forall_lookup_1 _ _ _ _ Ha Eai) in Hneo.
Qed.

(** C7: the [i]-th approach of the database is the [i]-th input approach,
    with its [neo] set to the last NEO carrying its designation when
    there is one, and untouched otherwise. *)
Theorem init_approach neos aps i :
  _approaches (init neos aps) !! i =
    (fun a => match last_index (CloseApproach.designation a) neos with
              | Some j => CloseApproach.set_neo j a
              | None => a
              end) <$> aps !! i.
Proof.
  destruct (aps !! i) as [a|] eqn:E; [by apply init_approach_at|].
  by rewrite init_approaches_eq, list_lookup_fmap, E.
Qed.

(** C1: linkage consistency.  From unlinked inputs, the [approaches] list
    of every NEO is strictly increasing (input order, no repetition) and
    holds exactly the approaches whose [neo] is that NEO: the two
    directions of the reference agree. *)
Theorem init_consistent neos aps j n :
  unlinked neos aps ->
  _neos (init neos aps) !! j = Some n ->
  StronglySorted lt (NearEarthObject.approaches n) /\
  forall i, i ∈ NearEarthObject.approaches n <->
    exists a, _approaches (init neos aps) !! i = Some a /\ CloseApproach.neo a = Some j.
Proof.
  intros Hu Hj. split; [|intros i; by apply init_members].
  rewrite (init_neo_approaches _ _ _ _ Hu Hj). apply linked_to_sorted.
Qed.

(** C8: referential integrity.  From unlinked inputs, an approach's [neo]
    is the position of an NEO of the database, and that NEO has the
    approach's designation. *)
Theorem init_neo_valid neos aps i a j :
  unlinked neos aps ->
  _approaches (init neos aps) !! i = Some a -> CloseApproach.neo a = Some j ->
  exists n, _neos (init neos aps) !! j = Some n /\
    NearEarthObject.designation n = CloseApproach.designation a.
Proof.
  intros [_ Ha] Hi Hj. rewrite init_approaches_eq, list_lookup_fmap in Hi.
  destruct (aps !! i) as [a0|] eqn:E; simplify_eq/=.
  rewrite relink_neo, designations_with_indices_lookup in Hj.
  rewrite relink_designation. destruct (last_index _ neos) as [k|] eqn:Ek.
  - simplify_eq. by apply init_linked_neo.
  - by rewrite (Forall_lookup_1 _ _ _ _ Ha E) in Hj.
Qed.

(** C2: the linkage the spec promises.  From unlinked inputs, an approach
    whose designation is the designation of some NEO gets its [neo] set
    to an NEO with that designation, and appears exactly once in that
    NEO's [approaches]. *)
Theorem init_links_matching neos aps i a n0 :
  unlinked neos aps -> aps !! i = Some a ->
  n0 ∈ neos -> NearEarthObject.designation n0 = CloseApproach.designation a ->
  exists j a' n, _approaches (init neos aps) !! i = Some a' /\
    CloseApproach.neo a' = Some j /\ _neos (init neos aps) !! j = Some n /\
    NearEarthObject.designation n = CloseApproach.designation a /\
    count_occ Nat.eq_dec (NearEarthObject.approaches n) i = 1.
Proof.
  intros Hu Hai Hn0 Hd.
  destruct (last_index (CloseApproach.designation a) neos) as [j|] eqn:Ej.
  2:{ exfalso. by apply (proj1 (last_index_None _ _) Ej n0). }
  pose proof (init_approach_at neos aps i a Hai) as Hi. rewrite Ej in Hi.
  destruct (init_linked_neo neos aps _ j Ej) as (n & Hn & Hdn).
  exists j, (CloseApproach.set_neo j a), n. split_and!; try done.
  apply NoDup_count_occ'.
  - apply NoDup_ListNoDup, StronglySorted_lt_NoDup.
    rewrite (init_neo_approaches _ _ _ _ Hu Hn). apply linked_to_sorted.
  - apply list_elem_of_In, (init_members _ _ _ _ _ Hu Hn). by eexists.
Qed.

(** C9: orphan approaches.  From unlinked inputs, an approach whose
    designation is no NEO's designation keeps [neo = None] and is in no
    NEO's [approaches]: a missing match is not an error. *)
Theorem init_orphan neos aps i a :
  unlinked neos aps -> aps !! i = Some a ->
  (forall n, n ∈ neos -> NearEarthObject.designation n <> CloseApproach.designation a) ->
  _approaches (init neos aps) !! i = Some a /\
  forall j n, _neos (init neos aps) !! j = Some n -> i ∉ NearEarthObject.approaches n.
Proof.
  intros Hu Hai Hno. apply last_index_None in Hno.
  assert (Hi : _approaches (init neos aps) !! i = Some a).
  { by rewrite (init_approach_at _ _ _ _ Hai), Hno. }
  split; [done|]. intros j n Hn Hin.
  apply (init_members _ _ _ _ _ Hu Hn) in Hin as (a' & Ha' & Hneo).
  rewrite Hi in Ha'. simplify_eq. destruct Hu as [_ Ha].
  by rewrite (Forall_lookup_1 _ _ _ _ Ha Hai) in Hneo.
Qed.

(** The linkage changes nothing but the two reference fields. *)
Lemma init_neo_fields neos aps j n :
  _neos (init neos aps) !! j = Some n ->
  exists n0, neos !! j = Some n0 /\
    NearEarthObject.designation n = NearEarthObject.designation n0 /\
    NearEarthObject.name n = NearEarthObject.name n0 /\
    NearEarthObject.diameter n = NearEarthObject.diameter n0 /\
    NearEarthObject.hazardous n = NearEarthObject.hazardous n0.
Proof.
  rewrite init_neos_lookup. destruct (neos !! j) as [n0|]; intros; simplify_eq/=.
  exists n0. by rewrite add_approaches_eq.
Qed.

Lemma init_designations neos aps :
  NearEarthObject.designation <$> _neos (init neos aps) = NearEarthObject.designation <$> neos.
Proof.
  apply list_eq. intros j. rewrite !list_lookup_fmap, init_neos_lookup.
  destruct (neos !! j); simpl; [by rewrite add_approaches_eq | done].
Qed.

Lemma init_names neos aps :
  NearEarthObject.name <$> _neos (init neos aps) = NearEarthObject.name <$> neos.
Proof.
  apply list_eq. intros j. rewrite !list_lookup_fmap, init_neos_lookup.
  destruct (neos !! j); simpl; [by rewrite add_approaches_eq | done].
Qed.

(** The constructor keeps the object invariants of [Models]. *)
Theorem init_wf neos aps :
  Forall (fun n => NearEarthObject.wf n = true) neos ->
  Forall (fun a => CloseApproach.wf a = true) aps ->
  Forall (fun n => NearEarthObject.wf n = true) (_neos (init neos aps)) /\
  Forall (fun a => CloseApproach.wf a = true) (_approaches (init neos aps)).
Proof.
  rewrite !Forall_lookup. intros Hn Ha. split.
  - intros j n Hj. destruct (init_neo_fields _ _ _ _ Hj) as (n0 & Hn0 & _ & _ & Hdi & _).
    unfold NearEarthObject.wf. rewrite Hdi. by apply (Hn j).
  - intros i a. rewrite init_approaches_eq, list_lookup_fmap.
    destruct (aps !! i) as [a0|] eqn:E; intros; simplify_eq/=.
    unfold relink. destruct (designations_with_indices neos !! _); exact (Ha i a0 E).
Qed.

(** ** Lookups *)

(** C10: lookup by designation.  When the designations are distinct,
    [get_neo_by_designation d] returns exactly the NEO whose designation
    is [d.upper()]: the match is case-normalised, as the specification
    says, and not exact, as the method's docstring says (a lower-case
    [d] finds the NEO whose designation is its upper-case form). *)
Theorem get_neo_by_designation_spec db d n :
  NoDup (NearEarthObject.designation <$> _neos db) ->
  get_neo_by_designation db d = Some n <->
  n ∈ _neos db /\ NearEarthObject.designation n = str_upper d.
Proof.
  intros Hnd. unfold get_neo_by_designation. split.
  - intros H. apply find_Some_elem in H as [Hn Hf]. split; [done|]. by apply String.eqb_eq.
  - intros [Hn Hd]. apply find_unique; [|done|by apply String.eqb_eq].
    intros y z Hy Hz Hfy Hfz. apply String.eqb_eq in Hfy, Hfz.
    apply (NoDup_fmap_elem_inj NearEarthObject.designation (_neos db)); [done..|congruence].
Qed.

(** A designation no NEO has, after upper-casing, is reported as absent
    ([None]), not as an error. *)
Theorem get_neo_by_designation_None db d :
  get_neo_by_designation db d = None <->
  forall n, n ∈ _neos db -> NearEarthObject.designation n <> str_upper d.
Proof.
  unfold get_neo_by_designation. rewrite find_None_iff.
  split; intros H n Hn; specialize (H n Hn).
  - by apply String.eqb_neq.
  - by apply String.eqb_neq.
Qed.

(** Lookup by name: the first NEO whose name is [name.capitalize()]. *)
Theorem get_neo_by_name_spec db nm n :
  (forall x y, x ∈ _neos db -> y ∈ _neos db -> is_Some (NearEarthObject.name x) ->
     NearEarthObject.name x = NearEarthObject.name y -> x = y) ->
  get_neo_by_name db nm = Some n <->
  n ∈ _neos db /\ NearEarthObject.name n = Some (str_capitalize nm).
Proof.
  intros Hu. unfold get_neo_by_name. split.
  - intros H. apply find_Some_elem in H as [Hn Hf]. split; [done|].
    destruct (NearEarthObject.name n); [|done]. by apply String.eqb_eq in Hf as ->.
  - intros [Hn Hd]. apply find_unique; [|done|by rewrite Hd, String.eqb_refl].
    intros y z Hy Hz Hfy Hfz.
    destruct (NearEarthObject.name y) as [sy|] eqn:Ey, (NearEarthObject.name z) as [sz|] eqn:Ez;
      try done.
    apply String.eqb_eq in Hfy, Hfz. apply Hu; [done|done|by rewrite Ey|congruence].
Qed.

(** ** The query loop *)

Section QueryFacts.
Context {F : Type} `{Callable F}.

(** Python's [all(f(a) for f in filters)]: the short-circuiting
    conjunction the loop of [check_approach_against_filters] is
    compared with. *)
Fixpoint py_all (neos : list NearEarthObject.t) (a : CloseApproach.t) (fs : list F)
    : result bool :=
  match fs with
  | [] => Ok true
  | f :: fs' => b <- call neos f a ;; if b then py_all neos a fs' else Ok false
  end.

(** Every filter of [fs] evaluates on [a] without raising. *)
Definition evaluates (neos : list NearEarthObject.t) (fs : list F) (a : CloseApproach.t) : Prop :=
  forall f, f ∈ fs -> exists b, call neos f a = Ok b.

Lemma check_loop_false neos a fs b :
  check_loop neos a fs false = Ok b -> b = false.
Proof.
  induction fs as [|f fs IH]; simpl; [congruence|].
  destruct (call neos f a) as [[]|]; simpl; [apply IH..|done].
Qed.

Lemma check_loop_true_iff neos a fs mf :
  check_loop neos a fs mf = Ok true <->
  mf = true /\ Forall (fun f => call neos f a = Ok true) fs.
Proof.
  revert mf; induction fs as [|f fs IH]; intros mf; simpl.
  - split; [intros [= ->]; by split | by intros [-> _]].
  - rewrite Forall_cons. destruct (call neos f a) as [[]|] eqn:E; simpl.
    + rewrite IH. naive_solver.
    + split; [by intros ?%check_loop_false | naive_solver].
    + split; [done | naive_solver].
Qed.

(** [check_approach_against_filters] accepts an approach exactly
    when every filter returns [True] on it. *)
Theorem check_approach_spec neos a fs :
  check_approach_against_filters neos a fs = Ok true <->
  Forall (fun f => call neos f a = Ok true) fs.
Proof. unfold check_approach_against_filters. rewrite check_loop_true_iff. naive_solver. Qed.

Lemma check_loop_evaluates neos a fs mf :
  evaluates neos fs a -> exists b, check_loop neos a fs mf = Ok b.
Proof.
  revert mf; induction fs as [|f fs IH]; intros mf Hev; simpl; [by eexists|].
  destruct (Hev f) as [b Hb]; [apply elem_of_cons; by left|]. rewrite Hb. simpl.
  destruct b; apply IH; intros g Hg; apply Hev, elem_of_cons; by right.
Qed.

(** C11: without exceptions the loop computes Python's [all(...)]: the
    missing short circuit changes nothing then. *)
Theorem check_approach_py_all neos a fs :
  evaluates neos fs a -> check_approach_against_filters neos a fs = py_all neos a fs.
Proof.
  intros Hev. destruct (check_loop_evaluates neos a fs true Hev) as [b Hb].
  unfold check_approach_against_filters. rewrite Hb.
  destruct b.
  - symmetry. apply check_loop_true_iff in Hb as [_ Hall]. clear Hev.
    induction Hall as [|f fs Hf _ IH]; simpl; [done|]. by rewrite Hf.
  - symmetry. destruct (py_all neos a fs) as [[]|] eqn:E; [|done|].
    + exfalso. enough (check_loop neos a fs true = Ok true) by congruence.
      apply check_loop_true_iff. split; [done|]. clear Hev Hb.
      induction fs as [|f fs IH]; simpl in *; [done|].
      destruct (call neos f a) as [[]|] eqn:Ef; simpl in E; try done.
      constructor; [done|auto].
    + exfalso. clear Hb. induction fs as [|f fs IH]; simpl in *; [done|].
      destruct (Hev f) as [b Hb]; [apply elem_of_cons; by left|].
      rewrite Hb in E. destruct b; simpl in E; [|done].
      apply IH; [|done]. intros g Hg; apply Hev, elem_of_cons; by right.
Qed.

(** The abstract specification of a query: an approach is a result
    when every filter returns [True] on it. *)
Definition matches (neos : list NearEarthObject.t) (fs : list F) (a : CloseApproach.t) : Prop :=
  Forall (fun f => call neos f a = Ok true) fs.

#[local] Instance matches_dec neos fs a : Decision (matches neos fs a).
Proof. unfold matches. apply _. Defined.

Lemma scan_no_filters neos aps : scan neos [] aps = gen_of_list aps.
Proof. induction aps as [|a aps IH]; simpl; [done|]. by rewrite IH. Qed.

(** The [if filters:] branch of [query] is only a shortcut: the
    query is always the filtering loop over all approaches. *)
Theorem query_scan db fs : query db fs = scan (_neos db) fs (_approaches db).
Proof. unfold query. destruct fs; simpl; [by rewrite scan_no_filters | done]. Qed.

(** C4: With no filters the query yields every approach once, in the
    stored order. *)
Theorem query_no_filters db : drain (query db []) = Ok (_approaches db).
Proof. apply drain_gen_of_list. Qed.

Lemma scan_spec neos fs aps :
  Forall (evaluates neos fs) aps ->
  drain (scan neos fs aps) = Ok (filter (matches neos fs) aps).
Proof.
  induction 1 as [|a aps Ha Hall IH]; simpl; [done|].
  rewrite filter_cons. destruct (check_loop_evaluates neos a fs true Ha) as [b Hb].
  unfold check_approach_against_filters at 1. rewrite Hb.
  pose proof (check_loop_true_iff neos a fs true) as Hspec. rewrite Hb in Hspec.
  destruct b; simpl.
  - rewrite decide_True by (by apply Hspec). by rewrite IH.
  - rewrite decide_False by (intros Hm; discriminate (proj2 Hspec (conj eq_refl Hm))). done.
Qed.

(** C3: query correctness.  When no filter raises on any approach, the
    query yields, in stored order, exactly the approaches on which every
    filter returns [True]. *)
Theorem query_spec db fs :
  Forall (evaluates (_neos db) fs) (_approaches db) ->
  drain (query db fs) = Ok (filter (matches (_neos db) fs) (_approaches db)).
Proof. rewrite query_scan. apply scan_spec. Qed.

(** C12: monotonicity of the conjunction.  Dropping filters can only add
    results: the results for [fs] are a sublist of those for any [fs']
    whose filters are all in [fs]. *)
Theorem query_monotone db fs fs' :
  (forall f, f ∈ fs' -> f ∈ fs) ->
  Forall (evaluates (_neos db) fs) (_approaches db) ->
  exists l l', drain (query db fs) = Ok l /\ drain (query db fs') = Ok l' /\
    l `sublist_of` l'.
Proof.
  intros Hsub Hev.
  assert (Hev' : Forall (evaluates (_neos db) fs') (_approaches db)).
  { eapply Forall_impl; [exact Hev|]. intros a Ha f Hf. by apply Ha, Hsub. }
  eexists _, _. rewrite !query_scan, (scan_spec _ _ _ Hev), (scan_spec _ _ _ Hev').
  split_and!; [done|done|]. apply filter_sublist_mono.
  intros a _ Hm. unfold matches in *. rewrite Forall_forall in Hm |- *.
  intros f Hf. by apply Hm, Hsub.
Qed.

Lemma scan_raises neos fs aps e :
  drain (scan neos fs aps) = Raise e <->
  exists pre a post, aps = pre ++ a :: post /\
    (forall p, p ∈ pre -> exists b, check_approach_against_filters neos p fs = Ok b) /\
    check_approach_against_filters neos a fs = Raise e.
Proof.
  induction aps as [|a aps IH]; simpl.
  - split; [done|]. intros ([|p pre] & a & post & Heq & _); discriminate.
  - destruct (check_approach_against_filters neos a fs) as [[]|e'] eqn:E; simpl.
    + split.
      * intros Hd. assert (Ed : drain (scan neos fs aps) = Raise e)
          by (destruct (drain (scan neos fs aps)); simpl in Hd; congruence).
        apply IH in Ed as (pre & a' & post & -> & Hpre & Ha').
        exists (a :: pre), a', post. split_and!; [done| |done].
        intros p [->|Hp]%elem_of_cons; [by eexists|auto].
      * intros ([|p pre] & a' & post & Heq & Hpre & Ha'); simpl in Heq;
          injection Heq as Hp Haps; [subst; congruence|].
        enough (Hd : drain (scan neos fs aps) = Raise e) by (by rewrite Hd).
        apply IH. exists pre, a', post. split_and!; [done| |done].
        intros q Hq. apply Hpre, elem_of_cons. by right.
    + rewrite IH. split.
      * intros (pre & a' & post & -> & Hpre & Ha').
        exists (a :: pre), a', post. split_and!; [done| |done].
        intros p [->|Hp]%elem_of_cons; [by eexists|auto].
      * intros ([|p pre] & a' & post & Heq & Hpre & Ha'); simpl in Heq;
          injection Heq as Hp Haps; [subst; congruence|].
        exists pre, a', post. split_and!; [done| |done].
        intros q Hq. apply Hpre, elem_of_cons. by right.
    + split.
      * intros [= ->]. exists [], a, aps. split_and!; [done| |done].
        by intros p ?%elem_of_nil.
      * intros ([|p pre] & a' & post & Heq & Hpre & Ha'); simpl in Heq;
          injection Heq as Hp Haps; [subst; congruence|].
        destruct (Hpre p) as [b Hb]; [apply elem_of_cons; by left|]. subst. congruence.
Qed.

(** C13: error propagation.  Consuming a query raises [e] exactly when
    some approach makes a filter raise [e] and every approach before it
    was checked without exception: the generator stops at the first
    failing approach. *)
Theorem query_raises db fs e :
  drain (query db fs) = Raise e <->
  exists pre a post, _approaches db = pre ++ a :: post /\
    (forall p, p ∈ pre -> exists b, check_approach_against_filters (_neos db) p fs = Ok b) /\
    check_approach_against_filters (_neos db) a fs = Raise e.
Proof. rewrite query_scan. apply scan_raises. Qed.

(** The loop calls every filter: one that raises makes the whole check
    raise, whatever the filters before it returned. *)
Lemma check_loop_raises neos a fs mf f e :
  f ∈ fs -> call neos f a = Raise e -> exists e', check_loop neos a fs mf = Raise e'.
Proof.
  revert mf; induction fs as [|g fs IH]; intros mf Hf Hcall; [by apply elem_of_nil in Hf|].
  simpl. apply elem_of_cons in Hf as [->|Hf].
  - rewrite Hcall. by eexists.
  - destruct (call neos g a) as [[]|e']; simpl; [by apply IH..|by eexists].
Qed.

(** A query in which some approach makes a filter raise does not
    complete. *)
Lemma scan_raises_if neos fs aps a f e :
  a ∈ aps -> f ∈ fs -> call neos f a = Raise e ->
  exists e', drain (scan neos fs aps) = Raise e'.
Proof.
  intros Ha Hf Hcall. induction aps as [|b aps IH]; [by apply elem_of_nil in Ha|].
  simpl. destruct (check_approach_against_filters neos b fs) as [[]|e'] eqn:Eb; simpl.
  - apply elem_of_cons in Ha as [<-|Ha].
    + exfalso. destruct (check_loop_raises neos a fs true f e Hf Hcall) as [e' He'].
      unfold check_approach_against_filters in Eb. congruence.
    + destruct (IH Ha) as [e' He']. rewrite He'. by eexists.
  - apply elem_of_cons in Ha as [<-|Ha].
    + exfalso. destruct (check_loop_raises neos a fs true f e Hf Hcall) as [e' He'].
      unfold check_approach_against_filters in Eb. congruence.
    + by apply IH.
  - by eexists.
Qed.

Lemma scan_app neos fs aps1 aps2 :
  scan neos fs (aps1 ++ aps2) = gen_app (scan neos fs aps1) (scan neos fs aps2).
Proof.
  induction aps1 as [|a aps1 IH]; simpl; [done|].
  destruct (check_approach_against_filters neos a fs) as [[]|]; simpl; by rewrite ?IH.
Qed.

End QueryFacts.

End NEODatabase.

(** ** A sample database

    Two NEOs and four approaches, one of them an orphan: the witnesses
    below run the theorems on it. *)

Definition sample_eros : NearEarthObject.t :=
  NearEarthObject.init "433" (Some "Eros") (Some (float_lit 1684 100)) false.
Definition sample_apollo : NearEarthObject.t :=
  NearEarthObject.init "1862" (Some "Apollo") (Some (float_lit 15 10)) true.
Definition sample_ap0 : CloseApproach.t :=
  CloseApproach.mk "433" (mk_datetime 1900 1 1 0 0) (float_lit 32 100) (float_lit 55 10) None.
Definition sample_ap1 : CloseApproach.t :=
  CloseApproach.mk "1862" (mk_datetime 1932 4 24 12 30) (float_lit 7 100) (float_lit 30 1) None.
Definition sample_orphan : CloseApproach.t :=
  CloseApproach.mk "99942" (mk_datetime 2029 4 13 21 46) (float_lit 25 1000000) (float_lit 74 10) None.
Definition sample_ap3 : CloseApproach.t :=
  CloseApproach.mk "433" (mk_datetime 1975 1 23 8 0) (float_lit 15 100) (float_lit 6 1) None.

Definition sample_neos : list NearEarthObject.t := [sample_eros; sample_apollo].
Definition sample_approaches : list CloseApproach.t :=
  [sample_ap0; sample_ap1; sample_orphan; sample_ap3].
Definition sample_db : NEODatabase.t := NEODatabase.init sample_neos sample_approaches.

(** Eros after linkage: approaches 0 and 3 are its own. *)
Definition sample_eros_linked : NearEarthObject.t :=
  NearEarthObject.mk "433" (Some "Eros") (float_lit 1684 100) false [0; 3].

Definition sample_apollo_linked : NearEarthObject.t :=
  NearEarthObject.mk "1862" (Some "Apollo") (float_lit 15 10) true [1].

Lemma sample_db_neos : NEODatabase._neos sample_db = [sample_eros_linked; sample_apollo_linked].
Proof. vm_compute. reflexivity. Qed.

Lemma sample_unlinked : NEODatabase.unlinked sample_neos sample_approaches.
Proof. split; repeat constructor. Qed.

Lemma init_consistent_witness :
  NEODatabase.unlinked sample_neos sample_approaches /\
  NEODatabase._neos sample_db !! 0 = Some sample_eros_linked /\
  (StronglySorted lt (NearEarthObject.approaches sample_eros_linked) /\
   forall i, i ∈ NearEarthObject.approaches sample_eros_linked <->
     exists a, NEODatabase._approaches sample_db !! i = Some a /\ CloseApproach.neo a = Some 0).
Proof.
  assert (Hn : NEODatabase._neos sample_db !! 0 = Some sample_eros_linked)
    by (vm_compute; reflexivity).
  split; [exact sample_unlinked|]. split; [exact Hn|].
  exact (NEODatabase.init_consistent _ _ _ _ sample_unlinked Hn).
Defined.

Lemma init_links_matching_witness :
  NEODatabase.unlinked sample_neos sample_approaches /\
  sample_approaches !! 3 = Some sample_ap3 /\ sample_eros ∈ sample_neos /\
  NearEarthObject.designation sample_eros = CloseApproach.designation sample_ap3 /\
  exists j a' n, NEODatabase._approaches sample_db !! 3 = Some a' /\
    CloseApproach.neo a' = Some j /\ NEODatabase._neos sample_db !! j = Some n /\
    NearEarthObject.designation n = CloseApproach.designation sample_ap3 /\
    count_occ Nat.eq_dec (NearEarthObject.approaches n) 3 = 1.
Proof.
  assert (Hm : sample_eros ∈ sample_neos) by (apply elem_of_cons; by left).
  refine (conj sample_unlinked (conj eq_refl (conj Hm (conj eq_refl _)))).
  exact (NEODatabase.init_links_matching _ _ 3 _ _ sample_unlinked eq_refl Hm eq_refl).
Defined.

Lemma init_neo_valid_witness :
  NEODatabase.unlinked sample_neos sample_approaches /\
  NEODatabase._approaches sample_db !! 1 = Some (CloseApproach.set_neo 1 sample_ap1) /\
  CloseApproach.neo (CloseApproach.set_neo 1 sample_ap1) = Some 1 /\
  exists n, NEODatabase._neos sample_db !! 1 = Some n /\
    NearEarthObject.designation n = CloseApproach.designation (CloseApproach.set_neo 1 sample_ap1).
Proof.
  assert (Hi : NEODatabase._approaches sample_db !! 1 = Some (CloseApproach.set_neo 1 sample_ap1))
    by (vm_compute; reflexivity).
  refine (conj sample_unlinked (conj Hi (conj eq_refl _))).
  exact (NEODatabase.init_neo_valid _ _ 1 _ 1 sample_unlinked Hi eq_refl).
Defined.

Lemma init_orphan_witness :
  NEODatabase.unlinked sample_neos sample_approaches /\
  sample_approaches !! 2 = Some sample_orphan /\
  (forall n, n ∈ sample_neos ->
     NearEarthObject.designation n <> CloseApproach.designation sample_orphan) /\
  (NEODatabase._approaches sample_db !! 2 = Some sample_orphan /\
   forall j n, NEODatabase._neos sample_db !! j = Some n -> 2 ∉ NearEarthObject.approaches n).
Proof.
  assert (Hno : forall n, n ∈ sample_neos ->
            NearEarthObject.designation n <> CloseApproach.designation sample_orphan).
  { apply Forall_forall. repeat constructor; cbn; discriminate. }
  refine (conj sample_unlinked (conj eq_refl (conj Hno _))).
  exact (NEODatabase.init_orphan _ _ 2 _ sample_unlinked eq_refl Hno).
Defined.

Lemma init_wf_witness :
  Forall (fun n => NearEarthObject.wf n = true) sample_neos /\
  Forall (fun a => CloseApproach.wf a = true) sample_approaches /\
  (Forall (fun n => NearEarthObject.wf n = true) (NEODatabase._neos sample_db) /\
   Forall (fun a => CloseApproach.wf a = true) (NEODatabase._approaches sample_db)).
Proof.
  assert (H1 : Forall (fun n => NearEarthObject.wf n = true) sample_neos)
    by (repeat constructor).
  assert (H2 : Forall (fun a => CloseApproach.wf a = true) sample_approaches)
    by (repeat constructor).
  refine (conj H1 (conj H2 _)). exact (NEODatabase.init_wf _ _ H1 H2).
Defined.

Lemma get_neo_by_designation_spec_witness :
  NoDup (NearEarthObject.designation <$> NEODatabase._neos sample_db) /\
  (NEODatabase.get_neo_by_designation sample_db "433" = Some sample_eros_linked <->
   sample_eros_linked ∈ NEODatabase._neos sample_db /\
   NearEarthObject.designation sample_eros_linked = str_upper "433").
Proof.
  assert (Hnd : NoDup (NearEarthObject.designation <$> NEODatabase._neos sample_db)).
  { rewrite sample_db_neos. vm_compute. repeat constructor; set_solver. }
  split; [exact Hnd|]. exact (NEODatabase.get_neo_by_designation_spec _ _ _ Hnd).
Defined.

Lemma get_neo_by_name_spec_witness :
  (forall x y, x ∈ NEODatabase._neos sample_db -> y ∈ NEODatabase._neos sample_db ->
     is_Some (NearEarthObject.name x) -> NearEarthObject.name x = NearEarthObject.name y ->
     x = y) /\
  (NEODatabase.get_neo_by_name sample_db "eros" = Some sample_eros_linked <->
   sample_eros_linked ∈ NEODatabase._neos sample_db /\
   NearEarthObject.name sample_eros_linked = Some (str_capitalize "eros")).
Proof.
  assert (Hu : forall x y, x ∈ NEODatabase._neos sample_db -> y ∈ NEODatabase._neos sample_db ->
     is_Some (NearEarthObject.name x) -> NearEarthObject.name x = NearEarthObject.name y ->
     x = y).
  { intros x y Hx Hy _ Hxy. rewrite sample_db_neos in Hx, Hy.
    repeat match goal with
    | H : _ ∈ _ :: _ |- _ => apply elem_of_cons in H as [->|H]
    | H : _ ∈ [] |- _ => by apply elem_of_nil in H
    end; first [reflexivity | cbv in Hxy; congruence]. }
  split; [exact Hu|]. exact (NEODatabase.get_neo_by_name_spec _ _ _ Hu).
Defined.
