(* ===== verification/Filters.v ===== *)
(** * Filters and result limiting (filters.py)

    The Python class hierarchy [AttributeFilter] / [DistanceFilter] /
    [DiameterFilter] / [VelocityFilter] / [HazardousFilter] / [DateFilter]
    differs only in the class method [get]; a filter object is the triple
    (class, comparator, reference value), modelled as the record
    [AttributeFilter] whose [cls] names the class.  [__call__] is
    [op(get(approach), value)] with Python's comparison semantics on the
    values involved ([py_compare]): mixed [bool]/[float] comparisons are
    numeric, [==] between unrelated types is false, and ordering unrelated
    types raises [TypeError].  [get] of the base class raises
    [UnsupportedCriterionError]; the NEO attributes dereference
    [approach.neo], which raises [AttributeError] when it is [None].

    [create_filters] keeps the Python truthiness tests ([if velocity_min:])
    and the order of the source.  [limit] returns the iterator itself for
    [n] in [{None, 0}] and [list(itertools.islice(iterator, 0, n))]
    otherwise, with islice's [ValueError] outside [0 <= n <= sys.maxsize]. *)

From S2P Require Import Prelude PyFloat DateTime Models Database.

(** The comparators of the [operator] module [create_filters] uses. *)
Inductive op := op_eq | op_le | op_ge.

#[export] Instance op_eq_dec : EqDecision op.
Proof. solve_decision. Defined.

Definition float_cmp (o : op) (x y : pyfloat) : bool :=
  match o with op_eq => float_eq x y | op_le => float_le x y | op_ge => float_ge x y end.

Definition date_cmp (o : op) (x y : date) : bool :=
  match o with op_eq => date_eqb x y | op_le => date_le x y | op_ge => date_ge x y end.

(** [op(x, y)] on Python values. *)
Definition py_compare (o : op) (x y : pyval) : result bool :=
  match x, y with
  | VFloat a, VFloat b => Ok (float_cmp o a b)
  | VBool a, VBool b => Ok (float_cmp o (float_of_bool a) (float_of_bool b))
  | VBool a, VFloat b => Ok (float_cmp o (float_of_bool a) b)
  | VFloat a, VBool b => Ok (float_cmp o a (float_of_bool b))
  | VDate a, VDate b => Ok (date_cmp o a b)
  | VStr a, VStr b =>
      Ok (match o with
          | op_eq => String.eqb a b
          | op_le => String.leb a b
          | op_ge => String.leb b a
          end)
  | VNone, VNone => match o with op_eq => Ok true | _ => Raise TypeError end
  | _, _ => match o with op_eq => Ok false | _ => Raise TypeError end
  end.

(** The class of a filter object. *)
Inductive filter_class := KAttribute | KDistance | KDiameter | KVelocity | KHazardous | KDate.

#[export] Instance filter_class_eq_dec : EqDecision filter_class.
Proof. solve_decision. Defined.

Record AttributeFilter := mkfilter { cls : filter_class; fop : op; value : pyval }.

#[export] Instance filter_eq_dec : EqDecision AttributeFilter.
Proof. solve_decision. Defined.

(** The constructors [Cls(op, value)] of the six classes. *)
Definition AttributeFilter_new (o : op) (v : pyval) := mkfilter KAttribute o v.
Definition DistanceFilter (o : op) (v : pyval) := mkfilter KDistance o v.
Definition DiameterFilter (o : op) (v : pyval) := mkfilter KDiameter o v.
Definition VelocityFilter (o : op) (v : pyval) := mkfilter KVelocity o v.
Definition HazardousFilter (o : op) (v : pyval) := mkfilter KHazardous o v.
Definition DateFilter (o : op) (v : pyval) := mkfilter KDate o v.

(** [approach.neo] as an object: [None.diameter] raises [AttributeError]. *)
Definition deref (neos : list NearEarthObject.t) (a : CloseApproach.t)
    : result NearEarthObject.t :=
  match CloseApproach.neo a with
  | None => Raise AttributeError
  | Some j => match neos !! j with Some n => Ok n | None => Raise AttributeError end
  end.

(** The class method [get] of each class. *)
Definition get (k : filter_class) (neos : list NearEarthObject.t) (a : CloseApproach.t) : result pyval :=
  match k with
  | KAttribute => Raise UnsupportedCriterionError
  | KDistance => Ok (VFloat (CloseApproach.distance a))
  | KDiameter => n <- deref neos a ;; Ok (VFloat (NearEarthObject.diameter n))
  | KVelocity => Ok (VFloat (CloseApproach.velocity a))
  | KHazardous => n <- deref neos a ;; Ok (VBool (NearEarthObject.hazardous n))
  | KDate => Ok (VDate (date_of (CloseApproach.time a)))
  end.

(** [AttributeFilter.__call__(approach)]. *)
Definition filter_call (neos : list NearEarthObject.t) (f : AttributeFilter)
    (a : CloseApproach.t) : result bool :=
  v <- get (cls f) neos a ;; py_compare (fop f) v (value f).

#[export] Instance AttributeFilter_callable : Callable AttributeFilter := filter_call.

(** ** [create_filters] *)

(** The keyword arguments of [create_filters], [None] when not given. *)
Record criteria := mkcriteria {
  c_date : option date;
  c_start_date : option date;
  c_end_date : option date;
  c_distance_min : option pyfloat;
  c_distance_max : option pyfloat;
  c_velocity_min : option pyfloat;
  c_velocity_max : option pyfloat;
  c_diameter_min : option pyfloat;
  c_diameter_max : option pyfloat;
  c_hazardous : option bool }.

(** [date] objects are always truthy. *)
#[export] Instance truthy_date : Truthy date := fun _ => true.

(** [if x: specified_filters.append(mk(x))]. *)
Definition when_truthy {A} `{Truthy A} (x : option A) (mk : A -> AttributeFilter)
    : list AttributeFilter :=
  match x with
  | Some v => if truthy v then [mk v] else []
  | None => []
  end.

Definition create_filters (c : criteria) : list AttributeFilter :=
  when_truthy (c_date c) (fun d => DateFilter op_eq (VDate d))
  ++ when_truthy (c_start_date c) (fun d => DateFilter op_ge (VDate d))
  ++ when_truthy (c_end_date c) (fun d => DateFilter op_le (VDate d))
  ++ when_truthy (c_velocity_min c) (fun v => VelocityFilter op_ge (VFloat v))
  ++ when_truthy (c_velocity_max c) (fun v => VelocityFilter op_le (VFloat v))
  ++ when_truthy (c_distance_min c) (fun v => DistanceFilter op_ge (VFloat v))
  ++ when_truthy (c_distance_max c) (fun v => DistanceFilter op_le (VFloat v))
  ++ match c_hazardous c with Some h => [HazardousFilter op_eq (VBool h)] | None => [] end
  ++ when_truthy (c_diameter_min c) (fun v => DiameterFilter op_ge (VFloat v))
  ++ when_truthy (c_diameter_max c) (fun v => DiameterFilter op_le (VFloat v)).

(** ** [limit] *)

(** [sys.maxsize] on a 64-bit CPython. *)
Definition maxsize : Z := (2 ^ 63 - 1)%Z.

(** [limit(iterator, n)]: the iterator itself when [n] is [0] or [None],
    otherwise the list of its first [n] items ([islice] raises
    [ValueError] for a stop outside [0 .. sys.maxsize]). *)
Definition limit {A} (it : gen A) (n : option Z) : result (gen A) :=
  match n with
  | None => Ok it
  | Some z =>
      if (z =? 0)%Z then Ok it
      else if (z <? 0)%Z || (maxsize <? z)%Z then Raise ValueError
      else l <- islice (Z.to_nat z) it ;; Ok (gen_of_list l)
  end.

(** ** Filter calls *)

(** The reference value has the type [get] returns for the class, as it
    has in every filter [create_filters] builds. *)
Definition typed (f : AttributeFilter) : bool :=
  match cls f, value f with
  | (KDistance | KVelocity | KDiameter), VFloat _ => true
  | KHazardous, VBool _ => true
  | KDate, VDate _ => true
  | _, _ => false
  end.

(** The classes whose [get] reads [approach.neo]. *)
Definition reads_neo (f : AttributeFilter) : bool :=
  match cls f with KDiameter | KHazardous => true | _ => false end.

Lemma call_eq neos f a : call neos f a = filter_call neos f a.
Proof. done. Qed.

Lemma float_cmp_nan_l o v : float_cmp o PNaN v = false.
Proof. destruct o; simpl; autorewrite with neo; done. Qed.

Lemma float_of_bool_eq a b : float_eq (float_of_bool a) (float_of_bool b) = Bool.eqb a b.
Proof. by destruct a, b. Qed.

(** The base class is abstract: calling an [AttributeFilter] that is
    not of a subclass raises [UnsupportedCriterionError]. *)
Theorem attribute_filter_unsupported neos o v a :
  call neos (AttributeFilter_new o v) a = Raise UnsupportedCriterionError.
Proof. done. Qed.

Lemma filter_call_total neos f a :
  typed f = true -> (reads_neo f = false \/ exists n, deref neos a = Ok n) ->
  exists b, filter_call neos f a = Ok b.
Proof.
  unfold filter_call. intros Ht Hn.
  destruct f as [k o v]; cbn [cls fop value reads_neo typed] in *.
  destruct k; cbn [get rbind]; destruct v; try done; try (cbn; by eexists);
    destruct Hn as [Hn | [n Hn]]; try done; rewrite Hn; cbn; by eexists.
Qed.

(** C21: a well-typed filter never raises on an approach whose [neo] is an
    NEO of the store, nor on any approach when it does not read the NEO. *)
Theorem typed_filter_total neos f a :
  typed f = true -> (reads_neo f = false \/ exists n, deref neos a = Ok n) ->
  exists b, call neos f a = Ok b.
Proof. rewrite call_eq. apply filter_call_total. Qed.

Lemma get_orphan neos f a :
  reads_neo f = true -> CloseApproach.neo a = None -> get (cls f) neos a = Raise AttributeError.
Proof. unfold get, deref. intros Hr ->. by destruct f as [[] o v]. Qed.

(** C22: the classes that read the NEO raise [AttributeError] on an orphan
    approach ([approach.neo] is [None]), whatever the comparator. *)
Theorem neo_filter_orphan neos f a :
  reads_neo f = true -> CloseApproach.neo a = None -> call neos f a = Raise AttributeError.
Proof. rewrite call_eq. unfold filter_call. intros Hr Hn. by rewrite get_orphan. Qed.

(** No comparison with NaN on the left is true. *)
Lemma py_compare_nan_l o v : py_compare o (VFloat PNaN) v <> Ok true.
Proof.
  destruct v as [|b|y|s|d]; destruct o; simpl; autorewrite with neo; try done;
    unfold float_ge; by rewrite ?float_le_nan_r.
Qed.

(** An attribute that is NaN never satisfies a filter: an approach
    whose distance or velocity was missing or zero in the data, or whose
    NEO's diameter is unknown, is rejected by every bound on it. *)
Theorem nan_attribute_never_matches neos f a :
  get (cls f) neos a = Ok (VFloat PNaN) -> call neos f a <> Ok true.
Proof.
  rewrite call_eq. unfold filter_call. intros ->. apply py_compare_nan_l. Qed.

(** ** [create_filters] against the criteria it is given *)

Definition opt_holds {A} (x : option A) (p : A -> bool) : bool :=
  match x with Some v => p v | None => true end.

#[export] Instance opt_holds_proper {A} :
  Proper (eq ==> pointwise_relation A eq ==> eq) (@opt_holds A).
Proof. intros x ? <- p q Hpq. destruct x; simpl; [apply Hpq | done]. Qed.

(** The specification of the criteria (spec 4.2): every criterion that is
    given holds of the approach [a] and of its NEO [n]. *)
Definition criteria_hold (c : criteria) (n : NearEarthObject.t) (a : CloseApproach.t) : bool :=
  let d := date_of (CloseApproach.time a) in
  opt_holds (c_date c) (date_eqb d)
  && opt_holds (c_start_date c) (date_ge d)
  && opt_holds (c_end_date c) (date_le d)
  && opt_holds (c_velocity_min c) (float_ge (CloseApproach.velocity a))
  && opt_holds (c_velocity_max c) (float_le (CloseApproach.velocity a))
  && opt_holds (c_distance_min c) (float_ge (CloseApproach.distance a))
  && opt_holds (c_distance_max c) (float_le (CloseApproach.distance a))
  && opt_holds (c_hazardous c) (Bool.eqb (NearEarthObject.hazardous n))
  && opt_holds (c_diameter_min c) (float_ge (NearEarthObject.diameter n))
  && opt_holds (c_diameter_max c) (float_le (NearEarthObject.diameter n)).

(** Every numeric bound that is given is non-zero. *)
Definition nonzero_bounds (c : criteria) : bool :=
  opt_holds (c_velocity_min c) truthy && opt_holds (c_velocity_max c) truthy
  && opt_holds (c_distance_min c) truthy && opt_holds (c_distance_max c) truthy
  && opt_holds (c_diameter_min c) truthy && opt_holds (c_diameter_max c) truthy.

(** [True] returned, as a boolean. *)
Definition ok_true (r : result bool) : bool :=
  match r with Ok b => b | Raise _ => false end.

Lemma Forall_when_truthy {A} `{Truthy A} neos a (x : option A) mk :
  opt_holds x truthy = true ->
  Forall (fun f => call neos f a = Ok true) (when_truthy x mk) <->
  opt_holds x (fun v => ok_true (call neos (mk v) a)) = true.
Proof.
  destruct x as [v|]; simpl; [|split; [done|constructor]].
  intros ->. rewrite Forall_singleton. by destruct (call neos (mk v) a) as [[]|].
Qed.

Lemma Forall_when_truthy_all {A} `{Truthy A} (P : AttributeFilter -> Prop) (x : option A) mk :
  (forall v, P (mk v)) -> Forall P (when_truthy x mk).
Proof. intros HP. destruct x as [v|]; simpl; [destruct (truthy v)|]; by repeat constructor. Qed.

Lemma Forall_hazardous neos a x :
  Forall (fun f => call neos f a = Ok true)
    (match x with Some h => [HazardousFilter op_eq (VBool h)] | None => [] end) <->
  opt_holds x (fun h => ok_true (call neos (HazardousFilter op_eq (VBool h)) a)) = true.
Proof.
  destruct x as [h|]; simpl; [|split; [done|constructor]].
  rewrite Forall_singleton. by destruct (call neos _ a) as [[]|].
Qed.

Lemma opt_holds_date (x : option date) : opt_holds x truthy = true.
Proof. by destruct x. Qed.

(** [create_filters] builds only well-typed filters. *)
Theorem create_filters_typed c : Forall (fun f => typed f = true) (create_filters c).
Proof.
  unfold create_filters. rewrite !Forall_app.
  split_and!; try (apply Forall_when_truthy_all; done).
  destruct (c_hazardous c); by repeat constructor.
Qed.

(** For an approach whose NEO is [n] and criteria whose numeric bounds
    are non-zero, the approach passes every filter of [create_filters c]
    exactly when it meets every given criterion. *)
Lemma create_filters_matches c neos a n :
  deref neos a = Ok n -> nonzero_bounds c = true ->
  Database.NEODatabase.matches neos (create_filters c) a <-> criteria_hold c n a = true.
Proof.
  intros Hd Hz. unfold nonzero_bounds in Hz. rewrite !andb_true_iff in Hz. destruct_and! Hz.
  unfold NEODatabase.matches, create_filters, criteria_hold. rewrite !Forall_app.
  rewrite Forall_hazardous, !Forall_when_truthy by (done || apply opt_holds_date).
  unfold call, AttributeFilter_callable, filter_call, get.
  cbn [cls fop value DateFilter VelocityFilter DistanceFilter HazardousFilter DiameterFilter].
  setoid_rewrite Hd. cbn [rbind py_compare ok_true]. unfold float_cmp, date_cmp.
  setoid_rewrite float_of_bool_eq. rewrite !andb_true_iff. tauto.
Qed.

(** C5: [create_filters] implements the criteria.  On a linked approach
    whose NEO is [n], and for criteria whose numeric bounds are non-zero,
    [check_approach_against_filters] with the filters of
    [create_filters c] never raises and returns exactly whether every
    given criterion holds: dates compared by calendar day, bounds
    inclusive, the hazardous flag by equality. *)
Theorem create_filters_spec c neos a n :
  deref neos a = Ok n -> nonzero_bounds c = true ->
  NEODatabase.check_approach_against_filters neos a (create_filters c) = Ok (criteria_hold c n a).
Proof.
  intros Hd Hz.
  assert (Hev : NEODatabase.evaluates neos (create_filters c) a).
  { intros f Hf. rewrite call_eq. apply filter_call_total; [|right; by exists n].
    exact (proj1 (Forall_forall _ _) (create_filters_typed c) f Hf). }
  destruct (NEODatabase.check_loop_evaluates neos a _ true Hev) as [b Hb].
  pose proof (NEODatabase.check_loop_true_iff neos a (create_filters c) true) as Ht.
  pose proof (create_filters_matches c neos a n Hd Hz) as Hm.
  unfold NEODatabase.matches in Hm. unfold NEODatabase.check_approach_against_filters.
  rewrite Hb in Ht |- *. destruct b, (criteria_hold c n a); naive_solver.
Qed.

Definition no_criteria : criteria :=
  mkcriteria None None None None None None None None None None.

(** The numeric bounds of the query command, and a criteria record with
    one of them replaced. *)
Inductive bound :=
| BDistanceMin | BDistanceMax | BVelocityMin | BVelocityMax | BDiameterMin | BDiameterMax.

Definition set_bound (b : bound) (v : option pyfloat) (c : criteria) : criteria :=
  let 'mkcriteria d sd ed dmin dmax vmin vmax dimin dimax h := c in
  match b with
  | BDistanceMin => mkcriteria d sd ed v dmax vmin vmax dimin dimax h
  | BDistanceMax => mkcriteria d sd ed dmin v vmin vmax dimin dimax h
  | BVelocityMin => mkcriteria d sd ed dmin dmax v vmax dimin dimax h
  | BVelocityMax => mkcriteria d sd ed dmin dmax vmin v dimin dimax h
  | BDiameterMin => mkcriteria d sd ed dmin dmax vmin vmax v dimax h
  | BDiameterMax => mkcriteria d sd ed dmin dmax vmin vmax dimin v h
  end.

(** C23: divergence from the specification.  Whatever the other
    criteria, a numeric bound whose value is falsy (0.0 or -0.0) is
    dropped by create_filters' [if distance_max:] tests: the query with
    the bound returns exactly what the query without it returns, so
    approaches violating the bound are not filtered out. *)
Theorem create_filters_drops_zero_bound b c z db :
  truthy z = false ->
  NEODatabase.query db (create_filters (set_bound b (Some z) c))
  = NEODatabase.query db (create_filters (set_bound b None c)).
Proof.
  intros Hz. destruct b, c; unfold create_filters;
    cbn [set_bound when_truthy c_date c_start_date c_end_date c_distance_min
         c_distance_max c_velocity_min c_velocity_max c_diameter_min c_diameter_max c_hazardous];
    by rewrite Hz.
Qed.

Lemma when_truthy_elem {A} `{Truthy A} (x : option A) v mk :
  x = Some v -> truthy v = true -> mk v ∈ when_truthy x mk.
Proof. intros -> Hv. simpl. rewrite Hv. by apply list_elem_of_singleton. Qed.

(** An NEO of unknown diameter (NaN) never satisfies a diameter bound:
    its approaches are excluded from every query with [diameter_min] or
    [diameter_max]. *)
Theorem unknown_diameter_excluded c neos a n v :
  deref neos a = Ok n -> NearEarthObject.diameter n = PNaN ->
  (c_diameter_min c = Some v \/ c_diameter_max c = Some v) -> truthy v = true ->
  ~ Database.NEODatabase.matches neos (create_filters c) a.
Proof.
  intros Hd Hnan Hc Hv Hm. unfold NEODatabase.matches in Hm. rewrite Forall_forall in Hm.
  assert (Hget : get KDiameter neos a = Ok (VFloat PNaN))
    by (cbn [get]; rewrite Hd; cbn [rbind]; by rewrite Hnan).
  assert (Hf : forall o, DiameterFilter o (VFloat v) ∉ create_filters c).
  { intros o Hin%Hm. rewrite call_eq in Hin. unfold filter_call in Hin.
    cbn [cls fop value DiameterFilter] in Hin. rewrite Hget in Hin.
    exact (py_compare_nan_l _ _ Hin). }
  destruct Hc as [Hc|Hc].
  - apply (Hf op_ge). unfold create_filters. rewrite !elem_of_app. do 8 right.
    left. by apply (when_truthy_elem _ v (fun v => DiameterFilter op_ge (VFloat v))).
  - apply (Hf op_le). unfold create_filters. rewrite !elem_of_app. do 9 right.
    by apply (when_truthy_elem _ v (fun v => DiameterFilter op_le (VFloat v))).
Qed.

(** ** [limit] *)

(** A positive bound in range: the first [n] items, as a list. *)
Lemma limit_in_range {A} (g : gen A) l (n : Z) :
  drain g = Ok l -> (0 < n <= maxsize)%Z ->
  limit g (Some n) = Ok (gen_of_list (take (Z.to_nat n) l)).
Proof.
  intros Hd Hn. unfold limit. replace (n =? 0)%Z with false by lia.
  replace ((n <? 0)%Z || (maxsize <? n)%Z) with false by lia.
  by rewrite (islice_drain _ _ _ Hd).
Qed.

(** C17: [limit] with [n] in [0 .. sys.maxsize]: [0] passes the stream
    through unchanged, a positive [n] gives its first [n] items (all of
    them when it has fewer), in order. *)
Theorem limit_spec {A} (g : gen A) l (n : Z) :
  drain g = Ok l -> (0 <= n <= maxsize)%Z ->
  exists g', limit g (Some n) = Ok g' /\
    drain g' = Ok (if (n =? 0)%Z then l else take (Z.to_nat n) l).
Proof.
  intros Hd Hn. destruct (Z.eqb_spec n 0) as [->|Hn0]; [by exists g|].
  rewrite (limit_in_range g l n Hd ltac:(lia)). eexists; split; [done|].
  apply drain_gen_of_list.
Qed.

(** [limit] bounds the output: a positive [n] in range gives at most
    [n] items, a prefix of the stream. *)
Corollary limit_length {A} (g : gen A) l (n : Z) :
  drain g = Ok l -> (0 < n <= maxsize)%Z ->
  exists g' l', limit g (Some n) = Ok g' /\ drain g' = Ok l' /\
    length l' = Nat.min (Z.to_nat n) (length l) /\ l' `prefix_of` l.
Proof.
  intros Hd Hn. rewrite (limit_in_range g l n Hd Hn).
  exists (gen_of_list (take (Z.to_nat n) l)), (take (Z.to_nat n) l).
  split_and!; [done | apply drain_gen_of_list | |].
  - by rewrite length_take.
  - apply prefix_take.
Qed.

(** C18: out-of-range bounds: [islice] rejects a negative [n] or one above
    [sys.maxsize] with [ValueError]. *)
Theorem limit_out_of_range {A} (g : gen A) (n : Z) :
  (n < 0 \/ maxsize < n)%Z -> limit g (Some n) = Raise ValueError.
Proof.
  intros Hn. unfold limit. unfold maxsize in *.
  replace (n =? 0)%Z with false by lia.
  by replace ((n <? 0)%Z || ((2 ^ 63 - 1) <? n)%Z) with true by lia.
Qed.

(** ** Witnesses *)

(** Eros' first approach, linked. *)
Definition sample_linked : CloseApproach.t := CloseApproach.set_neo 0 sample_ap0.

(** Two filters that read only the approach: [distance <= 0.2] and
    [date >= 1901-01-01]. *)
Definition sample_filters : list AttributeFilter :=
  [DistanceFilter op_le (VFloat (float_lit 2 10));
   DateFilter op_ge (VDate (mk_date 1901 1 1))].

Lemma sample_filters_evaluate :
  Forall (NEODatabase.evaluates (NEODatabase._neos sample_db) sample_filters)
    (NEODatabase._approaches sample_db).
Proof.
  assert (Hfs : Forall (fun f => typed f = true /\ reads_neo f = false) sample_filters)
    by (repeat constructor).
  apply Forall_forall. intros a _ f Hf.
  destruct (proj1 (Forall_forall _ _) Hfs f Hf) as [Ht Hr].
  rewrite call_eq. apply filter_call_total; [exact Ht | left; exact Hr].
Qed.

Lemma sample_linked_deref : deref (NEODatabase._neos sample_db) sample_linked = Ok sample_eros_linked.
Proof. vm_compute. reflexivity. Qed.

Lemma check_approach_py_all_witness :
  NEODatabase.evaluates (NEODatabase._neos sample_db) sample_filters sample_linked /\
  NEODatabase.check_approach_against_filters (NEODatabase._neos sample_db) sample_linked sample_filters
    = NEODatabase.py_all (NEODatabase._neos sample_db) sample_linked sample_filters.
Proof.
  assert (H : NEODatabase.evaluates (NEODatabase._neos sample_db) sample_filters sample_linked).
  { apply (proj1 (Forall_forall _ _) sample_filters_evaluate). vm_compute.
    apply elem_of_cons. by left. }
  split; [exact H|]. exact (NEODatabase.check_approach_py_all _ _ _ H).
Defined.

Lemma query_spec_witness :
  Forall (NEODatabase.evaluates (NEODatabase._neos sample_db) sample_filters)
    (NEODatabase._approaches sample_db) /\
  drain (NEODatabase.query sample_db sample_filters) =
    Ok (filter (NEODatabase.matches (NEODatabase._neos sample_db) sample_filters)
          (NEODatabase._approaches sample_db)).
Proof.
  split; [exact sample_filters_evaluate|].
  exact (NEODatabase.query_spec _ _ sample_filters_evaluate).
Defined.

Lemma query_monotone_witness :
  (forall f, f ∈ [DistanceFilter op_le (VFloat (float_lit 2 10))] -> f ∈ sample_filters) /\
  Forall (NEODatabase.evaluates (NEODatabase._neos sample_db) sample_filters)
    (NEODatabase._approaches sample_db) /\
  exists l l', drain (NEODatabase.query sample_db sample_filters) = Ok l /\
    drain (NEODatabase.query sample_db [DistanceFilter op_le (VFloat (float_lit 2 10))]) = Ok l' /\
    l `sublist_of` l'.
Proof.
  assert (Hsub : forall f, f ∈ [DistanceFilter op_le (VFloat (float_lit 2 10))] -> f ∈ sample_filters).
  { intros f Hf%list_elem_of_singleton. subst. apply elem_of_cons. by left. }
  refine (conj Hsub (conj sample_filters_evaluate _)).
  exact (NEODatabase.query_monotone _ _ _ Hsub sample_filters_evaluate).
Defined.

Lemma typed_filter_total_witness :
  typed (DiameterFilter op_ge (VFloat (float_lit 1 1))) = true /\
  (reads_neo (DiameterFilter op_ge (VFloat (float_lit 1 1))) = false \/
   exists n, deref (NEODatabase._neos sample_db) sample_linked = Ok n) /\
  exists b, call (NEODatabase._neos sample_db) (DiameterFilter op_ge (VFloat (float_lit 1 1)))
              sample_linked = Ok b.
Proof.
  assert (Hd : reads_neo (DiameterFilter op_ge (VFloat (float_lit 1 1))) = false \/
               exists n, deref (NEODatabase._neos sample_db) sample_linked = Ok n)
    by (right; exists sample_eros_linked; exact sample_linked_deref).
  refine (conj eq_refl (conj Hd _)). exact (typed_filter_total (NEODatabase._neos sample_db)
    (DiameterFilter op_ge (VFloat (float_lit 1 1))) sample_linked eq_refl Hd).
Defined.

Lemma neo_filter_orphan_witness :
  reads_neo (HazardousFilter op_eq (VBool true)) = true /\
  CloseApproach.neo sample_orphan = None /\
  call (NEODatabase._neos sample_db) (HazardousFilter op_eq (VBool true)) sample_orphan
    = Raise AttributeError.
Proof.
  refine (conj eq_refl (conj eq_refl _)). exact (neo_filter_orphan (NEODatabase._neos sample_db) (HazardousFilter op_eq (VBool true))
    sample_orphan eq_refl eq_refl).
Defined.

Definition sample_nan_approach : CloseApproach.t :=
  CloseApproach.mk "1" (mk_datetime 2000 1 1 0 0) PNaN (float_lit 1 1) None.

Lemma nan_attribute_never_matches_witness :
  get (cls (DistanceFilter op_ge (VFloat (float_lit 0 1)))) [] sample_nan_approach
    = Ok (VFloat PNaN) /\
  call [] (DistanceFilter op_ge (VFloat (float_lit 0 1))) sample_nan_approach <> Ok true.
Proof.
  refine (conj eq_refl _). exact (nan_attribute_never_matches [] (DistanceFilter op_ge (VFloat (float_lit 0 1)))
    sample_nan_approach eq_refl).
Defined.

(** [distance_max = 0.5], [start_date = 1899-12-31], [hazardous = False]. *)
Definition sample_criteria : criteria :=
  mkcriteria None (Some (mk_date 1899 12 31)) None None (Some (float_lit 5 10))
    None None None None (Some false).

Lemma create_filters_spec_witness :
  deref (NEODatabase._neos sample_db) sample_linked = Ok sample_eros_linked /\
  nonzero_bounds sample_criteria = true /\
  NEODatabase.check_approach_against_filters (NEODatabase._neos sample_db) sample_linked
    (create_filters sample_criteria) = Ok (criteria_hold sample_criteria sample_eros_linked sample_linked).
Proof.
  refine (conj sample_linked_deref (conj eq_refl _)).
  exact (create_filters_spec sample_criteria _ _ _ sample_linked_deref eq_refl).
Defined.

Definition sample_unknown_neo : NearEarthObject.t := NearEarthObject.init "2" None None false.
Definition sample_unknown_approach : CloseApproach.t :=
  CloseApproach.mk "2" (mk_datetime 2000 1 1 0 0) (float_lit 1 10) (float_lit 1 1) (Some 0).
Definition sample_diameter_criteria : criteria :=
  mkcriteria None None None None None None None (Some (float_lit 1 1)) None None.

Lemma unknown_diameter_excluded_witness :
  deref [sample_unknown_neo] sample_unknown_approach = Ok sample_unknown_neo /\
  NearEarthObject.diameter sample_unknown_neo = PNaN /\
  (c_diameter_min sample_diameter_criteria = Some (float_lit 1 1) \/
   c_diameter_max sample_diameter_criteria = Some (float_lit 1 1)) /\
  truthy (float_lit 1 1) = true /\
  ~ NEODatabase.matches [sample_unknown_neo] (create_filters sample_diameter_criteria)
      sample_unknown_approach.
Proof.
  assert (Hc : c_diameter_min sample_diameter_criteria = Some (float_lit 1 1) \/
               c_diameter_max sample_diameter_criteria = Some (float_lit 1 1)) by (left; reflexivity).
  refine (conj eq_refl (conj eq_refl (conj Hc (conj eq_refl _)))).
  exact (unknown_diameter_excluded sample_diameter_criteria [sample_unknown_neo]
    sample_unknown_approach sample_unknown_neo (float_lit 1 1) eq_refl eq_refl Hc eq_refl).
Defined.

Lemma limit_spec_witness :
  drain (gen_of_list [1; 2; 3]) = Ok [1; 2; 3] /\ (0 <= 2 <= maxsize)%Z /\
  exists g', limit (gen_of_list [1; 2; 3]) (Some 2%Z) = Ok g' /\
    drain g' = Ok (if (2 =? 0)%Z then [1; 2; 3] else take (Z.to_nat 2) [1; 2; 3]).
Proof.
  assert (Hn : (0 <= 2 <= maxsize)%Z) by (unfold maxsize; lia).
  refine (conj eq_refl (conj Hn _)). exact (limit_spec (gen_of_list [1; 2; 3]) [1; 2; 3] 2 eq_refl Hn).
Defined.

Lemma limit_length_witness :
  drain (gen_of_list [1; 2; 3]) = Ok [1; 2; 3] /\ (0 < 5 <= maxsize)%Z /\
  exists g' l', limit (gen_of_list [1; 2; 3]) (Some 5%Z) = Ok g' /\ drain g' = Ok l' /\
    length l' = Nat.min (Z.to_nat 5) (length [1; 2; 3]) /\ l' `prefix_of` [1; 2; 3].
Proof.
  assert (Hn : (0 < 5 <= maxsize)%Z) by (unfold maxsize; lia).
  refine (conj eq_refl (conj Hn _)). exact (limit_length (gen_of_list [1; 2; 3]) [1; 2; 3] 5 eq_refl Hn).
Defined.

Lemma limit_out_of_range_witness :
  ((-1) < 0 \/ maxsize < -1)%Z /\ limit (gen_of_list [1; 2; 3]) (Some (-1)%Z) = Raise ValueError.
Proof.
  assert (Hn : ((-1) < 0 \/ maxsize < -1)%Z) by lia.
  split; [exact Hn|]. exact (limit_out_of_range (gen_of_list [1; 2; 3]) (-1) Hn).
Defined.

Lemma create_filters_drops_zero_bound_witness :
  truthy (float_lit 0 1) = false /\
  NEODatabase.query sample_db (create_filters (set_bound BDistanceMax (Some (float_lit 0 1)) no_criteria))
  = NEODatabase.query sample_db (create_filters (set_bound BDistanceMax None no_criteria)).
Proof.
  assert (Hz : truthy (float_lit 0 1) = false) by reflexivity.
  split; [exact Hz | exact (create_filters_drops_zero_bound BDistanceMax no_criteria _ sample_db Hz)].
Defined.
