(* ===== verification/QueryGen.v ===== *)
(** * [NEODatabase.query] as the generator object Python runs

    [query(filters)] is a generator function: calling it builds a frame
    that runs nothing until the first [next()], and each [next()] runs
    the frame to its next [yield], to its end ([StopIteration]) or to an
    exception, after which the generator is finished.  [Database.v]
    models the whole trace of the generator as a [gen]; this file models
    the frame itself: a [frame] records where the generator is suspended
    (before the [if filters:] test, inside one of the two [for] loops
    with the approaches still to visit, or finished), and [gen_next] is
    one call of [next()].

    The theorems: when no filter raises, the calls of [next()] on a fresh
    generator receive exactly the approaches passing every filter, in
    order ([gen_observe_spec]); along any sequence of calls, the
    approaches received so far are the matches among those the loop has
    passed, and the loop resumes on the rest ([steps_trace_ok], by
    induction on the trace [steps]), so nothing is yielded twice or out
    of order; every approach that passes the filters, with no filter
    raising before it, is yielded by some call ([gen_yields_matching],
    an [eventually] property).  The variant "approaches left" decreases
    at every call on a live frame ([gen_next_measure]), which bounds the
    calls ([gen_terminates]) and founds the recursion of the consumers
    in [Consumers.v]. *)

From S2P Require Import Prelude PyFloat DateTime Models Database Filters.

Section QueryGen.
Context {F : Type} `{Callable F}.
Variable db : NEODatabase.t.
Variable fs : list F.

(** Where the generator is suspended. *)
Inductive frame :=
| Created
| InFilterLoop (rest : list CloseApproach.t)
| InPlainLoop (rest : list CloseApproach.t)
| Finished.

(** What one call of [next()] produces. *)
Inductive outcome :=
| Yielded (a : CloseApproach.t)
| Stopped
| Raised (e : exn).

(** The filtering loop [for approach in ...: if check(...): yield],
    resumed on the approaches [rest] it has not visited. *)
Fixpoint filter_loop (rest : list CloseApproach.t) : outcome * frame :=
  match rest with
  | [] => (Stopped, Finished)
  | a :: rest' =>
      match NEODatabase.check_approach_against_filters (NEODatabase._neos db) a fs with
      | Ok true => (Yielded a, InFilterLoop rest')
      | Ok false => filter_loop rest'
      | Raise e => (Raised e, Finished)
      end
  end.

(** The loop [for approach in self._approaches: yield approach]. *)
Definition plain_loop (rest : list CloseApproach.t) : outcome * frame :=
  match rest with
  | [] => (Stopped, Finished)
  | a :: rest' => (Yielded a, InPlainLoop rest')
  end.

(** [next(g)]: the first call evaluates [if filters:] and enters a loop;
    a finished generator raises [StopIteration] again. *)
Definition gen_next (fr : frame) : outcome * frame :=
  match fr with
  | Created =>
      if truthy fs then filter_loop (NEODatabase._approaches db)
      else plain_loop (NEODatabase._approaches db)
  | InFilterLoop rest => filter_loop rest
  | InPlainLoop rest => plain_loop rest
  | Finished => (Stopped, Finished)
  end.

(** A call of [next()] on a generator that is not finished. *)
Definition resumes (fr fr' : frame) : Prop :=
  fr <> Finished /\ (gen_next fr).2 = fr'.

(** What one outcome adds to the approaches a consumer has received. *)
Definition received (o : outcome) : list CloseApproach.t :=
  match o with Yielded a => [a] | _ => [] end.

(** The frames a sequence of [next()] calls reaches, indexed by the
    approaches yielded along the way, in order. *)
Inductive steps : list CloseApproach.t -> frame -> Prop :=
| steps_created : steps [] Created
| steps_next ys fr : steps ys fr -> steps (ys ++ received (gen_next fr).1) (gen_next fr).2.

(** The outcomes of [n] successive calls, and the frame after them. *)
Fixpoint run (n : nat) (fr : frame) : list outcome * frame :=
  match n with
  | 0 => ([], fr)
  | S n' =>
      let '(o, fr') := gen_next fr in
      let '(os, fr'') := run n' fr' in (o :: os, fr'')
  end.

(** The stream a consumer sees by calling [next()] until
    [StopIteration] or an exception, within [fuel] calls. *)
Fixpoint observe (fuel : nat) (fr : frame) : gen CloseApproach.t :=
  match fuel with
  | 0 => GDone
  | S fuel' =>
      match gen_next fr with
      | (Yielded a, fr') => GYield a (observe fuel' fr')
      | (Stopped, _) => GDone
      | (Raised e, _) => GRaise e
      end
  end.

(** Some later call of [next()] produces an outcome satisfying [P]. *)
Inductive eventually (P : outcome -> Prop) : frame -> Prop :=
| ev_now fr : P (gen_next fr).1 -> eventually P fr
| ev_later fr : fr <> Finished -> eventually P (gen_next fr).2 -> eventually P fr.

(** The variant of the loops: the approaches left to visit. *)
Definition measure (fr : frame) : nat :=
  match fr with
  | Created => S (length (NEODatabase._approaches db))
  | InFilterLoop rest | InPlainLoop rest => S (length rest)
  | Finished => 0
  end.

(** What a consumer has received when the generator is suspended in a
    loop: exactly the approaches passing the filters among those the loop
    has passed, in their order, with the loop resuming on the rest; and
    all of them once it has finished. *)
Definition trace_ok (ys : list CloseApproach.t) (fr : frame) : Prop :=
  let aps := NEODatabase._approaches db in
  let passed pre := filter (NEODatabase.matches (NEODatabase._neos db) fs) pre in
  match fr with
  | Created => ys = []
  | InFilterLoop rest => truthy fs = true /\ exists pre, aps = pre ++ rest /\ ys = passed pre
  | InPlainLoop rest => truthy fs = false /\ exists pre, aps = pre ++ rest /\ ys = passed pre
  | Finished => ys = passed aps
  end.

End QueryGen.

Section Facts.
Context {F : Type} `{Callable F}.
Variable db : NEODatabase.t.
Variable fs : list F.

Notation neos := (NEODatabase._neos db).
Notation aps := (NEODatabase._approaches db).
Notation check a := (NEODatabase.check_approach_against_filters neos a fs).

(** ** One call of [next()] *)

(** A loop call finishes the generator or suspends it on a strictly
    shorter suffix of what it had left. *)
Lemma filter_loop_frame rest :
  (filter_loop db fs rest).2 = Finished \/
  exists r, (filter_loop db fs rest).2 = InFilterLoop r /\ r `suffix_of` rest /\
            length r < length rest.
Proof.
  induction rest as [|a rest IH]; simpl; [by left|].
  destruct (check a) as [[]|]; simpl; [right | | by left].
  - exists rest. split_and!; [done | by apply suffix_cons_r | lia].
  - destruct IH as [IH | (r & Hr & Hs & Hl)]; [by left|right].
    exists r. split_and!; [done | by apply suffix_cons_r | simpl; lia].
Qed.

Lemma plain_loop_frame rest :
  (plain_loop rest).2 = Finished \/
  exists r, (plain_loop rest).2 = InPlainLoop r /\ r `suffix_of` rest /\ length r < length rest.
Proof.
  destruct rest as [|a rest]; simpl; [by left|right].
  exists rest. split_and!; [done | by apply suffix_cons_r | lia].
Qed.

Lemma gen_next_Finished : gen_next db fs Finished = (Stopped, Finished).
Proof. done. Qed.

(** Every call on a live frame decreases the variant. *)
Lemma gen_next_measure fr :
  fr <> Finished -> measure db (gen_next db fs fr).2 < measure db fr.
Proof.
  intros Hfr. destruct fr as [| rest | rest |]; [| | | done]; simpl.
  - destruct (truthy fs).
    + destruct (filter_loop_frame aps) as [-> | (r & -> & _ & Hl)]; simpl; lia.
    + destruct (plain_loop_frame aps) as [-> | (r & -> & _ & Hl)]; simpl; lia.
  - destruct (filter_loop_frame rest) as [-> | (r & -> & _ & Hl)]; simpl; lia.
  - destruct (plain_loop_frame rest) as [-> | (r & -> & _ & Hl)]; simpl; lia.
Qed.

Lemma frame_Finished_dec (fr : frame) : fr = Finished \/ fr <> Finished.
Proof. destruct fr; [right; done..|by left]. Qed.

Lemma run_Finished n : (run db fs n Finished).2 = Finished.
Proof. induction n as [|n IH]; [done|]. simpl. by destruct (run _ _ n Finished). Qed.

(** [n] calls finish a frame whose variant is at most [n]. *)
Lemma run_finishes n fr : measure db fr <= n -> (run db fs n fr).2 = Finished.
Proof.
  revert fr; induction n as [|n IH]; intros fr Hm.
  - destruct fr; simpl in *; [lia..|done].
  - destruct (frame_Finished_dec fr) as [->|Hfr]; [apply run_Finished|].
    pose proof (gen_next_measure fr Hfr) as Hlt. simpl.
    destruct (gen_next db fs fr) as [o fr'] eqn:E. simpl in Hlt.
    specialize (IH fr' ltac:(lia)). by destruct (run db fs n fr').
Qed.

(** ** The trace a consumer observes *)

Lemma observe_filter_loop rest n :
  length rest < n -> observe db fs n (InFilterLoop rest) = NEODatabase.scan neos fs rest.
Proof.
  revert n; induction rest as [|a rest IH]; intros [|n] Hn; simpl in Hn; [lia|done|lia|].
  cbn [observe gen_next filter_loop NEODatabase.scan].
  destruct (check a) as [[]|]; [| |done].
  - f_equal. apply IH. lia.
  - rewrite <- (IH (S n)) by lia. done.
Qed.

Lemma observe_plain_loop rest n :
  length rest < n -> observe db fs n (InPlainLoop rest) = gen_of_list rest.
Proof.
  revert n; induction rest as [|a rest IH]; intros [|n] Hn; simpl in Hn; [lia|done|lia|].
  simpl. f_equal. apply IH. lia.
Qed.

(** ** Liveness *)

(** Two frames whose next call does the same are alike for
    [eventually]. *)
Lemma eventually_same_next (P : outcome -> Prop) fr fr' :
  fr <> Finished -> gen_next db fs fr = gen_next db fs fr' ->
  eventually db fs P fr' -> eventually db fs P fr.
Proof.
  intros Hfr E Hev. inversion Hev as [? HP | ? _ Hl]; subst.
  - apply ev_now. by rewrite E.
  - apply ev_later; [done|]. by rewrite E.
Qed.

Lemma filter_loop_eventually rest i a :
  rest !! i = Some a ->
  (forall j b, j < i -> rest !! j = Some b -> exists r, check b = Ok r) ->
  check a = Ok true ->
  eventually db fs (fun o => o = Yielded a) (InFilterLoop rest).
Proof.
  revert rest; induction i as [|i IH]; intros [|b rest] Hi Hbefore Ha; try done.
  - injection Hi as ->. apply ev_now. simpl. by rewrite Ha.
  - destruct (Hbefore 0 b) as [[] Hb]; [lia|done|..].
    + apply ev_later; [done|]. simpl. rewrite Hb. simpl.
      apply IH; [done| |done]. intros j c Hj Hc. apply (Hbefore (S j)); [lia|done].
    + apply (eventually_same_next _ _ (InFilterLoop rest)); [done|simpl; by rewrite Hb|].
      apply IH; [done| |done]. intros j c Hj Hc. apply (Hbefore (S j)); [lia|done].
Qed.

Lemma plain_loop_eventually rest i a :
  rest !! i = Some a -> eventually db fs (fun o => o = Yielded a) (InPlainLoop rest).
Proof.
  revert rest; induction i as [|i IH]; intros [|b rest] Hi; try done.
  - injection Hi as ->. by apply ev_now.
  - apply ev_later; [done|]. by apply IH.
Qed.

(** The calls of a fresh generator observe the stream [query] denotes. *)
Lemma observe_Created :
  observe db fs (S (length aps)) Created = NEODatabase.query db fs.
Proof.
  unfold NEODatabase.query. cbn [observe gen_next].
  destruct (truthy fs).
  - rewrite <- (observe_filter_loop aps (S (length aps))) by lia. done.
  - rewrite <- (observe_plain_loop aps (S (length aps))) by lia. done.
Qed.

(** Any number of calls at least the variant observes the same. *)
Lemma observe_enough fuel1 fuel2 fr :
  measure db fr <= fuel1 -> measure db fr <= fuel2 ->
  observe db fs fuel1 fr = observe db fs fuel2 fr.
Proof.
  revert fuel2 fr; induction fuel1 as [|fuel1 IH]; intros fuel2 fr H1 H2.
  - destruct fr; simpl in H1; [lia..|]. by destruct fuel2.
  - destruct (frame_Finished_dec fr) as [->|Hfr]; [by destruct fuel2|].
    pose proof (gen_next_measure fr Hfr) as Hlt.
    destruct fuel2 as [|fuel2]; [lia|]. simpl.
    destruct (gen_next db fs fr) as [[a| |e] fr'] eqn:E; [|done|done].
    simpl in Hlt. f_equal. apply IH; lia.
Qed.

(** ** What the calls yield *)

(** An approach the filters evaluate on is checked as [matches] says. *)
Lemma check_matches a :
  NEODatabase.evaluates neos fs a -> check a = Ok (bool_decide (NEODatabase.matches neos fs a)).
Proof.
  intros Hev. destruct (NEODatabase.check_loop_evaluates neos a fs true Hev) as [r Hr].
  unfold NEODatabase.check_approach_against_filters. rewrite Hr. f_equal.
  pose proof (NEODatabase.check_approach_spec neos a fs) as Hs.
  unfold NEODatabase.check_approach_against_filters in Hs. rewrite Hr in Hs.
  destruct r; symmetry; [apply bool_decide_eq_true | apply bool_decide_eq_false];
    unfold NEODatabase.matches; rewrite <- Hs; congruence.
Qed.

Lemma truthy_nil (l : list F) : truthy l = false -> l = [].
Proof. by destruct l. Qed.

Lemma filter_matches_nil (l : list CloseApproach.t) :
  filter (NEODatabase.matches neos []) l = l.
Proof.
  induction l as [|x l IH]; [done|].
  rewrite filter_cons_True; [by f_equal|constructor].
Qed.

(** One call in the filtering loop, when no filter raises on what is
    left: it skips the approaches that fail and yields the first match,
    or stops when there is none. *)
Lemma filter_loop_spec rest :
  Forall (NEODatabase.evaluates neos fs) rest ->
  (exists mid a rest', rest = mid ++ a :: rest' /\
     filter (NEODatabase.matches neos fs) mid = [] /\ NEODatabase.matches neos fs a /\
     filter_loop db fs rest = (Yielded a, InFilterLoop rest')) \/
  (filter (NEODatabase.matches neos fs) rest = [] /\ filter_loop db fs rest = (Stopped, Finished)).
Proof.
  induction 1 as [|b rest Hb Hrest IH]; [by right|].
  cbn [filter_loop]. rewrite (check_matches b Hb), filter_cons.
  destruct (decide (NEODatabase.matches neos fs b)) as [Hm|Hm].
  - rewrite bool_decide_true by done. left. by exists [], b, rest.
  - rewrite bool_decide_false by done.
    destruct IH as [(mid & a & rest' & -> & Hmid & Ha & E) | [Hn E]]; [left|right; done].
    exists (b :: mid), a, rest'. rewrite filter_cons_False by done. done.
Qed.

(** [trace_ok] is preserved by a call in the filtering loop. *)
Lemma trace_ok_filter_loop ys pre rest :
  Forall (NEODatabase.evaluates neos fs) aps -> truthy fs = true ->
  aps = pre ++ rest -> ys = filter (NEODatabase.matches neos fs) pre ->
  trace_ok db fs (ys ++ received (filter_loop db fs rest).1) (filter_loop db fs rest).2.
Proof.
  intros Hall Ht Haps ->. rewrite Haps in Hall. apply Forall_app in Hall as [_ Hrest].
  destruct (filter_loop_spec rest Hrest) as [(mid & a & rest' & -> & Hmid & Ha & ->) | [Hn ->]];
    cbn [fst snd received trace_ok].
  - split; [done|]. exists (pre ++ mid ++ [a]). rewrite Haps, <- !(assoc_L (++)).
    split; [done|]. by rewrite !filter_app, Hmid, filter_singleton_True.
  - by rewrite Haps, filter_app, Hn, !app_nil_r.
Qed.

(** ... and by a call in the plain loop, where there are no filters. *)
Lemma trace_ok_plain_loop ys pre rest :
  truthy fs = false -> aps = pre ++ rest -> ys = filter (NEODatabase.matches neos fs) pre ->
  trace_ok db fs (ys ++ received (plain_loop rest).1) (plain_loop rest).2.
Proof.
  intros Ht Haps ->. pose proof (truthy_nil fs Ht) as Hfs.
  destruct rest as [|a rest']; cbn [plain_loop fst snd received trace_ok].
  - by rewrite Haps, app_nil_r, app_nil_r.
  - split; [done|]. exists (pre ++ [a]). rewrite Haps, <- (assoc_L (++)).
    split; [done|]. by rewrite Hfs, !filter_matches_nil.
Qed.

End Facts.

Section Properties.
Context {F : Type} `{Callable F}.
Variable db : NEODatabase.t.
Variable fs : list F.


(** C15: Invariant over every sequence of [next()] calls, by induction
    on the trace: when no filter raises, the approaches received so far
    are exactly, in order, the matches among the approaches the loop the
    [if filters:] test chose has passed, and the loop resumes on the
    rest; once finished, they are all the matches.  So no approach is
    yielded twice, none out of order, and none that fails a filter. *)
Theorem steps_trace_ok ys fr :
  Forall (NEODatabase.evaluates (NEODatabase._neos db) fs) (NEODatabase._approaches db) ->
  steps db fs ys fr -> trace_ok db fs ys fr.
Proof.
  intros Hall. induction 1 as [|ys fr _ IH]; [done|].
  destruct fr as [| rest | rest |]; cbn [gen_next].
  - cbn [trace_ok] in IH. subst ys. destruct (truthy fs) eqn:Ht.
    + by apply (trace_ok_filter_loop db fs [] []).
    + by apply (trace_ok_plain_loop db fs [] []).
  - destruct IH as [Ht (pre & Haps & Hys)]. by apply (trace_ok_filter_loop db fs _ pre).
  - destruct IH as [Ht (pre & Haps & Hys)]. by apply (trace_ok_plain_loop db fs _ pre).
  - cbn [fst snd received]. by rewrite app_nil_r.
Qed.

(** Termination: no sequence of [next()] calls on a live [query]
    generator is infinite, and [len(approaches) + 1] calls always leave
    it finished, so that every later call raises [StopIteration]. *)
Theorem gen_terminates :
  sn (resumes db fs) Created /\
  (run db fs (S (length (NEODatabase._approaches db))) Created).2 = Finished.
Proof.
  split.
  - assert (Hwf : well_founded (flip (resumes db fs))).
    { apply (wf_projected (<) (measure db)); [|exact lt_wf].
      intros x y [Hy <-]. by apply gen_next_measure. }
    apply Hwf.
  - by apply run_finishes.
Qed.

(** C16: Liveness: an approach that passes the filters (any approach
    when there are none), with no filter raising on an approach before
    it, is yielded by some call of [next()]. *)
Theorem gen_yields_matching i a :
  NEODatabase._approaches db !! i = Some a ->
  (forall j b, j < i -> NEODatabase._approaches db !! j = Some b ->
     exists r, NEODatabase.check_approach_against_filters (NEODatabase._neos db) b fs = Ok r) ->
  (truthy fs = true ->
     NEODatabase.check_approach_against_filters (NEODatabase._neos db) a fs = Ok true) ->
  eventually db fs (fun o => o = Yielded a) Created.
Proof.
  intros Hi Hbefore Ha. destruct (truthy fs) eqn:E.
  - apply (eventually_same_next db fs _ _ (InFilterLoop (NEODatabase._approaches db)));
      [done | simpl; by rewrite E |].
    by apply (filter_loop_eventually db fs _ i), Ha.
  - apply (eventually_same_next db fs _ _ (InPlainLoop (NEODatabase._approaches db)));
      [done | simpl; by rewrite E |].
    by apply (plain_loop_eventually db fs _ i).
Qed.

End Properties.

(** ** Witnesses *)


(** Two calls on the sample database: the approaches received and the
    frame after them. *)
Lemma steps_trace_ok_witness :
  let g := gen_next sample_db sample_filters in
  let ys := ([] ++ received (g Created).1) ++ received (g (g Created).2).1 in
  let fr := (g (g Created).2).2 in
  steps sample_db sample_filters ys fr /\ trace_ok sample_db sample_filters ys fr.
Proof.
  intros g ys fr. subst g ys fr.
  assert (Hs : steps sample_db sample_filters
     (([] ++ received (gen_next sample_db sample_filters Created).1) ++
       received (gen_next sample_db sample_filters (gen_next sample_db sample_filters Created).2).1)
     (gen_next sample_db sample_filters (gen_next sample_db sample_filters Created).2).2)
    by (apply steps_next, steps_next, steps_created).
  split; [exact Hs | exact (steps_trace_ok _ _ _ _ sample_filters_evaluate Hs)].
Defined.

Lemma gen_yields_matching_witness :
  NEODatabase._approaches sample_db !! 1 = Some (CloseApproach.set_neo 1 sample_ap1) /\
  eventually sample_db sample_filters (fun o => o = Yielded (CloseApproach.set_neo 1 sample_ap1))
    Created.
Proof.
  assert (Hi : NEODatabase._approaches sample_db !! 1 = Some (CloseApproach.set_neo 1 sample_ap1))
    by (vm_compute; reflexivity).
  split; [exact Hi|].
  apply (gen_yields_matching sample_db sample_filters 1); [exact Hi | |].
  - intros j b Hj Hb. assert (j = 0) as -> by lia. vm_compute in Hb. injection Hb as <-.
    eexists. vm_compute. reflexivity.
  - intros _. vm_compute. reflexivity.
Defined.
