(* ===== verification/Pipeline.v ===== *)
(** * The query pipeline and the end-to-end behaviour

    main.py (not in src/) wires the components as the spec's data flow
    says: the loaded entities build an [NEODatabase], the command-line
    criteria go through [create_filters], the query stream through
    [limit], and the result to a writer.  [run_query] is that composition.
    This file proves what the composition guarantees, the laziness of
    [limit] over a query, and the concrete scenarios of the spec together
    with the behaviours modelling uncovered (orphans and NEO filters,
    duplicate designations, name capitalisation). *)

From S2P Require Import Prelude PyFloat DateTime Models Database Filters.

(** [limit(database.query(create_filters(criteria...)), n)]. *)
Definition run_query (db : NEODatabase.t) (c : criteria) (n : option Z)
    : result (gen CloseApproach.t) :=
  limit (NEODatabase.query db (create_filters c)) n.

(** What the spec asks of a result row: the approach is linked and its
    NEO and itself meet every criterion. *)
Definition approach_ok (db : NEODatabase.t) (c : criteria) (a : CloseApproach.t) : bool :=
  match deref (NEODatabase._neos db) a with
  | Ok n => criteria_hold c n a
  | Raise _ => false
  end.

(** Every approach has an NEO with its designation. *)
Definition all_matched (neos : list NearEarthObject.t) (aps : list CloseApproach.t) : Prop :=
  forall a, a ∈ aps ->
    exists n, n ∈ neos /\ NearEarthObject.designation n = CloseApproach.designation a.

(** ** Linked approaches dereference *)

(** The [i]-th approach of the database, when its designation has an
    NEO, dereferences to an NEO of the store. *)
Lemma init_deref_at neos aps i a0 :
  aps !! i = Some a0 ->
  (exists n, n ∈ neos /\ NearEarthObject.designation n = CloseApproach.designation a0) ->
  exists a n, NEODatabase._approaches (NEODatabase.init neos aps) !! i = Some a /\
    deref (NEODatabase._neos (NEODatabase.init neos aps)) a = Ok n.
Proof.
  intros Ea0 (n0 & Hn0 & Hd).
  destruct (NEODatabase.last_index (CloseApproach.designation a0) neos) as [j|] eqn:Ej.
  2:{ exfalso. by apply (proj1 (NEODatabase.last_index_None _ _) Ej n0). }
  pose proof (NEODatabase.init_approach_at neos aps i a0 Ea0) as Ha'. rewrite Ej in Ha'.
  destruct (NEODatabase.init_linked_neo neos aps _ j Ej) as (n & Hn & _).
  exists (CloseApproach.set_neo j a0), n. split; [done|].
  unfold deref. cbn [CloseApproach.neo CloseApproach.set_neo]. by rewrite Hn.
Qed.

Lemma init_deref neos aps a :
  NEODatabase.unlinked neos aps -> all_matched neos aps ->
  a ∈ NEODatabase._approaches (NEODatabase.init neos aps) ->
  exists n, deref (NEODatabase._neos (NEODatabase.init neos aps)) a = Ok n.
Proof.
  intros Hu Hm Ha. apply list_elem_of_lookup_1 in Ha as [i Hi].
  pose proof Hi as Hi'. rewrite NEODatabase.init_approaches_eq, list_lookup_fmap in Hi'.
  destruct (aps !! i) as [a0|] eqn:Ea0; simplify_eq/=.
  destruct (init_deref_at neos aps i a0 Ea0) as (a' & n & Ha' & Hn);
    [apply Hm; by eapply list_elem_of_lookup_2|].
  rewrite Hi in Ha'. simplify_eq. by exists n.
Qed.

(** ** Orphans and the filters that read the NEO *)

(** The filter loop on an orphan: the filters that do not read the NEO
    return a bool, and the first that reads it raises [AttributeError]. *)
Lemma check_loop_orphan neos a fs mf :
  Forall (fun f => typed f = true) fs -> (exists f, f ∈ fs /\ reads_neo f = true) ->
  CloseApproach.neo a = None ->
  NEODatabase.check_loop neos a fs mf = Raise AttributeError.
Proof.
  revert mf; induction fs as [|g fs IH]; intros mf Ht (f & Hf & Hr) Hn;
    [by apply elem_of_nil in Hf|].
  apply Forall_cons in Ht as [Htg Ht]. cbn [NEODatabase.check_loop].
  destruct (reads_neo g) eqn:Eg.
  - rewrite call_eq. unfold filter_call. by rewrite get_orphan.
  - destruct (filter_call_total neos g a Htg (or_introl Eg)) as [b Hb].
    rewrite call_eq, Hb. cbn [rbind].
    assert (Hf' : f ∈ fs) by (apply elem_of_cons in Hf as [->|Hf]; congruence).
    destruct b; apply IH; eauto.
Qed.

(** A hazardous criterion or a non-zero diameter bound builds a filter
    that reads the NEO. *)
Lemma create_filters_reads_neo c :
  (is_Some (c_hazardous c) \/
   (exists v, c_diameter_min c = Some v /\ truthy v = true) \/
   (exists v, c_diameter_max c = Some v /\ truthy v = true)) ->
  exists f, f ∈ create_filters c /\ reads_neo f = true.
Proof.
  unfold create_filters. intros [[h Hh] | [(v & Hv & Ht) | (v & Hv & Ht)]].
  - exists (HazardousFilter op_eq (VBool h)). split; [|done].
    rewrite !elem_of_app, Hh. do 7 right. left. by apply list_elem_of_singleton.
  - exists (DiameterFilter op_ge (VFloat v)). split; [|done].
    rewrite !elem_of_app. do 8 right. left.
    by apply (when_truthy_elem _ v (fun v => DiameterFilter op_ge (VFloat v))).
  - exists (DiameterFilter op_le (VFloat v)). split; [|done].
    rewrite !elem_of_app. do 9 right.
    by apply (when_truthy_elem _ v (fun v => DiameterFilter op_le (VFloat v))).
Qed.

(** ** What the pipeline computes *)

(** End-to-end correctness.  On a database built from unlinked
    entities in which every approach has its NEO, and for criteria with
    non-zero bounds, the query of [create_filters] never raises and
    yields, in input order, exactly the approaches meeting every
    criterion. *)
Theorem query_create_filters neos aps c :
  NEODatabase.unlinked neos aps -> all_matched neos aps -> nonzero_bounds c = true ->
  drain (NEODatabase.query (NEODatabase.init neos aps) (create_filters c)) =
    Ok (filter (fun a => approach_ok (NEODatabase.init neos aps) c a = true)
          (NEODatabase._approaches (NEODatabase.init neos aps))).
Proof.
  intros Hu Hm Hz. set (db := NEODatabase.init neos aps).
  assert (Hd : forall a, a ∈ NEODatabase._approaches db ->
            exists n, deref (NEODatabase._neos db) a = Ok n) by (intros a; by apply init_deref).
  rewrite NEODatabase.query_scan, NEODatabase.scan_spec.
  - f_equal. apply filter_ext_in. intros a Ha. destruct (Hd a Ha) as [n Hn].
    unfold approach_ok. rewrite Hn. by apply create_filters_matches.
  - apply Forall_forall. intros a Ha f Hf. rewrite call_eq.
    apply filter_call_total; [|right; by apply Hd].
    by apply (proj1 (Forall_forall _ _) (create_filters_typed c)).
Qed.

(** [limit] over a query is lazy.  Once the first approaches [aps1]
    yield [n] results, the approaches after them are never examined: the
    limited result is the same whatever follows, even approaches on which
    a filter would raise. *)
Theorem limit_query_lazy neos (fs : list AttributeFilter) aps1 aps2 n l :
  drain (NEODatabase.scan neos fs aps1) = Ok l ->
  (0 < n <= maxsize)%Z -> Z.to_nat n <= length l ->
  limit (NEODatabase.query (NEODatabase.mk neos (aps1 ++ aps2)) fs) (Some n) =
  limit (NEODatabase.query (NEODatabase.mk neos aps1) fs) (Some n).
Proof.
  intros Hd Hn Hl. rewrite !NEODatabase.query_scan. simpl.
  rewrite NEODatabase.scan_app. unfold limit.
  replace (n =? 0)%Z with false by lia.
  replace ((n <? 0)%Z || (maxsize <? n)%Z) with false by lia.
  by rewrite (islice_gen_app_l _ _ _ l Hd Hl).
Qed.

(** C24: an orphan approach makes a query on the NEO's attributes crash
    with [AttributeError], at the orphan.  From unlinked entities, when
    the criteria include [hazardous] or a non-zero diameter bound and
    the [i]-th approach is the first whose designation has no NEO, the
    query's generator runs as usual over the approaches before it, then
    raises [AttributeError] instead of skipping the orphan (the behaviour
    the spec leaves open); consuming it raises [AttributeError]. *)
Theorem orphan_neo_criterion_raises neos aps c i a :
  NEODatabase.unlinked neos aps -> aps !! i = Some a ->
  (forall n, n ∈ neos -> NearEarthObject.designation n <> CloseApproach.designation a) ->
  (forall j b, j < i -> aps !! j = Some b ->
     exists n, n ∈ neos /\ NearEarthObject.designation n = CloseApproach.designation b) ->
  (is_Some (c_hazardous c) \/
   (exists v, c_diameter_min c = Some v /\ truthy v = true) \/
   (exists v, c_diameter_max c = Some v /\ truthy v = true)) ->
  let db := NEODatabase.init neos aps in
  NEODatabase.query db (create_filters c)
  = gen_app (NEODatabase.scan (NEODatabase._neos db) (create_filters c)
               (take i (NEODatabase._approaches db))) (GRaise AttributeError) /\
  drain (NEODatabase.query db (create_filters c)) = Raise AttributeError.
Proof.
  intros Hu Hai Hno Hpre Hc db.
  apply NEODatabase.last_index_None in Hno.
  pose proof (NEODatabase.init_approach_at neos aps i a Hai) as Hi. rewrite Hno in Hi.
  fold db in Hi.
  assert (Hneo : CloseApproach.neo a = None)
    by (destruct Hu as [_ Ha]; exact (Forall_lookup_1 _ _ _ _ Ha Hai)).
  assert (Hq : NEODatabase.query db (create_filters c)
     = gen_app (NEODatabase.scan (NEODatabase._neos db) (create_filters c)
                  (take i (NEODatabase._approaches db))) (GRaise AttributeError)).
  { rewrite NEODatabase.query_scan, <- (take_drop_middle _ i a Hi) at 1.
    rewrite NEODatabase.scan_app. cbn [NEODatabase.scan].
    unfold NEODatabase.check_approach_against_filters.
    rewrite check_loop_orphan; [done | apply create_filters_typed | by apply create_filters_reads_neo | done]. }
  split; [exact Hq|]. rewrite Hq.
  apply (drain_gen_app_raise _ (filter (NEODatabase.matches (NEODatabase._neos db) (create_filters c))
                                  (take i (NEODatabase._approaches db)))).
  apply NEODatabase.scan_spec, Forall_forall. intros p Hp f Hf.
  apply list_elem_of_lookup_1 in Hp as [j Hj]. apply lookup_take_Some in Hj as [Hj Hji].
  pose proof Hj as Hj'. unfold db in Hj'. rewrite NEODatabase.init_approaches_eq, list_lookup_fmap in Hj'.
  destruct (aps !! j) as [b|] eqn:Eb; [|done].
  destruct (init_deref_at neos aps j b Eb (Hpre j b Hji Eb)) as (p' & n & Hp' & Hn).
  fold db in Hp', Hn. rewrite Hj in Hp'. simplify_eq.
  rewrite call_eq. apply filter_call_total; [|right; by exists n].
  by apply (proj1 (Forall_forall _ _) (create_filters_typed c)).
Qed.

(** ** The scenario of the spec *)

Definition eros : NearEarthObject.t :=
  NearEarthObject.init "433" (Some "Eros") (Some (float_lit 1684 100)) false.

Definition eros_approach : result CloseApproach.t :=
  CloseApproach.init "433" "1900-Jan-01 00:00" (float_lit 55 10) (float_lit 32 100) None.

(** The end-to-end example of the spec: after linkage the NEO "433"
    has one approach, printed as "1900-01-01 00:00"; a query with
    [DistanceFilter(le, 0.5)] returns it and one with
    [DistanceFilter(le, 0.1)] returns nothing. *)
Theorem spec_scenario :
  exists a, eros_approach = Ok a /\
    let db := NEODatabase.init [eros] [a] in
    option_map (fun n => length (NearEarthObject.approaches n))
      (NEODatabase.get_neo_by_designation db "433") = Some 1 /\
    CloseApproach.time_str a = "1900-01-01 00:00"%string /\
    drain (NEODatabase.query db [DistanceFilter op_le (VFloat (float_lit 5 10))])
      = Ok (NEODatabase._approaches db) /\
    length (NEODatabase._approaches db) = 1 /\
    drain (NEODatabase.query db [DistanceFilter op_le (VFloat (float_lit 1 10))]) = Ok [].
Proof. eexists. split; [reflexivity|]. vm_compute. split_and!; reflexivity. Qed.

(** ** Behaviours the modelling uncovered *)

(** Duplicate designations split an object.  With two NEOs designated
    "433", [get_neo_by_designation] returns the first one, while the
    linkage attaches the approach to the last one (later dictionary
    entries win): the NEO returned by the lookup has no approaches. *)
Theorem duplicate_designation_split :
  let db := NEODatabase.init
      [NearEarthObject.init "433" (Some "Eros") None false;
       NearEarthObject.init "433" None None true]
      [CloseApproach.mk "433" (mk_datetime 1900 1 1 0 0) (float_lit 32 100) (float_lit 55 10) None] in
  option_map NearEarthObject.approaches (NEODatabase.get_neo_by_designation db "433") = Some []
  /\ option_map CloseApproach.neo (NEODatabase._approaches db !! 0) = Some (Some 1).
Proof. vm_compute. split; reflexivity. Qed.

(** [get_neo_by_name] misses names with an inner capital.
    [str.capitalize] lowercases everything after the first letter, so the
    NEO named "Ra-Shalom" is not found by its own name, although it is in
    the database. *)
Theorem get_neo_by_name_inner_capital :
  let db := NEODatabase.init [NearEarthObject.init "2100" (Some "Ra-Shalom") None false] [] in
  NEODatabase.get_neo_by_name db "Ra-Shalom" = None /\
  is_Some (NEODatabase.get_neo_by_designation db "2100").
Proof. vm_compute. split; [reflexivity | by eexists]. Qed.

(** No short circuit.  On an orphan approach at 0.5 au, the filters
    [DistanceFilter(le, 0.1)] and [DiameterFilter(ge, 1.0)] make
    [check_approach_against_filters] raise [AttributeError], where
    Python's short-circuiting [all(...)] would already return [False]. *)
Theorem check_no_short_circuit :
  let a := CloseApproach.mk "1" (mk_datetime 2000 1 1 0 0) (float_lit 1 2) (float_lit 1 1) None in
  let fs := [DistanceFilter op_le (VFloat (float_lit 1 10)); DiameterFilter op_ge (VFloat (float_lit 1 1))] in
  NEODatabase.check_approach_against_filters [] a fs = Raise AttributeError /\
  NEODatabase.py_all [] a fs = Ok false.
Proof. vm_compute. split; reflexivity. Qed.

(** ** Witnesses *)

Definition matched_approaches : list CloseApproach.t := [sample_ap0; sample_ap1; sample_ap3].

Lemma matched_unlinked : NEODatabase.unlinked sample_neos matched_approaches.
Proof. split; repeat constructor. Qed.

Lemma matched_all : all_matched sample_neos matched_approaches.
Proof.
  intros a Ha. unfold matched_approaches in Ha.
  repeat (apply elem_of_cons in Ha as [->|Ha]); [| | | by apply elem_of_nil in Ha].
  - exists sample_eros. split; [apply elem_of_cons; by left | reflexivity].
  - exists sample_apollo. split; [apply elem_of_cons; right; apply elem_of_cons; by left | reflexivity].
  - exists sample_eros. split; [apply elem_of_cons; by left | reflexivity].
Qed.

Lemma query_create_filters_witness :
  NEODatabase.unlinked sample_neos matched_approaches /\
  all_matched sample_neos matched_approaches /\ nonzero_bounds sample_criteria = true /\
  drain (NEODatabase.query (NEODatabase.init sample_neos matched_approaches)
           (create_filters sample_criteria)) =
    Ok (filter (fun a => approach_ok (NEODatabase.init sample_neos matched_approaches)
                           sample_criteria a = true)
          (NEODatabase._approaches (NEODatabase.init sample_neos matched_approaches))).
Proof.
  refine (conj matched_unlinked (conj matched_all (conj eq_refl _))).
  exact (query_create_filters _ _ sample_criteria matched_unlinked matched_all eq_refl).
Defined.

Definition lazy_filters : list AttributeFilter := [DistanceFilter op_le (VFloat (float_lit 5 10))].

Lemma limit_query_lazy_witness :
  drain (NEODatabase.scan [sample_eros_linked] lazy_filters [sample_linked]) = Ok [sample_linked] /\
  (0 < 1 <= maxsize)%Z /\ Z.to_nat 1 <= length [sample_linked] /\
  limit (NEODatabase.query (NEODatabase.mk [sample_eros_linked]
           ([sample_linked] ++ [sample_orphan])) lazy_filters) (Some 1%Z) =
  limit (NEODatabase.query (NEODatabase.mk [sample_eros_linked] [sample_linked]) lazy_filters)
    (Some 1%Z).
Proof.
  assert (Hd : drain (NEODatabase.scan [sample_eros_linked] lazy_filters [sample_linked])
                 = Ok [sample_linked]) by (vm_compute; reflexivity).
  assert (Hn : (0 < 1 <= maxsize)%Z) by (unfold maxsize; lia).
  assert (Hl : Z.to_nat 1 <= length [sample_linked]) by (simpl; lia).
  refine (conj Hd (conj Hn (conj Hl _))).
  exact (limit_query_lazy _ _ _ [sample_orphan] 1 _ Hd Hn Hl).
Defined.

Definition hazardous_criteria : criteria :=
  mkcriteria None None None None None None None None None (Some true).

Lemma orphan_neo_criterion_raises_witness :
  NEODatabase.unlinked sample_neos sample_approaches /\
  sample_approaches !! 2 = Some sample_orphan /\
  (forall n, n ∈ sample_neos ->
     NearEarthObject.designation n <> CloseApproach.designation sample_orphan) /\
  (forall j b, j < 2 -> sample_approaches !! j = Some b ->
     exists n, n ∈ sample_neos /\ NearEarthObject.designation n = CloseApproach.designation b) /\
  (is_Some (c_hazardous hazardous_criteria) \/
   (exists v, c_diameter_min hazardous_criteria = Some v /\ truthy v = true) \/
   (exists v, c_diameter_max hazardous_criteria = Some v /\ truthy v = true)) /\
  let db := NEODatabase.init sample_neos sample_approaches in
  NEODatabase.query db (create_filters hazardous_criteria)
  = gen_app (NEODatabase.scan (NEODatabase._neos db) (create_filters hazardous_criteria)
               (take 2 (NEODatabase._approaches db))) (GRaise AttributeError) /\
  drain (NEODatabase.query db (create_filters hazardous_criteria)) = Raise AttributeError.
Proof.
  assert (Hno : forall n, n ∈ sample_neos ->
            NearEarthObject.designation n <> CloseApproach.designation sample_orphan).
  { apply Forall_forall. repeat constructor; cbn; discriminate. }
  assert (Hpre : forall j b, j < 2 -> sample_approaches !! j = Some b ->
     exists n, n ∈ sample_neos /\ NearEarthObject.designation n = CloseApproach.designation b).
  { intros j b Hj Hb. destruct j as [|[|j]]; [| |lia]; injection Hb as <-.
    - exists sample_eros. split; [set_solver | reflexivity].
    - exists sample_apollo. split; [set_solver | reflexivity]. }
  assert (Hc : is_Some (c_hazardous hazardous_criteria) \/
     (exists v, c_diameter_min hazardous_criteria = Some v /\ truthy v = true) \/
     (exists v, c_diameter_max hazardous_criteria = Some v /\ truthy v = true))
    by (left; by eexists).
  refine (conj sample_unlinked (conj eq_refl (conj Hno (conj Hpre (conj Hc _))))).
  exact (orphan_neo_criterion_raises _ _ _ 2 _ sample_unlinked eq_refl Hno Hpre Hc).
Defined.
