(* ===== verification/Writers.v ===== *)
(** * The writers (write.py)

    [write_to_csv] and [write_to_json] turn the result stream into rows.
    For each approach both build [content = {**result.serialize(),
    **result.neo.serialize()}] ([content_of]), default the [name] and
    [potentially_hazardous] entries, and then:

    - the CSV writer writes the header, then one row per approach
      through [csv.DictWriter] ([dict_to_list]: [ValueError] on a key
      that is not a column, [restval=""] for a missing one) and
      [csv.writer] ([csv_field]: [None] becomes the empty cell, other
      values their [str]).  Rows are written as the stream is consumed,
      so an exception leaves the header and the rows before it in the
      file: [write_to_csv] returns the rows written and the exception;
    - the JSON writer builds the whole list of nested dicts first
      ([json_record], with [float(...)] on two fields) and opens the file
      only to [json.dump] it ([json_dump]): an exception leaves no file.

    The text encodings are not modelled: a CSV row is its list of cells
    and a JSON document its value tree.  [repr(float)] (the shortest
    round-tripping decimal) and [float(str)] are left as parameters of
    the sections that use them, so the theorems hold for every choice of
    them. *)

From Stdlib Require Import Ascii.
From S2P Require Import Prelude PyFloat DateTime Models Database Filters.

(** The Python objects the writers build: values, dicts and lists. *)
Inductive pyobj :=
| PVal (v : pyval)
| PDict (d : list (string * pyobj))
| PList (l : list pyobj).

(** [{**result.serialize(), **result.neo.serialize()}]; [result.neo] is
    [None] for an orphan approach and [None.serialize] raises
    [AttributeError]. *)
Definition content_of (neos : list NearEarthObject.t) (a : CloseApproach.t)
    : result (pydict pyval) :=
  n <- deref neos a ;;
  Ok (dict_update (CloseApproach.serialize a) (NearEarthObject.serialize n)).

(** The column order of [write_to_csv]. *)
Definition fieldnames : list string :=
  ["datetime_utc"; "distance_au"; "velocity_km_s"; "designation"; "name";
   "diameter_km"; "potentially_hazardous"]%string.

(** [str(d)] of a [datetime.date]: [YYYY-MM-DD]. *)
Definition date_isoformat (d : date) : string :=
  String.string_of_list_ascii
    (pad4 (date_year d) ++ "-"%char :: pad2 (date_month d) ++ "-"%char :: pad2 (date_day d)).

(** ** The CSV writer *)

Section Csv.
(** [repr(x)] of a float. *)
Variable float_repr : pyfloat -> string.

(** [str(v)]. *)
Definition py_str (v : pyval) : string :=
  match v with
  | VNone => "None"
  | VBool b => if b then "True" else "False"
  | VFloat x => float_repr x
  | VStr s => s
  | VDate d => date_isoformat d
  end.

(** The [content] of one row: [content["name"] = content.get("name", "")]
    and [content["potentially_hazardous"] = str(content.get(...,
    "False"))]. *)
Definition csv_content (neos : list NearEarthObject.t) (a : CloseApproach.t)
    : result (pydict pyval) :=
  content <- content_of neos a ;;
  let content := dict_set content "name" (dict_get_or content "name" (VStr "")) in
  Ok (dict_set content "potentially_hazardous"
        (VStr (py_str (dict_get_or content "potentially_hazardous" (VStr "False"))))).

(** [DictWriter._dict_to_list] with [extrasaction="raise"], [restval=""]. *)
Definition dict_to_list (fields : list string) (row : pydict pyval) : result (list pyval) :=
  if existsb (fun kv => negb (bool_decide (kv.1 ∈ fields))) row then Raise ValueError
  else Ok (map (fun k => dict_get_or row k (VStr "")) fields).

(** How [csv.writer] turns a value into a cell. *)
Definition csv_field (v : pyval) : string :=
  match v with VNone => "" | _ => py_str v end.

(** [writer.writerow(content)] for one approach. *)
Definition csv_row (neos : list NearEarthObject.t) (a : CloseApproach.t) : result (list string) :=
  content <- csv_content neos a ;;
  cells <- dict_to_list fieldnames content ;;
  Ok (map csv_field cells).

(** The loop [for result in results: ... writer.writerow(content)]: the
    rows written before the stream ends or an exception escapes. *)
Fixpoint csv_rows (neos : list NearEarthObject.t) (results : gen CloseApproach.t)
    : list (list string) * option exn :=
  match results with
  | GDone => ([], None)
  | GYield a g =>
      match csv_row neos a with
      | Ok r => let '(rs, e) := csv_rows neos g in (r :: rs, e)
      | Raise e => ([], Some e)
      end
  | GRaise e => ([], Some e)
  end.

(** [write_to_csv(results, filename)]: the lines of the file (header
    first) and the exception that escaped, if any. *)
Definition write_to_csv (neos : list NearEarthObject.t) (results : gen CloseApproach.t)
    : list (list string) * option exn :=
  let '(rs, e) := csv_rows neos results in (fieldnames :: rs, e).

End Csv.

(** ** The JSON writer *)

(** The JSON values [json.dump] writes. *)
Inductive json :=
| JNull
| JBool (b : bool)
| JNum (x : pyfloat)
| JStr (s : string)
| JArr (l : list json)
| JObj (l : list (string * json)).

Section Json.
(** [float(s)] of a string. *)
Variable float_of_str : string -> result pyfloat.

(** [float(v)]. *)
Definition py_float_of (v : pyval) : result pyfloat :=
  match v with
  | VFloat x => Ok x
  | VBool b => Ok (float_of_bool b)
  | VStr s => float_of_str s
  | VNone | VDate _ => Raise TypeError
  end.

(** The dict [write_to_json] appends for one approach. *)
Definition json_record (neos : list NearEarthObject.t) (a : CloseApproach.t) : result pyobj :=
  content <- content_of neos a ;;
  let content := dict_set content "name" (dict_get_or content "name" (VStr "")) in
  let content := dict_set content "potentially_hazardous"
                   (dict_get_or content "potentially_hazardous" (VBool false)) in
  let get k := dict_get_or content k VNone in
  v <- py_float_of (get "velocity_km_s") ;;
  d <- py_float_of (get "diameter_km") ;;
  Ok (PDict [("datetime_utc", PVal (get "datetime_utc"));
             ("distance_au", PVal (get "distance_au"));
             ("velocity_km_s", PVal (VFloat v));
             ("neo", PDict [("designation", PVal (get "designation"));
                            ("name", PVal (get "name"));
                            ("diameter_km", PVal (VFloat d));
                            ("potentially_hazardous", PVal (get "potentially_hazardous"))])])%string.

(** The loop building [close_approach_collection]. *)
Fixpoint json_collection (neos : list NearEarthObject.t) (results : gen CloseApproach.t)
    : result (list pyobj) :=
  match results with
  | GDone => Ok []
  | GYield a g => r <- json_record neos a ;; rs <- json_collection neos g ;; Ok (r :: rs)
  | GRaise e => Raise e
  end.

End Json.

(** [json.dump]'s encoder: a [date] is not serializable. *)
Definition json_of_val (v : pyval) : result json :=
  match v with
  | VNone => Ok JNull
  | VBool b => Ok (JBool b)
  | VFloat x => Ok (JNum x)
  | VStr s => Ok (JStr s)
  | VDate _ => Raise TypeError
  end.

Fixpoint json_dump (o : pyobj) : result json :=
  match o with
  | PVal v => json_of_val v
  | PList l => js <- mapR json_dump l ;; Ok (JArr js)
  | PDict d => js <- mapR (fun kx => j <- json_dump kx.2 ;; Ok (kx.1, j)) d ;; Ok (JObj js)
  end.

(** [write_to_json(results, filename)]: the document written, or the
    exception raised before the file is opened. *)
Definition write_to_json (float_of_str : string -> result pyfloat)
    (neos : list NearEarthObject.t) (results : gen CloseApproach.t) : result json :=
  coll <- json_collection float_of_str neos results ;;
  json_dump (PList coll).

(** RFC 8259 numbers are finite: [json.dump] writes [NaN] and
    [Infinity], which are not JSON. *)
Definition is_finite (x : pyfloat) : bool :=
  match x with PFin _ => true | _ => false end.

Fixpoint json_rfc (j : json) : bool :=
  match j with
  | JNum x => is_finite x
  | JArr l => forallb json_rfc l
  | JObj l => forallb (fun kj => json_rfc kj.2) l
  | _ => true
  end.

(** ** Rows of linked and orphan approaches *)

Lemma deref_Raise neos a e : deref neos a = Raise e -> e = AttributeError.
Proof. unfold deref. destruct (CloseApproach.neo a); [destruct (_ !! _)|]; congruence. Qed.

(** The merged dict of a linked approach: the approach's three entries,
    then the NEO's four (no key is shared, so none is overwritten). *)
Lemma content_of_linked neos a n :
  deref neos a = Ok n ->
  content_of neos a = Ok
    [("velocity_km_s", VFloat (CloseApproach.velocity a));
     ("datetime_utc", VStr (CloseApproach.time_str a));
     ("distance_au", VFloat (CloseApproach.distance a));
     ("designation", VStr (NearEarthObject.designation n));
     ("name", match NearEarthObject.name n with Some s => VStr s | None => VNone end);
     ("diameter_km", VFloat (NearEarthObject.diameter n));
     ("potentially_hazardous", VBool (NearEarthObject.hazardous n))]%string.
Proof. unfold content_of. intros ->. reflexivity. Qed.

(** The cells [writer.writerow] writes for a linked approach. *)
Lemma csv_row_cells float_repr neos a n :
  deref neos a = Ok n ->
  csv_row float_repr neos a = Ok
    [CloseApproach.time_str a; float_repr (CloseApproach.distance a);
     float_repr (CloseApproach.velocity a); NearEarthObject.designation n;
     default "" (NearEarthObject.name n); float_repr (NearEarthObject.diameter n);
     if NearEarthObject.hazardous n then "True" else "False"]%string.
Proof.
  intros Hd. unfold csv_row, csv_content. rewrite (content_of_linked _ _ _ Hd).
  destruct (NearEarthObject.name n), (NearEarthObject.hazardous n); reflexivity.
Qed.

(** C25: the CSV row of a linked approach, in the column order of
    [fieldnames]: the formatted time, distance, velocity, designation,
    the name or the empty string when it is absent, the diameter, and
    [True]/[False]; [DictWriter] never rejects the row. *)
Theorem csv_row_spec float_repr neos a n :
  deref neos a = Ok n ->
  csv_row float_repr neos a = Ok
    [CloseApproach.time_str a; float_repr (CloseApproach.distance a);
     float_repr (CloseApproach.velocity a); NearEarthObject.designation n;
     default "" (NearEarthObject.name n); float_repr (NearEarthObject.diameter n);
     if NearEarthObject.hazardous n then "True" else "False"]%string.
Proof. apply csv_row_cells. Qed.

Lemma csv_row_Raise float_repr neos a e :
  csv_row float_repr neos a = Raise e <-> deref neos a = Raise e.
Proof.
  destruct (deref neos a) as [n|e'] eqn:Hd.
  - rewrite (csv_row_cells _ _ _ _ Hd). split; congruence.
  - unfold csv_row, csv_content, content_of. rewrite Hd. simpl. split; congruence.
Qed.

(** The rows of a prefix whose approaches all give a row come first. *)
Lemma csv_rows_prefix float_repr neos pre rows l :
  mapR (csv_row float_repr neos) pre = Ok rows ->
  csv_rows float_repr neos (gen_of_list (pre ++ l)) =
    (rows ++ (csv_rows float_repr neos (gen_of_list l)).1,
     (csv_rows float_repr neos (gen_of_list l)).2).
Proof.
  revert rows; induction pre as [|a pre IH]; intros rows Hm; simpl in *.
  - simplify_eq. by destruct (csv_rows _ _ _).
  - destruct (csv_row float_repr neos a) as [r|e]; simpl in *; [|done].
    destruct (mapR _ pre) as [rs|e]; simpl in *; simplify_eq.
    rewrite (IH rs eq_refl). by destruct (csv_rows _ _ _).
Qed.

(** Writing a stream of approaches that all give a row produces the
    header followed by their rows, in order, and no exception. *)
Theorem write_to_csv_complete float_repr neos l rows :
  mapR (csv_row float_repr neos) l = Ok rows ->
  write_to_csv float_repr neos (gen_of_list l) = (fieldnames :: rows, None).
Proof.
  intros Hm. unfold write_to_csv. rewrite <- (app_nil_r l).
  rewrite (csv_rows_prefix _ _ _ _ [] Hm). simpl. by rewrite app_nil_r.
Qed.

(** C26: an orphan approach in the stream stops the CSV writer with
    [AttributeError], after the header and the rows of the approaches
    before it have been written to the file. *)
Theorem write_to_csv_partial float_repr neos pre a post rows :
  mapR (csv_row float_repr neos) pre = Ok rows -> CloseApproach.neo a = None ->
  write_to_csv float_repr neos (gen_of_list (pre ++ a :: post)) =
    (fieldnames :: rows, Some AttributeError).
Proof.
  intros Hm Ha. unfold write_to_csv. rewrite (csv_rows_prefix _ _ _ _ _ Hm). simpl.
  assert (Hr : csv_row float_repr neos a = Raise AttributeError)
    by (apply csv_row_Raise; unfold deref; by rewrite Ha).
  by rewrite Hr, app_nil_r.
Qed.

(** The JSON object [write_to_json] writes for an approach linked to
    [n]: the NEO's fields nested under ["neo"], an absent name as
    [null]. *)
Definition json_view (n : NearEarthObject.t) (a : CloseApproach.t) : json :=
  JObj [("datetime_utc", JStr (CloseApproach.time_str a));
        ("distance_au", JNum (CloseApproach.distance a));
        ("velocity_km_s", JNum (CloseApproach.velocity a));
        ("neo", JObj [("designation", JStr (NearEarthObject.designation n));
                      ("name", match NearEarthObject.name n with
                               | Some s => JStr s | None => JNull end);
                      ("diameter_km", JNum (NearEarthObject.diameter n));
                      ("potentially_hazardous", JBool (NearEarthObject.hazardous n))])]%string.

Lemma json_record_dump float_of_str neos a n :
  deref neos a = Ok n ->
  exists o, json_record float_of_str neos a = Ok o /\ json_dump o = Ok (json_view n a).
Proof.
  intros Hd. unfold json_record. rewrite (content_of_linked _ _ _ Hd).
  eexists; split; [reflexivity|]. unfold json_view. destruct (NearEarthObject.name n); reflexivity.
Qed.

(** A record fails only where [result.neo] does, with [AttributeError]. *)
Lemma json_record_cases float_of_str neos a :
  json_record float_of_str neos a = Raise AttributeError \/
  exists o, json_record float_of_str neos a = Ok o.
Proof.
  destruct (deref neos a) as [n|e] eqn:Hd.
  - right. destruct (json_record_dump float_of_str _ _ _ Hd) as (o & Ho & _). by exists o.
  - left. pose proof (deref_Raise _ _ _ Hd) as ->.
    unfold json_record, content_of. by rewrite Hd.
Qed.

Lemma json_collection_list float_of_str neos l :
  json_collection float_of_str neos (gen_of_list l) = mapR (json_record float_of_str neos) l.
Proof. induction l as [|a l IH]; simpl; [done|]. by rewrite IH. Qed.

Lemma json_collection_dump float_of_str neos l ns :
  Forall2 (fun a n => deref neos a = Ok n) l ns ->
  exists os, mapR (json_record float_of_str neos) l = Ok os /\
    mapR json_dump os = Ok (zip_with json_view ns l).
Proof.
  induction 1 as [|a n l ns Hd _ (os & Hos & Hdump)]; [by exists []|].
  destruct (json_record_dump float_of_str _ _ _ Hd) as (o & Ho & Ho').
  exists (o :: os). simpl. by rewrite Ho, Hos, Ho', Hdump.
Qed.

(** C27: the JSON document of a stream of linked approaches is the list of
    their objects, in order: the values are the approach's and its NEO's
    own (the [float(...)] coercions change nothing), an absent name is
    [null]. *)
Theorem write_to_json_spec float_of_str neos l ns :
  Forall2 (fun a n => deref neos a = Ok n) l ns ->
  write_to_json float_of_str neos (gen_of_list l) = Ok (JArr (zip_with json_view ns l)).
Proof.
  intros H. destruct (json_collection_dump float_of_str _ _ _ H) as (os & Hos & Hdump).
  unfold write_to_json. rewrite json_collection_list, Hos. simpl. by rewrite Hdump.
Qed.

(** One orphan approach anywhere in the stream makes [write_to_json]
    raise [AttributeError] before the file is opened: nothing is written
    (where the CSV writer leaves a partial file). *)
Theorem write_to_json_orphan float_of_str neos l a :
  a ∈ l -> CloseApproach.neo a = None ->
  write_to_json float_of_str neos (gen_of_list l) = Raise AttributeError.
Proof.
  intros Ha Hn. unfold write_to_json. rewrite json_collection_list.
  rewrite (mapR_Raise _ _ AttributeError); [done| |].
  - intros b _. apply json_record_cases.
  - exists a. split; [done|]. unfold json_record, content_of, deref. by rewrite Hn.
Qed.

Lemma json_view_rfc n a :
  json_rfc (json_view n a) =
    is_finite (CloseApproach.distance a) && is_finite (CloseApproach.velocity a)
    && is_finite (NearEarthObject.diameter n).
Proof.
  unfold json_view. simpl.
  destruct (NearEarthObject.name n), (is_finite (CloseApproach.distance a)),
    (is_finite (CloseApproach.velocity a)), (is_finite (NearEarthObject.diameter n)); done.
Qed.

(** C29: the document of linked approaches is RFC 8259 JSON exactly when
    every distance, velocity and diameter in it is finite: an unknown
    diameter or a missing distance (NaN) is written as the token [NaN],
    which JSON parsers reject. *)
Theorem write_to_json_rfc float_of_str neos l ns :
  Forall2 (fun a n => deref neos a = Ok n) l ns ->
  exists j, write_to_json float_of_str neos (gen_of_list l) = Ok j /\
    (json_rfc j = true <->
     Forall2 (fun a n => is_finite (CloseApproach.distance a) && is_finite (CloseApproach.velocity a)
                         && is_finite (NearEarthObject.diameter n) = true) l ns).
Proof.
  intros H. destruct (json_collection_dump float_of_str _ _ _ H) as (os & Hos & Hdump).
  exists (JArr (zip_with json_view ns l)). split.
  - unfold write_to_json. rewrite json_collection_list, Hos. simpl. by rewrite Hdump.
  - clear Hos Hdump. change (json_rfc (JArr ?j)) with (forallb json_rfc j).
    induction H as [|a n l ns _ _ IH]; [split; constructor|].
    cbn [zip_with forallb]. by rewrite andb_true_iff, json_view_rfc, IH, Forall2_cons.
Qed.

(** ** The NEO without a name or a diameter *)

(** A row of neos.csv with empty [name] and [diameter], and an approach
    linked to it. *)
Definition nameless : NearEarthObject.t := NearEarthObject.init "2100" None None false.
Definition nameless_approach : CloseApproach.t :=
  CloseApproach.mk "2100" (mk_datetime 2000 1 1 0 0) (float_lit 1 10) (float_lit 5 1) (Some 0).

(** The JSON document of [nameless_approach]. *)
Definition nameless_json : json :=
  JArr [JObj [("datetime_utc", JStr "2000-01-01 00:00"); ("distance_au", JNum (float_lit 1 10));
              ("velocity_km_s", JNum (float_lit 5 1));
              ("neo", JObj [("designation", JStr "2100"); ("name", JNull);
                            ("diameter_km", JNum PNaN); ("potentially_hazardous", JBool false)])]]%string.

(** The two writers disagree on an absent name: the CSV cell is empty,
    as the spec's serialization view says, but the JSON writer writes
    [null], because [content.get("name", "")] finds the key with the
    value [None]. *)
Theorem absent_name_csv_json float_repr float_of_str :
  csv_row float_repr [nameless] nameless_approach =
    Ok ["2000-01-01 00:00"; float_repr (float_lit 1 10); float_repr (float_lit 5 1); "2100"; "";
        float_repr PNaN; "False"]%string /\
  write_to_json float_of_str [nameless] (gen_of_list [nameless_approach]) = Ok nameless_json.
Proof. split; reflexivity. Qed.

(** An NEO of unknown diameter makes the JSON output invalid: its
    diameter is written as [NaN]. *)
Theorem unknown_diameter_json_invalid float_of_str :
  exists j, write_to_json float_of_str [nameless] (gen_of_list [nameless_approach]) = Ok j /\
    json_rfc j = false.
Proof. exists nameless_json. split; reflexivity. Qed.

(** ** Witnesses *)

Definition sample_repr (x : pyfloat) : string :=
  match x with PNaN => "nan" | PInf => "inf" | NInf => "-inf" | PFin _ => "1.0" end.

Definition sample_float_of_str (s : string) : result pyfloat := Raise ValueError.

Definition nameless_row : list string :=
  ["2000-01-01 00:00"; "1.0"; "1.0"; "2100"; ""; "nan"; "False"]%string.

(** An orphan approach, for the partial files. *)
Definition orphan_approach : CloseApproach.t :=
  CloseApproach.mk "99942" (mk_datetime 2029 4 13 21 46) (float_lit 25 100000) (float_lit 74 10) None.

Lemma csv_row_spec_witness :
  deref [nameless] nameless_approach = Ok nameless /\
  csv_row sample_repr [nameless] nameless_approach = Ok
    [CloseApproach.time_str nameless_approach; sample_repr (CloseApproach.distance nameless_approach);
     sample_repr (CloseApproach.velocity nameless_approach); NearEarthObject.designation nameless;
     default "" (NearEarthObject.name nameless); sample_repr (NearEarthObject.diameter nameless);
     if NearEarthObject.hazardous nameless then "True" else "False"]%string.
Proof.
  assert (Hd : deref [nameless] nameless_approach = Ok nameless) by reflexivity.
  split; [exact Hd|]. exact (csv_row_spec sample_repr _ _ _ Hd).
Defined.

Lemma write_to_csv_complete_witness :
  mapR (csv_row sample_repr [nameless]) [nameless_approach] = Ok [nameless_row] /\
  write_to_csv sample_repr [nameless] (gen_of_list [nameless_approach]) = (fieldnames :: [nameless_row], None).
Proof.
  assert (Hm : mapR (csv_row sample_repr [nameless]) [nameless_approach] = Ok [nameless_row])
    by reflexivity.
  split; [exact Hm|]. exact (write_to_csv_complete sample_repr _ _ _ Hm).
Defined.

Lemma write_to_csv_partial_witness :
  mapR (csv_row sample_repr [nameless]) [nameless_approach] = Ok [nameless_row] /\
  CloseApproach.neo orphan_approach = None /\
  write_to_csv sample_repr [nameless] (gen_of_list ([nameless_approach] ++ orphan_approach :: []))
    = (fieldnames :: [nameless_row], Some AttributeError).
Proof.
  assert (Hm : mapR (csv_row sample_repr [nameless]) [nameless_approach] = Ok [nameless_row])
    by reflexivity.
  refine (conj Hm (conj eq_refl _)).
  exact (write_to_csv_partial sample_repr _ _ orphan_approach [] _ Hm eq_refl).
Defined.

Lemma nameless_linked :
  Forall2 (fun a n => deref [nameless] a = Ok n) [nameless_approach] [nameless].
Proof. repeat constructor. Qed.

Lemma write_to_json_spec_witness :
  Forall2 (fun a n => deref [nameless] a = Ok n) [nameless_approach] [nameless] /\
  write_to_json sample_float_of_str [nameless] (gen_of_list [nameless_approach])
    = Ok (JArr (zip_with json_view [nameless] [nameless_approach])).
Proof.
  split; [exact nameless_linked|].
  exact (write_to_json_spec sample_float_of_str _ _ _ nameless_linked).
Defined.

Lemma write_to_json_orphan_witness :
  orphan_approach ∈ [nameless_approach; orphan_approach] /\
  CloseApproach.neo orphan_approach = None /\
  write_to_json sample_float_of_str [nameless] (gen_of_list [nameless_approach; orphan_approach])
    = Raise AttributeError.
Proof.
  assert (Hin : orphan_approach ∈ [nameless_approach; orphan_approach])
    by (apply elem_of_cons; right; apply elem_of_cons; by left).
  refine (conj Hin (conj eq_refl _)).
  exact (write_to_json_orphan sample_float_of_str _ _ _ Hin eq_refl).
Defined.

Lemma write_to_json_rfc_witness :
  Forall2 (fun a n => deref [nameless] a = Ok n) [nameless_approach] [nameless] /\
  exists j, write_to_json sample_float_of_str [nameless] (gen_of_list [nameless_approach]) = Ok j /\
    (json_rfc j = true <->
     Forall2 (fun a n => is_finite (CloseApproach.distance a) && is_finite (CloseApproach.velocity a)
                         && is_finite (NearEarthObject.diameter n) = true)
       [nameless_approach] [nameless]).
Proof.
  split; [exact nameless_linked|].
  exact (write_to_json_rfc sample_float_of_str _ _ _ nameless_linked).
Defined.
