(* ===== verification/Consumers.v ===== *)
(** * The consumers of the query generator, call by call

    The code consumes the generator [NEODatabase.query] returns in two
    places: [limit] (filters.py) returns [list(itertools.islice(g, 0,
    n))], and [write_to_csv] (write.py) writes one row per
    [for result in results] iteration.  Both interleave their own work
    with the [next()] calls of [QueryGen]: [islice_next] is islice's
    loop, which stops after the [n]-th item without calling [next()]
    again, and [csv_rows_next] is the writer's loop, defined by
    well-founded recursion on the generator's variant ([Function] with a
    [measure]), so it needs no fuel.

    [limit_suspends_after_nth] shows that [limit] leaves the generator
    suspended right after the [n]-th match: the approaches after it are
    never examined.  [csv_rows_next_filter_raises] shows what the
    interleaving of the writer with the generator does when a filter
    raises: the rows of the earlier matches are already written, and the
    filter's exception escapes the writer's loop. *)

From Stdlib Require Import Recdef.
From S2P Require Import Prelude PyFloat DateTime Models Database Filters QueryGen Writers.

Section Consumers.
Context {F : Type} `{Callable F}.
Variable db : NEODatabase.t.
Variable fs : list F.

(** [list(itertools.islice(g, 0, n))] on the generator object: CPython's
    islice returns after the [n]-th item without another [next()]; the
    frame the generator is left in is returned with the result. *)
Fixpoint islice_next (n : nat) (fr : frame) : result (list CloseApproach.t) * frame :=
  match n with
  | 0 => (Ok [], fr)
  | S n' =>
      match gen_next db fs fr with
      | (Yielded a, fr') =>
          let '(r, fr'') := islice_next n' fr' in (l <- r ;; Ok (a :: l), fr'')
      | (Stopped, fr') => (Ok [], fr')
      | (Raised e, fr') => (Raise e, fr')
      end
  end.

Variable float_repr : pyfloat -> string.

(** The loop of [write_to_csv]: [next()] on the generator, then the row
    of the result, until [StopIteration] or an exception. *)
Function csv_rows_next (fr : frame) {measure (measure db) fr}
    : list (list string) * option exn :=
  match gen_next db fs fr with
  | (Yielded a, fr') =>
      match csv_row float_repr (NEODatabase._neos db) a with
      | Ok r => let '(rs, e) := csv_rows_next fr' in (r :: rs, e)
      | Raise e => ([], Some e)
      end
  | (Stopped, _) => ([], None)
  | (Raised e, _) => ([], Some e)
  end.
Proof.
  intros fr _ fr' a _ E _ _.
  destruct (frame_Finished_dec fr) as [->|Hfr]; [simpl in E; congruence|].
  pose proof (gen_next_measure db fs fr Hfr) as Hlt. by rewrite E in Hlt.
Defined.

End Consumers.

Section Facts.
Context {F : Type} `{Callable F}.
Variable db : NEODatabase.t.
Variable fs : list F.

Notation neos := (NEODatabase._neos db).
Notation aps := (NEODatabase._approaches db).

(** islice through [next()] reads the stream the calls observe. *)
Lemma islice_observe k fuel fr :
  measure db fr <= fuel -> islice k (observe db fs fuel fr) = (islice_next db fs k fr).1.
Proof.
  revert fuel fr; induction k as [|k IH]; intros fuel fr Hm; [by destruct fuel|].
  destruct (frame_Finished_dec fr) as [->|Hfr]; [by destruct fuel|].
  pose proof (gen_next_measure db fs fr Hfr) as Hlt.
  destruct fuel as [|fuel]; [lia|]. cbn [observe islice_next].
  destruct (gen_next db fs fr) as [[a| |e] fr'] eqn:E; [|done|done]. simpl in Hlt.
  cbn [islice]. rewrite (IH fuel fr') by lia. by destruct (islice_next db fs k fr').
Qed.

Lemma islice_same_next k fr fr' :
  gen_next db fs fr = gen_next db fs fr' ->
  islice_next db fs (S k) fr = islice_next db fs (S k) fr'.
Proof. intros E. cbn [islice_next]. by rewrite E. Qed.

Lemma islice_yield k fr a fr' :
  gen_next db fs fr = (Yielded a, fr') ->
  islice_next db fs (S k) fr
  = let '(r, fr'') := islice_next db fs k fr' in (l <- r ;; Ok (a :: l), fr'').
Proof. intros E. cbn [islice_next]. by rewrite E. Qed.

(** Through the filtering loop, islice returns the [k + 1] first
    matches and leaves the frame right after the last of them. *)
Lemma islice_filter_loop pre a post k :
  Forall (NEODatabase.evaluates neos fs) pre ->
  NEODatabase.check_approach_against_filters neos a fs = Ok true ->
  length (filter (NEODatabase.matches neos fs) pre) = k ->
  islice_next db fs (S k) (InFilterLoop (pre ++ a :: post))
  = (Ok (filter (NEODatabase.matches neos fs) pre ++ [a]), InFilterLoop post).
Proof.
  intros Hpre Ha. revert k; induction Hpre as [|b pre Hb Hpre IH]; intros k Hk.
  - simpl in Hk. subst k. cbn [islice_next gen_next filter_loop app]. by rewrite Ha.
  - rewrite filter_cons in Hk |- *. pose proof (check_matches db fs b Hb) as Eb.
    destruct (decide (NEODatabase.matches neos fs b)) as [Hm|Hm].
    + rewrite bool_decide_true in Eb by done. simpl in Hk. subst k.
      rewrite (islice_yield _ _ b (InFilterLoop (pre ++ a :: post)))
        by (cbn [gen_next filter_loop app]; by rewrite Eb).
      by rewrite (IH _ eq_refl).
    + rewrite bool_decide_false in Eb by done.
      rewrite (islice_same_next _ _ (InFilterLoop (pre ++ a :: post))) by
        (cbn [gen_next filter_loop app]; by rewrite Eb).
      by apply IH.
Qed.

Lemma islice_plain_loop pre a post :
  islice_next db fs (S (length pre)) (InPlainLoop (pre ++ a :: post))
  = (Ok (pre ++ [a]), InPlainLoop post).
Proof.
  induction pre as [|b pre IH]; [done|].
  rewrite (islice_yield _ _ b (InPlainLoop (pre ++ a :: post))) by done.
  cbn [length]. by rewrite IH.
Qed.

Variable float_repr : pyfloat -> string.

(** The writer's loop reads the stream the calls observe. *)
Lemma csv_rows_next_observe fuel fr :
  measure db fr <= fuel ->
  csv_rows_next db fs float_repr fr = csv_rows float_repr neos (observe db fs fuel fr).
Proof.
  revert fr; induction fuel as [|fuel IH]; intros fr Hm.
  - destruct fr; simpl in Hm; [lia..|]. by rewrite csv_rows_next_equation.
  - rewrite csv_rows_next_equation. cbn [observe].
    destruct (frame_Finished_dec fr) as [->|Hfr]; [done|].
    pose proof (gen_next_measure db fs fr Hfr) as Hlt.
    destruct (gen_next db fs fr) as [[a| |e] fr'] eqn:E; [|done|done]. simpl in Hlt.
    cbn [csv_rows]. destruct (csv_row float_repr neos a); [|done].
    by rewrite (IH fr') by lia.
Qed.

(** The frame islice leaves a fresh generator in after the [k + 1]-th
    match [a], on either loop of [query]. *)
Lemma islice_Created pre a post :
  NEODatabase._approaches db = pre ++ a :: post ->
  Forall (NEODatabase.evaluates neos fs) pre ->
  NEODatabase.matches neos fs a ->
  islice_next db fs (S (length (filter (NEODatabase.matches neos fs) pre))) Created
  = (Ok (filter (NEODatabase.matches neos fs) (pre ++ [a])),
     if truthy fs then InFilterLoop post else InPlainLoop post).
Proof.
  intros Haps Hpre Ha. rewrite filter_app, filter_singleton_True by done.
  destruct (truthy fs) eqn:Ht.
  - rewrite (islice_same_next _ _ (InFilterLoop aps)) by (cbn [gen_next]; by rewrite Ht).
    rewrite Haps. apply islice_filter_loop; [done | by apply NEODatabase.check_approach_spec | done].
  - assert (Hf : forall l : list CloseApproach.t, filter (NEODatabase.matches neos fs) l = l)
      by (intros l; rewrite (truthy_nil fs Ht); apply (filter_matches_nil db)).
    rewrite !Hf.
    rewrite (islice_same_next _ _ (InPlainLoop aps)) by (cbn [gen_next]; by rewrite Ht).
    rewrite Haps. apply islice_plain_loop.
Qed.

(** When no filter raises, the filtering scan is the list of matches. *)
Lemma scan_gen_of_list pre :
  Forall (NEODatabase.evaluates neos fs) pre ->
  NEODatabase.scan neos fs pre = gen_of_list (filter (NEODatabase.matches neos fs) pre).
Proof.
  induction 1 as [|b pre Hb _ IH]; [done|].
  cbn [NEODatabase.scan]. rewrite (check_matches db fs b Hb), filter_cons.
  destruct (decide (NEODatabase.matches neos fs b)) as [Hm|Hm].
  - rewrite bool_decide_true by done. by rewrite IH.
  - by rewrite bool_decide_false.
Qed.

(** The rows of a list of results that all give a row come first. *)
Lemma csv_rows_gen_app l rows g :
  mapR (csv_row float_repr neos) l = Ok rows ->
  csv_rows float_repr neos (gen_app (gen_of_list l) g)
  = (rows ++ (csv_rows float_repr neos g).1, (csv_rows float_repr neos g).2).
Proof.
  revert rows; induction l as [|a l IH]; intros rows Hm; cbn in Hm |- *.
  - simplify_eq. by destruct (csv_rows _ _ g).
  - destruct (csv_row float_repr neos a) as [r|e]; cbn in Hm |- *; [|done].
    destruct (mapR _ l) as [rs|e] eqn:E; cbn in Hm; simplify_eq.
    rewrite (IH rs eq_refl). by destruct (csv_rows _ _ g).
Qed.

End Facts.

Section Properties.
Context {F : Type} `{Callable F}.
Variable db : NEODatabase.t.
Variable fs : list F.

(** C19: [limit(query(filters), n)] with [1 <= n <= sys.maxsize], when
    the [n]-th match [a] is preceded only by approaches the filters
    evaluate on, returns the [n] first matches, and the generator it
    consumed is left suspended right after [a]: islice's [n] calls of
    [next()] never examine the approaches after the [n]-th match. *)
Theorem limit_suspends_after_nth pre a post n :
  NEODatabase._approaches db = pre ++ a :: post ->
  Forall (NEODatabase.evaluates (NEODatabase._neos db) fs) pre ->
  NEODatabase.matches (NEODatabase._neos db) fs a ->
  length (filter (NEODatabase.matches (NEODatabase._neos db) fs) pre) = n ->
  (Z.of_nat (S n) <= maxsize)%Z ->
  let found := filter (NEODatabase.matches (NEODatabase._neos db) fs) (pre ++ [a]) in
  limit (NEODatabase.query db fs) (Some (Z.of_nat (S n))) = Ok (gen_of_list found) /\
  islice_next db fs (S n) Created
  = (Ok found, if truthy fs then InFilterLoop post else InPlainLoop post).
Proof.
  intros Haps Hpre Ha Hn Hmax found.
  pose proof (islice_Created db fs pre a post Haps Hpre Ha) as Hi. rewrite Hn in Hi.
  split; [|done].
  unfold limit.
  replace (Z.of_nat (S n) =? 0)%Z with false by (symmetry; apply Z.eqb_neq; lia).
  replace ((Z.of_nat (S n) <? 0) || (maxsize <? Z.of_nat (S n)))%Z with false
    by (symmetry; apply orb_false_iff; split; apply Z.ltb_ge; lia).
  rewrite Nat2Z.id, <- observe_Created,
    (islice_observe db fs _ (S (length (NEODatabase._approaches db)))) by done.
  by rewrite Hi.
Qed.

Variable float_repr : pyfloat -> string.

(** C28: a filter that raises inside the generator stops
    [write_to_csv] part-way: when the first approach on which some
    filter raises [e] comes after approaches on which every filter
    returns, the file holds the rows of the matches among those earlier
    approaches, in order (written as each was pulled), and [e] escapes
    the writer's loop. *)
Theorem csv_rows_next_filter_raises pre a post e rows :
  NEODatabase._approaches db = pre ++ a :: post ->
  Forall (NEODatabase.evaluates (NEODatabase._neos db) fs) pre ->
  NEODatabase.check_approach_against_filters (NEODatabase._neos db) a fs = Raise e ->
  mapR (csv_row float_repr (NEODatabase._neos db))
    (filter (NEODatabase.matches (NEODatabase._neos db) fs) pre) = Ok rows ->
  csv_rows_next db fs float_repr Created = (rows, Some e).
Proof.
  intros Haps Hpre Ha Hm.
  rewrite (csv_rows_next_observe db fs float_repr (S (length (NEODatabase._approaches db))))
    by done.
  rewrite observe_Created, NEODatabase.query_scan, Haps, NEODatabase.scan_app.
  cbn [NEODatabase.scan]. rewrite Ha, (scan_gen_of_list db fs pre Hpre).
  rewrite (csv_rows_gen_app db float_repr _ rows _ Hm). cbn. by rewrite app_nil_r.
Qed.

End Properties.

(** On the sample database with the sample filters, [limit(..., 2)]
    stops at the second match, the orphan approach of Apophis: the last
    approach of Eros is left unexamined. *)
Lemma limit_suspends_after_nth_witness :
  let aps := NEODatabase._approaches sample_db in
  let found := filter (NEODatabase.matches (NEODatabase._neos sample_db) sample_filters)
                 (take 2 aps ++ [sample_orphan]) in
  limit (NEODatabase.query sample_db sample_filters) (Some 2%Z) = Ok (gen_of_list found) /\
  islice_next sample_db sample_filters 2 Created = (Ok found, InFilterLoop (drop 3 aps)).
Proof.
  apply (limit_suspends_after_nth sample_db sample_filters
           (take 2 (NEODatabase._approaches sample_db))
           sample_orphan
           (drop 3 (NEODatabase._approaches sample_db)) 1).
  - vm_compute. reflexivity.
  - apply Forall_take, sample_filters_evaluate.
  - apply NEODatabase.check_approach_spec. vm_compute. reflexivity.
  - vm_compute. reflexivity.
  - unfold maxsize. lia.
Defined.

(** The hazardous filter raises at the orphan approach of the sample
    database: the rows of the two approaches before it are written. *)
Lemma csv_rows_next_filter_raises_witness :
  let fs := [HazardousFilter op_eq (VBool true)] in
  let aps := NEODatabase._approaches sample_db in
  let neos := NEODatabase._neos sample_db in
  aps = take 2 aps ++ sample_orphan :: drop 3 aps /\
  Forall (NEODatabase.evaluates neos fs) (take 2 aps) /\
  NEODatabase.check_approach_against_filters neos sample_orphan fs = Raise AttributeError /\
  exists rows,
    mapR (csv_row sample_repr neos) (filter (NEODatabase.matches neos fs) (take 2 aps)) = Ok rows /\
    csv_rows_next sample_db fs sample_repr Created = (rows, Some AttributeError).
Proof.
  intros fs aps neos.
  assert (Haps : aps = take 2 aps ++ sample_orphan :: drop 3 aps) by (vm_compute; reflexivity).
  assert (Hpre : Forall (NEODatabase.evaluates neos fs) (take 2 aps)).
  { assert (E : take 2 aps = [CloseApproach.set_neo 0 sample_ap0; CloseApproach.set_neo 1 sample_ap1])
      by (vm_compute; reflexivity).
    rewrite E. repeat constructor; intros f Hf; apply list_elem_of_singleton in Hf as ->;
      eexists; vm_compute; reflexivity. }
  assert (Ha : NEODatabase.check_approach_against_filters neos sample_orphan fs = Raise AttributeError)
    by (vm_compute; reflexivity).
  destruct (mapR (csv_row sample_repr neos) (filter (NEODatabase.matches neos fs) (take 2 aps)))
    as [rows|e] eqn:Em; [|vm_compute in Em; discriminate].
  refine (conj Haps (conj Hpre (conj Ha (ex_intro _ rows (conj eq_refl _))))).
  exact (csv_rows_next_filter_raises sample_db fs sample_repr _ _ _ _ _ Haps Hpre Ha Em).
Defined.
