(* ===== verification/Display.v ===== *)
(** * The display methods of the entities and the filters

    [NearEarthObject.__str__] and [__repr__], [CloseApproach.__str__] and
    [__repr__] (models.py) and [AttributeFilter.__repr__] (filters.py),
    as the f-strings that define them compute, with [format_fixed] for
    the [:.2f] / [:.3f] fields, [py_repr_str] for the [!r] fields of
    strings and [py_str] (Writers.v) for a bare [{value}].  [str(float)]
    is the parameter [float_repr] of the writers.

    [CloseApproach.__str__] reads [self.neo.fullname] and so raises
    [AttributeError] on an approach no NEO was linked to, where
    [__repr__] prints [neo=None]: [init_approach_str] states which of
    the database's approaches can be printed and what they print. *)

From Stdlib Require Import Ascii.
From S2P Require Import Prelude PyFloat DateTime Models Database Filters Writers PyFormat.

Section Display.

Variable float_repr : pyfloat -> string.

(** [repr] of a [bool]. *)
Definition py_repr_bool (b : bool) : string := if b then "True" else "False".

(** [repr] of a value that is a [str] or [None]. *)
Definition py_repr_opt_str (o : option string) : string :=
  match o with None => "None" | Some s => py_repr_str s end.

(** [NearEarthObject.__str__]. *)
Definition NearEarthObject_str (n : NearEarthObject.t) : string :=
  "NEO " +:+ NearEarthObject.fullname n +:+ " has a diameter of "
  +:+ float_repr (NearEarthObject.diameter n) +:+ " km and is "
  +:+ (if NearEarthObject.hazardous n then "" else "not ")
  +:+ "a potentially hazardous object.".

(** [NearEarthObject.__repr__]. *)
Definition NearEarthObject_repr (n : NearEarthObject.t) : string :=
  "NearEarthObject(designation=" +:+ py_repr_str (NearEarthObject.designation n)
  +:+ ", name=" +:+ py_repr_opt_str (NearEarthObject.name n)
  +:+ ", diameter=" +:+ format_fixed 3 (NearEarthObject.diameter n)
  +:+ ", hazardous=" +:+ py_repr_bool (NearEarthObject.hazardous n) +:+ ")".

(** The text of [CloseApproach.__str__] once [self.neo] is the NEO [n]. *)
Definition CloseApproach_text (a : CloseApproach.t) (n : NearEarthObject.t) : string :=
  "At " +:+ CloseApproach.time_str a +:+ ", the " +:+ NearEarthObject.fullname n
  +:+ " approaches the Earth at a distance of " +:+ format_fixed 2 (CloseApproach.distance a)
  +:+ " au and a velocity of " +:+ format_fixed 2 (CloseApproach.velocity a) +:+ " km/s.".

(** [CloseApproach.__str__]: [self.neo.fullname] raises [AttributeError]
    when [self.neo] is [None]. *)
Definition CloseApproach_str (neos : list NearEarthObject.t) (a : CloseApproach.t)
    : result string :=
  n <- deref neos a ;; Ok (CloseApproach_text a n).

(** [CloseApproach.__repr__]: [{self.neo!r}] is [None] for an unlinked
    approach. *)
Definition CloseApproach_repr (neos : list NearEarthObject.t) (a : CloseApproach.t) : string :=
  "CloseApproach(time=" +:+ py_repr_str (CloseApproach.time_str a)
  +:+ ", distance=" +:+ format_fixed 2 (CloseApproach.distance a)
  +:+ ", velocity=" +:+ format_fixed 2 (CloseApproach.velocity a)
  +:+ ", neo=" +:+ (match deref neos a with Ok n => NearEarthObject_repr n | Raise _ => "None" end)
  +:+ ")".

(** [self.__class__.__name__] of a filter. *)
Definition class_name (k : filter_class) : string :=
  match k with
  | KAttribute => "AttributeFilter"
  | KDistance => "DistanceFilter"
  | KDiameter => "DiameterFilter"
  | KVelocity => "VelocityFilter"
  | KHazardous => "HazardousFilter"
  | KDate => "DateFilter"
  end.

(** [self.op.__name__] of [operator.eq], [operator.le], [operator.ge]. *)
Definition op_name (o : op) : string :=
  match o with op_eq => "eq" | op_le => "le" | op_ge => "ge" end.

(** [AttributeFilter.__repr__]. *)
Definition AttributeFilter_repr (f : AttributeFilter) : string :=
  class_name (cls f) +:+ "(op=operator." +:+ op_name (fop f)
  +:+ ", value=" +:+ py_str float_repr (value f) +:+ ")".

End Display.

(** ** Reading a display text back *)

(** A text with no [c] followed by [c] is determined by where the first
    [c] stands. *)
Lemma app_sep_inv (c : ascii) x1 x2 y1 y2 :
  Forall (fun a => a <> c) x1 -> Forall (fun a => a <> c) x2 ->
  x1 ++ c :: y1 = x2 ++ c :: y2 -> x1 = x2 /\ y1 = y2.
Proof.
  revert x2; induction x1 as [|a x1 IH]; intros [|b x2] H1 H2 E; simpl in E.
  - by injection E as ->.
  - injection E as -> _. by apply Forall_cons in H2 as [? _].
  - injection E as <- _. by apply Forall_cons in H1 as [? _].
  - injection E as -> E.
    apply Forall_cons in H1 as [_ H1]. apply Forall_cons in H2 as [_ H2].
    by destruct (IH x2 H1 H2 E) as [-> ->].
Qed.

Lemma repr_str_head s : exists q r,
  String.list_ascii_of_string (py_repr_str s) = q :: r /\ (q = "'"%char \/ q = "034"%char).
Proof.
  unfold py_repr_str. rewrite String.list_ascii_of_string_of_list_ascii.
  eexists _, _; split; [reflexivity|]. unfold repr_quote. destruct (_ && _); auto.
Qed.

Lemma repr_opt_str_prefix_free o1 o2 r1 r2 :
  String.list_ascii_of_string (py_repr_opt_str o1) ++ r1
  = String.list_ascii_of_string (py_repr_opt_str o2) ++ r2 ->
  o1 = o2 /\ r1 = r2.
Proof.
  destruct o1 as [s1|], o2 as [s2|]; cbn [py_repr_opt_str].
  - by intros [-> ->]%repr_str_prefix_free.
  - destruct (repr_str_head s1) as (q & r & -> & [-> | ->]); discriminate.
  - destruct (repr_str_head s2) as (q & r & -> & [-> | ->]); discriminate.
  - by intros ->%app_inv_head.
Qed.

Lemma repr_bool_inj b1 b2 r :
  String.list_ascii_of_string (py_repr_bool b1) ++ r
  = String.list_ascii_of_string (py_repr_bool b2) ++ r -> b1 = b2.
Proof. by destruct b1, b2. Qed.

(** ** Properties *)

(** C31: [NearEarthObject.__repr__] is unambiguous: two NEOs with the
    same repr have the same designation, name and hazard flag, and
    diameters that print the same to three decimals. *)
Theorem NearEarthObject_repr_inj n1 n2 :
  NearEarthObject_repr n1 = NearEarthObject_repr n2 ->
  NearEarthObject.designation n1 = NearEarthObject.designation n2 /\
  NearEarthObject.name n1 = NearEarthObject.name n2 /\
  NearEarthObject.hazardous n1 = NearEarthObject.hazardous n2 /\
  format_fixed 3 (NearEarthObject.diameter n1) = format_fixed 3 (NearEarthObject.diameter n2).
Proof.
  unfold NearEarthObject_repr. intros E%(f_equal String.list_ascii_of_string).
  rewrite !list_ascii_of_string_app in E.
  apply app_inv_head in E. apply repr_str_prefix_free in E as [Hd E].
  apply app_inv_head in E. apply repr_opt_str_prefix_free in E as [Hn E].
  apply app_inv_head in E.
  apply (app_sep_inv ","%char) in E as [Hf E]; [|apply format_fixed_no_comma..].
  repeat injection E as E. apply repr_bool_inj in E.
  split_and!; [done | done | done |].
  by rewrite <- (String.string_of_list_ascii_of_string (format_fixed _ _)), Hf,
    String.string_of_list_ascii_of_string.
Qed.

(** C30: Printing the approaches of a database built from unlinked
    inputs: the [i]-th approach prints, through [str], the text naming
    the last NEO of its designation when there is one, and raises
    [AttributeError] when no NEO has its designation. *)
Theorem init_approach_str neos aps i a :
  NEODatabase.unlinked neos aps -> aps !! i = Some a ->
  exists a', NEODatabase._approaches (NEODatabase.init neos aps) !! i = Some a' /\
    match NEODatabase.last_index (CloseApproach.designation a) neos with
    | Some j => exists n, neos !! j = Some n /\
        NearEarthObject.designation n = CloseApproach.designation a /\
        CloseApproach_str (NEODatabase._neos (NEODatabase.init neos aps)) a'
          = Ok (CloseApproach_text a n)
    | None =>
        CloseApproach_str (NEODatabase._neos (NEODatabase.init neos aps)) a'
          = Raise AttributeError
    end.
Proof.
  intros Hu Hai. rewrite (NEODatabase.init_approach_at _ _ _ _ Hai).
  eexists; split; [done|].
  destruct (NEODatabase.last_index _ neos) as [j|] eqn:Ej.
  - destruct (NEODatabase.last_index_Some _ _ _ Ej) as (n & Hn & Hd).
    exists n. split_and!; [done | done |].
    unfold CloseApproach_str, deref. cbn [CloseApproach.neo CloseApproach.set_neo].
    rewrite NEODatabase.init_neos_lookup, Hn. cbn [fmap option_fmap option_map].
    by rewrite NEODatabase.add_approaches_eq.
  - unfold CloseApproach_str, deref. destruct Hu as [_ Ha].
    by rewrite (Forall_lookup_1 _ _ _ _ Ha Hai).
Qed.

(** ** Witnesses *)

Definition eros : NearEarthObject.t :=
  NearEarthObject.init "433" (Some "Eros") (Some (float_lit 168 10)) false.

Lemma init_approach_str_witness :
  (exists a', NEODatabase._approaches (NEODatabase.init [eros] [sample_approach]) !! 0 = Some a' /\
    CloseApproach_str (NEODatabase._neos (NEODatabase.init [eros] [sample_approach])) a'
      = Ok (CloseApproach_text sample_approach eros)) /\
  CloseApproach_text sample_approach eros
    = "At 1900-01-01 00:00, the 433 Eros approaches the Earth at a distance of 0.32 au and a velocity of 5.50 km/s."%string.
Proof.
  split; [|vm_compute; reflexivity].
  destruct (init_approach_str [eros] [sample_approach] 0 sample_approach)
    as (a' & Ha' & H); [split; repeat constructor | done |].
  exists a'. split; [exact Ha'|].
  destruct H as (n & Hn & _ & Hs). simpl in Hn. injection Hn as <-. exact Hs.
Defined.

Lemma NearEarthObject_repr_inj_witness :
  NearEarthObject_repr eros = NearEarthObject_repr (NearEarthObject.add_approach 0 eros) /\
  NearEarthObject.designation eros = NearEarthObject.designation (NearEarthObject.add_approach 0 eros).
Proof.
  assert (E : NearEarthObject_repr eros = NearEarthObject_repr (NearEarthObject.add_approach 0 eros))
    by reflexivity.
  split; [exact E | apply (NearEarthObject_repr_inj _ _ E)].
Defined.

(** [NearEarthObject.__repr__], documented as computer-readable,
    loses information: it prints the diameter to three decimals, so two
    NEOs whose diameters differ in the fourth decimal print alike, and
    an unknown diameter prints as [nan], which is not a Python
    expression. *)
Theorem NearEarthObject_repr_not_readable :
  NearEarthObject_repr (NearEarthObject.init "433" (Some "Eros") (Some (float_lit 168 10)) false)
  = NearEarthObject_repr
      (NearEarthObject.init "433" (Some "Eros") (Some (float_lit 168001 10000)) false) /\
  float_lit 168 10 <> float_lit 168001 10000 /\
  NearEarthObject_repr (NearEarthObject.init "2" None None false)
  = "NearEarthObject(designation='2', name=None, diameter=nan, hazardous=False)"%string.
Proof. split_and!; [vm_compute; reflexivity | discriminate | vm_compute; reflexivity]. Qed.

Example AttributeFilter_repr_samples :
  AttributeFilter_repr sample_repr (HazardousFilter op_eq (VBool true))
    = "HazardousFilter(op=operator.eq, value=True)"%string /\
  AttributeFilter_repr sample_repr (DateFilter op_ge (VDate (mk_date 2020 1 1)))
    = "DateFilter(op=operator.ge, value=2020-01-01)"%string.
Proof. split; vm_compute; reflexivity. Qed.
