(* ===== verification/Extract.v ===== *)
(** * The loaders (extract.py)

    [load_neos] reads neos.csv with [csv.DictReader] and builds one
    [NearEarthObject] per row; [load_approaches] reads cad.json, zips its
    [fields] with each entry of [data] and builds one [CloseApproach].
    The file reading and the CSV/JSON text parsers are the standard
    library's and are not modelled: [load_neos] starts from the rows of
    cells; [load_approaches] from the [fields] list and the [data]
    entries (JSON strings or [null]), and [load_approaches_json] from
    the value [json.load] returns, with Python's behaviour on documents
    of any shape ([get], iteration, [dict(zip(...))], [float] of any
    JSON value).  [load_approaches_json_refines] shows the two agree on
    documents of cad.json's shape, and [load_approaches_json_fields] that
    on such documents each approach is read from the cells under the
    field names [des], [cd], [dist] and [v_rel], wherever they sit.

    [float(s)] on a string is the section parameter [float_of_str]; the
    theorems hold for any such parser.  A row whose designation is
    missing (or, in cad.json, not a string) builds, in Python, an object
    whose designation is not a string, which [NearEarthObject.t] and
    [CloseApproach.t] do not represent: the converters return [None] for
    such a row (after raising whatever the Python code raises first), so
    a theorem about a loaded object is about a row with a designation. *)

From S2P Require Import Prelude PyFloat DateTime Models Database Filters Writers.

(** [row.get(k)] on a dict whose values are strings or [None]: [None]
    for a missing key as for a [None] value. *)
Definition get_str (row : pydict (option string)) (k : string) : option string :=
  match dict_get row k with Some (Some s) => Some s | _ => None end.

(** [csv.DictReader]'s row: [dict(zip(fieldnames, row))], and
    [restval=None] for the columns a short row lacks.  The cells of a
    long row go under the key [None] ([restkey]), which no string key
    reads, so they are left out. *)
Definition dict_reader_row (header cells : list string) : pydict (option string) :=
  let d := dict_of_pairs (zip header (Some <$> cells)) in
  if length header <=? length cells then d
  else dict_update d ((fun k => (k, None)) <$> drop (length cells) header).

(** [csv.DictReader(file)]: the first line is the header; empty lines
    are skipped. *)
Definition dict_reader (lines : list (list string)) : list (pydict (option string)) :=
  match lines with
  | [] => []
  | header :: rows => dict_reader_row header <$> filter (fun r => r <> []) rows
  end.

Section Loaders.
Variable float_of_str : string -> result pyfloat.

(** The body of the loop of [load_neos]. *)
Definition neo_of_row (row : pydict (option string)) : result (option NearEarthObject.t) :=
  diameter <- (match get_str row "diameter" with
               | Some s => if truthy s then x <- float_of_str s ;; Ok (Some x) else Ok None
               | None => Ok None
               end) ;;
  let hazardous := bool_decide (get_str row "pha" = Some "Y"%string) in
  let name := match get_str row "name" with
              | Some s => if truthy s then Some s else None
              | None => None
              end in
  Ok (match get_str row "pdes" with
      | Some d => Some (NearEarthObject.init d name diameter hazardous)
      | None => None
      end).

(** [load_neos(neo_csv_path)] on the lines of the file. *)
Definition load_neos (lines : list (list string)) : result (list (option NearEarthObject.t)) :=
  mapR neo_of_row (dict_reader lines).

(** [float(approach.get(k))]: [float(None)] raises [TypeError]. *)
Definition float_opt (v : option string) : result pyfloat :=
  match v with Some s => float_of_str s | None => Raise TypeError end.

(** The body of the loop of [load_approaches]: the arguments are
    evaluated first ([float] of the distance, then of the velocity),
    then the constructor parses the time; [cd_to_datetime(None)] raises
    [TypeError]. *)
Definition approach_of_data (fields : list string) (data : list (option string))
    : result (option CloseApproach.t) :=
  let approach := dict_of_pairs (zip fields data) in
  distance <- float_opt (get_str approach "dist") ;;
  velocity <- float_opt (get_str approach "v_rel") ;;
  match get_str approach "cd" with
  | None => Raise TypeError
  | Some cd =>
      match get_str approach "des" with
      | Some des => a <- CloseApproach.init des cd velocity distance None ;; Ok (Some a)
      | None => _ <- cd_to_datetime cd ;; Ok None
      end
  end.

(** [load_approaches(cad_json_path)] on [fields] and [data]. *)
Definition load_approaches (fields : list string) (data : list (list (option string)))
    : result (list (option CloseApproach.t)) :=
  mapR (approach_of_data fields) data.

(** *** The document [json.load] returns *)

(** [iter(v)] on a JSON value: a list gives its items, a string its
    characters, an object its keys; [None], numbers and booleans are not
    iterable. *)
Definition iter_json (v : json) : result (list json) :=
  match v with
  | JArr l => Ok l
  | JStr s => Ok ((fun c => JStr (String.String c String.EmptyString))
                    <$> String.list_ascii_of_string s)
  | JObj kvs => Ok ((fun kv => JStr kv.1) <$> dict_of_pairs kvs)
  | _ => Raise TypeError
  end.

(** The key [dict] files a value under: a string, or a hashable
    non-string ([None], a number, a boolean) that no lookup of the
    loader finds, which is left out; a list or a dict is unhashable. *)
Definition json_key (k : json) : result (option string) :=
  match k with
  | JStr s => Ok (Some s)
  | JArr _ | JObj _ => Raise TypeError
  | _ => Ok None
  end.

(** [dict(zip(ks, vs))] on the pairs [zip] produces. *)
Definition json_dict (l : list (json * json)) : result (pydict json) :=
  ks <- mapR (fun kv => k <- json_key kv.1 ;; Ok (k, kv.2)) l ;;
  Ok (dict_of_pairs (omap (fun kv => (fun s => (s, kv.2)) <$> kv.1) ks)).

(** [float(approach.get(k))] on a JSON value: a string is parsed, a
    number kept, a boolean is [0.0] or [1.0]; [None], lists and dicts
    raise [TypeError]. *)
Definition float_json (v : option json) : result pyfloat :=
  match v with
  | Some (JStr s) => float_of_str s
  | Some (JNum x) => Ok x
  | Some (JBool b) => Ok (float_of_bool b)
  | _ => Raise TypeError
  end.

(** The loop body of [load_approaches] on the dict of one entry:
    [cd_to_datetime] raises [TypeError] on a time that is not a string;
    an entry whose designation is not a string builds an object the
    records do not represent ([None]). *)
Definition approach_of_json (approach : pydict json) : result (option CloseApproach.t) :=
  distance <- float_json (dict_get approach "dist") ;;
  velocity <- float_json (dict_get approach "v_rel") ;;
  match dict_get approach "cd" with
  | Some (JStr cd) =>
      match dict_get approach "des" with
      | Some (JStr des) => a <- CloseApproach.init des cd velocity distance None ;; Ok (Some a)
      | _ => _ <- cd_to_datetime cd ;; Ok None
      end
  | _ => Raise TypeError
  end.

(** [load_approaches] from the value [json.load] returns:
    [approaches.get('data')] ([AttributeError] when the document is not
    an object), iterated; for each entry [approaches.get('fields')] is
    iterated by [zip] before the entry is. *)
Definition load_approaches_json (doc : json) : result (list (option CloseApproach.t)) :=
  match doc with
  | JObj kvs =>
      let approaches := dict_of_pairs kvs in
      data <- iter_json (dict_get_or approaches "data" JNull) ;;
      mapR (fun approach_data =>
              fields <- iter_json (dict_get_or approaches "fields" JNull) ;;
              items <- iter_json approach_data ;;
              approach <- json_dict (zip fields items) ;;
              approach_of_json approach) data
  | _ => Raise AttributeError
  end.

End Loaders.

(** ** [csv.DictReader] rows *)

Lemma dict_reader_row_NoDup (header cells : list string) :
  NoDup header -> NoDup (map fst (zip header (Some <$> cells))).
Proof. intros Hnd. eapply sublist_NoDup; [exact Hnd|apply zip_fst_sublist]. Qed.

Lemma map_fst_pairs {A B} (l : list A) (v : B) : map fst ((fun k => (k, v)) <$> l) = l.
Proof.
  induction l as [|x l IH]; [done|].
  change (x :: map fst ((fun k => (k, v)) <$> l) = x :: l). by rewrite IH.
Qed.

(** The keys [DictReader] sets to [restval]: the columns past the line. *)
Lemma restval_keys (header : list string) n :
  map fst (reverse ((fun k => (k, @None string)) <$> drop n header)) ≡ₚ drop n header.
Proof.
  rewrite <- (map_fst_pairs (drop n header) (@None string)) at 2.
  apply Permutation_map, reverse_Permutation.
Qed.

(** With distinct column names, the value of column [i] in the row
    [csv.DictReader] builds is the [i]-th cell, and [None] when the line
    is too short to have one: every column is a key of the row. *)
Theorem dict_reader_row_get (header cells : list string) i k :
  NoDup header -> header !! i = Some k ->
  dict_get (dict_reader_row header cells) k = Some (cells !! i).
Proof.
  intros Hnd Hi. unfold dict_reader_row.
  assert (Hz : dict_get (dict_of_pairs (zip header (Some <$> cells))) k = Some <$> cells !! i).
  { rewrite dict_of_pairs_get by (by apply dict_reader_row_NoDup).
    rewrite (dict_get_zip _ _ i k Hnd Hi). apply list_lookup_fmap. }
  assert (Hlen : i < length header) by (apply lookup_lt_is_Some; by eexists).
  pose proof (restval_keys header (length cells)) as Hp.
  destruct (Nat.leb_spec (length header) (length cells)) as [Hle|Hle]; [| rewrite dict_get_update].
  - rewrite Hz. destruct (lookup_lt_is_Some_2 cells i) as [c ->]; [lia|done].
  - destruct (decide (length cells <= i)) as [Hge|Hlt].
    + rewrite (dict_get_NoDup _ k None); [by rewrite (lookup_ge_None_2 cells i)| |].
      * rewrite Hp. eapply sublist_NoDup; [exact Hnd|apply sublist_drop].
      * apply elem_of_reverse, list_elem_of_fmap. exists k. split; [done|].
        apply list_elem_of_lookup. exists (i - length cells). rewrite lookup_drop.
        by replace (length cells + (i - length cells)) with i by lia.
    + rewrite (proj2 (dict_get_None _ _)).
      * rewrite Hz. destruct (lookup_lt_is_Some_2 cells i) as [c ->]; [lia|done].
      * rewrite Hp. intros [j Hj]%list_elem_of_lookup. rewrite lookup_drop in Hj.
        pose proof (NoDup_lookup _ _ _ _ Hnd Hi Hj). lia.
Qed.

(** ** What the loaders build *)

Lemma neo_of_row_loaded float_of_str row n :
  neo_of_row float_of_str row = Ok (Some n) ->
  NearEarthObject.approaches n = [] /\ NearEarthObject.wf n = true /\
  get_str row "pdes" = Some (NearEarthObject.designation n) /\
  default "" (NearEarthObject.name n) = default "" (get_str row "name") /\
  NearEarthObject.hazardous n = bool_decide (get_str row "pha" = Some "Y"%string).
Proof.
  unfold neo_of_row. intros H.
  match type of H with rbind ?c _ = _ => destruct c as [dm|e]; simpl in H; [|done] end.
  destruct (get_str row "pdes") as [d|]; simplify_eq.
  split_and!; [done | apply NearEarthObject_init_wf | done | | done].
  simpl. by destruct (get_str row "name") as [[|c s]|].
Qed.

Lemma approach_of_data_loaded float_of_str fields data a :
  approach_of_data float_of_str fields data = Ok (Some a) ->
  CloseApproach.neo a = None /\ CloseApproach.wf a = true.
Proof.
  unfold approach_of_data. set (ap := dict_of_pairs (zip fields data)). intros H.
  destruct (float_opt float_of_str (get_str ap "dist")) as [dist|]; simpl in H; [|done].
  destruct (float_opt float_of_str (get_str ap "v_rel")) as [vel|]; simpl in H; [|done].
  destruct (get_str ap "cd") as [cd|]; [|done].
  destruct (get_str ap "des") as [des|].
  - destruct (CloseApproach.init des cd vel dist None) as [a0|] eqn:Ei; simpl in H; simplify_eq.
    split; [|exact (CloseApproach_init_wf _ _ _ _ _ _ Ei)].
    unfold CloseApproach.init in Ei. destruct (cd_to_datetime cd); by simplify_eq/=.
  - by destruct (cd_to_datetime cd).
Qed.

Lemma Forall2_Some_Forall {A B} (P : A -> option B -> Prop) (Q : B -> Prop) l ks :
  (forall x y, P x (Some y) -> Q y) -> Forall2 P l (Some <$> ks) -> Forall Q ks.
Proof.
  intros HPQ. revert l; induction ks as [|y ks IH]; intros l H; [constructor|].
  inversion H; subst. constructor; [by eapply HPQ | by eapply IH].
Qed.

(** Every NEO [load_neos] builds is fresh: no approaches yet, and its
    invariant holds. *)
Lemma load_neos_fresh float_of_str lines ns :
  load_neos float_of_str lines = Ok (Some <$> ns) ->
  Forall (fun n => NearEarthObject.approaches n = [] /\ NearEarthObject.wf n = true) ns.
Proof.
  unfold load_neos. intros Hn%mapR_Ok. eapply Forall2_Some_Forall; [|exact Hn].
  intros ? ? (? & ? & _)%neo_of_row_loaded. by split.
Qed.

Lemma load_approaches_fresh float_of_str fields data aps :
  load_approaches float_of_str fields data = Ok (Some <$> aps) ->
  Forall (fun a => CloseApproach.neo a = None /\ CloseApproach.wf a = true) aps.
Proof.
  unfold load_approaches. intros Ha%mapR_Ok. eapply Forall2_Some_Forall; [|exact Ha].
  intros ? ? ?%approach_of_data_loaded. done.
Qed.

(** C20: what the loaders return satisfies what the database's theorems
    assume: when every row has a designation, no NEO has approaches yet,
    no approach has an NEO, and every object satisfies its invariant
    (diameter, distance and velocity never a falsy zero, times valid). *)
Theorem loaders_unlinked float_of_str lines fields data ns aps :
  load_neos float_of_str lines = Ok (Some <$> ns) ->
  load_approaches float_of_str fields data = Ok (Some <$> aps) ->
  NEODatabase.unlinked ns aps /\
  Forall (fun n => NearEarthObject.wf n = true) ns /\
  Forall (fun a => CloseApproach.wf a = true) aps.
Proof.
  intros Hn%load_neos_fresh Ha%load_approaches_fresh.
  apply Forall_and in Hn as [Hn1 Hn2]. apply Forall_and in Ha as [Ha1 Ha2].
  split_and!; [split|..]; done.
Qed.

(** C34: loading and writing back: the CSV row written for an approach of
    an NEO loaded from a row of neos.csv has that row's designation, its
    name cell (empty when the cell was empty) and [True] exactly when the
    [pha] cell was [Y]. *)
Theorem csv_neo_roundtrip float_of_str float_repr row n neos a :
  neo_of_row float_of_str row = Ok (Some n) -> deref neos a = Ok n ->
  exists r, csv_row float_repr neos a = Ok r /\
    r !! 3 = get_str row "pdes" /\ r !! 4 = Some (default "" (get_str row "name")) /\
    r !! 6 = Some (if bool_decide (get_str row "pha" = Some "Y"%string) then "True" else "False")%string.
Proof.
  intros Hn Hd. destruct (neo_of_row_loaded _ _ _ Hn) as (_ & _ & Hdes & Hname & Hhaz).
  eexists. split; [apply (csv_row_cells _ _ _ _ Hd)|]. simpl.
  by rewrite Hdes, <- Hname, <- Hhaz.
Qed.

(** ** The document level of [load_approaches] *)

(** A value of cad.json's [data] rows: a string or [null]. *)
Definition opt_json (v : option string) : json :=
  match v with Some s => JStr s | None => JNull end.

(** The document of cad.json's shape: [fields] a list of strings,
    [data] a list of rows of strings and nulls. *)
Definition cad_json (fields : list string) (data : list (list (option string))) : json :=
  JObj [("fields", JArr (JStr <$> fields));
        ("data", JArr ((fun r => JArr (opt_json <$> r)) <$> data))]%string.

Lemma json_dict_strings (fields : list string) (vs : list json) :
  json_dict (zip (JStr <$> fields) vs) = Ok (dict_of_pairs (zip fields vs)).
Proof.
  unfold json_dict.
  enough (E : mapR (fun kv => k <- json_key kv.1 ;; Ok (k, kv.2)) (zip (JStr <$> fields) vs)
              = Ok (prod_map Some id <$> zip fields vs)).
  { rewrite E. cbn [rbind]. do 2 f_equal. clear E.
    induction (zip fields vs) as [|[k v] l IH]; [done|].
    change ((k, v) :: omap (fun kv => (fun s => (s, kv.2)) <$> kv.1) (prod_map Some id <$> l)
            = (k, v) :: l). by rewrite IH. }
  revert vs; induction fields as [|k fields IH]; intros [|v vs]; [done..|].
  change (zip (JStr <$> k :: fields) (v :: vs)) with ((JStr k, v) :: zip (JStr <$> fields) vs).
  simpl. by rewrite IH.
Qed.

Lemma float_json_opt float_of_str (o : option (option string)) :
  float_json float_of_str (opt_json <$> o)
  = float_opt float_of_str (match o with Some (Some s) => Some s | _ => None end).
Proof. by destruct o as [[s|]|]. Qed.

(** On an entry of cad.json's shape the JSON loop body is the row-level
    one. *)
Lemma approach_of_json_row float_of_str fields r :
  approach_of_json float_of_str (dict_of_pairs (zip fields (opt_json <$> r)))
  = approach_of_data float_of_str fields r.
Proof.
  unfold approach_of_json, approach_of_data, get_str.
  rewrite zip_fmap_r, !dict_of_pairs_fmap, !float_json_opt.
  destruct (float_opt _ _); [|done]. simpl. destruct (float_opt _ _); [|done]. simpl.
  destruct (dict_get _ "cd") as [[cd|]|]; [|done..]. simpl.
  by destruct (dict_get _ "des") as [[d|]|].
Qed.

(** On a document of cad.json's shape, [load_approaches] from the
    value [json.load] returns computes what the row-level model does on
    its [fields] and [data]: the document level adds no behaviour to the
    well-formed case. *)
Theorem load_approaches_json_refines float_of_str fields data :
  load_approaches_json float_of_str (cad_json fields data)
  = load_approaches float_of_str fields data.
Proof.
  unfold load_approaches_json, cad_json, load_approaches. simpl.
  induction data as [|r data IH]; [done|]. simpl.
  rewrite json_dict_strings. cbn [rbind]. rewrite approach_of_json_row.
  destruct (approach_of_data _ _ _); [|done]. cbn [rbind]. rewrite <- IH. done.
Qed.

(** [approach.get(k)] on [dict(zip(fields, row))] is the cell under
    the field named [k]. *)
Lemma get_str_zip (fields : list string) (r : list (option string)) i k :
  NoDup fields -> fields !! i = Some k ->
  get_str (dict_of_pairs (zip fields r)) k
  = match r !! i with Some (Some s) => Some s | _ => None end.
Proof.
  intros Hnd Hi. unfold get_str.
  rewrite dict_of_pairs_get by (eapply sublist_NoDup; [exact Hnd|apply zip_fst_sublist]).
  by rewrite (dict_get_zip _ _ i k Hnd Hi).
Qed.

(** C32: On a document of cad.json's shape whose [fields] name the
    columns ["des"], ["cd"], ["dist"] and ["v_rel"] (in any order),
    [load_approaches] builds each approach from the cells of its row
    under those names: designation from ["des"], time from ["cd"],
    distance from [float] of ["dist"] and velocity from [float] of
    ["v_rel"], one approach per row, in order. *)
Theorem load_approaches_json_fields float_of_str fields data aps i_des i_cd i_dist i_vrel :
  NoDup fields ->
  fields !! i_des = Some "des"%string -> fields !! i_cd = Some "cd"%string ->
  fields !! i_dist = Some "dist"%string -> fields !! i_vrel = Some "v_rel"%string ->
  Forall2 (fun r a => exists des cd sdist svrel dist vrel,
      r !! i_des = Some (Some des) /\ r !! i_cd = Some (Some cd) /\
      r !! i_dist = Some (Some sdist) /\ r !! i_vrel = Some (Some svrel) /\
      float_of_str sdist = Ok dist /\ float_of_str svrel = Ok vrel /\
      CloseApproach.init des cd vrel dist None = Ok a) data aps ->
  load_approaches_json float_of_str (cad_json fields data) = Ok (Some <$> aps).
Proof.
  intros Hnd Hdes Hcd Hdist Hvrel Hall.
  rewrite load_approaches_json_refines. unfold load_approaches.
  induction Hall as [|r a data aps Hr _ IH]; [done|].
  destruct Hr as (des & cd & sdist & svrel & dist & vrel & Ed & Ec & Es & Ev & Fd & Fv & Ea).
  cbn [mapR].
  assert (Er : approach_of_data float_of_str fields r = Ok (Some a)).
  { unfold approach_of_data.
    rewrite !(get_str_zip fields r _ _ Hnd Hdist), !(get_str_zip fields r _ _ Hnd Hvrel),
      !(get_str_zip fields r _ _ Hnd Hcd), !(get_str_zip fields r _ _ Hnd Hdes), Ed, Ec, Es, Ev.
    cbn [float_opt]. rewrite Fd, Fv. cbn [rbind]. by rewrite Ea. }
  rewrite Er. cbn [rbind]. by rewrite IH.
Qed.

(** C33: The document-level errors of [load_approaches]: a document that
    is not an object raises [AttributeError]; without [data] it raises
    [TypeError]; without [fields] it raises [TypeError] as soon as
    [data] has an entry, and loads nothing when [data] is empty. *)
Theorem load_approaches_json_errors float_of_str (doc : json) kvs :
  (forall l, doc <> JObj l) ->
  load_approaches_json float_of_str doc = Raise AttributeError /\
  (dict_get (dict_of_pairs kvs) "data" = None ->
   load_approaches_json float_of_str (JObj kvs) = Raise TypeError) /\
  (dict_get (dict_of_pairs kvs) "fields" = None ->
   forall rows, dict_get (dict_of_pairs kvs) "data" = Some (JArr rows) ->
   load_approaches_json float_of_str (JObj kvs) = if decide (rows = []) then Ok [] else Raise TypeError).
Proof.
  intros Hdoc. split_and!.
  - destruct doc; [done..|]. by destruct (Hdoc l).
  - intros Hd. unfold load_approaches_json, dict_get_or. by rewrite Hd.
  - intros Hf rows Hd. unfold load_approaches_json, dict_get_or. rewrite Hd, Hf. simpl.
    by destruct rows.
Qed.

(** ** Witnesses *)

Definition neo_header : list string := ["pdes"; "name"; "diameter"; "pha"]%string.
Definition approach_fields : list string := ["des"; "cd"; "dist"; "v_rel"]%string.

(** A parser that reads every number as 0.1. *)
Definition tenth_of_str (s : string) : result pyfloat := Ok (float_lit 1 10).

Definition loaded_approach : CloseApproach.t :=
  CloseApproach.mk "2100" (mk_datetime 2000 1 1 0 0) (float_lit 1 10) (float_lit 1 10) None.

Lemma dict_reader_row_get_witness :
  NoDup neo_header /\ neo_header !! 2 = Some "diameter"%string /\
  dict_get (dict_reader_row neo_header ["433"; "Eros"]%string) "diameter" =
    Some (["433"; "Eros"]%string !! 2).
Proof.
  assert (Hnd : NoDup neo_header) by (apply (bool_decide_unpack _); reflexivity).
  refine (conj Hnd (conj eq_refl _)).
  exact (dict_reader_row_get neo_header ["433"; "Eros"]%string 2 "diameter" Hnd eq_refl).
Defined.

Lemma loaders_unlinked_witness :
  load_neos tenth_of_str [neo_header; ["2100"; ""; ""; "N"]%string] = Ok (Some <$> [nameless]) /\
  load_approaches tenth_of_str approach_fields
    [[Some "2100"; Some "2000-Jan-01 00:00"; Some "0.1"; Some "0.1"]%string]
    = Ok (Some <$> [loaded_approach]) /\
  (NEODatabase.unlinked [nameless] [loaded_approach] /\
   Forall (fun n => NearEarthObject.wf n = true) [nameless] /\
   Forall (fun a => CloseApproach.wf a = true) [loaded_approach]).
Proof.
  assert (Hn : load_neos tenth_of_str [neo_header; ["2100"; ""; ""; "N"]%string]
                 = Ok (Some <$> [nameless])) by (vm_compute; reflexivity).
  assert (Ha : load_approaches tenth_of_str approach_fields
                 [[Some "2100"; Some "2000-Jan-01 00:00"; Some "0.1"; Some "0.1"]%string]
                 = Ok (Some <$> [loaded_approach])) by (vm_compute; reflexivity).
  refine (conj Hn (conj Ha _)). exact (loaders_unlinked _ _ _ _ _ _ Hn Ha).
Defined.

Lemma csv_neo_roundtrip_witness :
  neo_of_row tenth_of_str (dict_reader_row neo_header ["2100"; ""; ""; "N"]%string)
    = Ok (Some nameless) /\
  deref [nameless] nameless_approach = Ok nameless /\
  exists r, csv_row sample_repr [nameless] nameless_approach = Ok r /\
    r !! 3 = get_str (dict_reader_row neo_header ["2100"; ""; ""; "N"]%string) "pdes" /\
    r !! 4 = Some (default "" (get_str (dict_reader_row neo_header ["2100"; ""; ""; "N"]%string) "name")) /\
    r !! 6 = Some (if bool_decide (get_str (dict_reader_row neo_header ["2100"; ""; ""; "N"]%string) "pha"
                                    = Some "Y"%string) then "True" else "False")%string.
Proof.
  assert (Hn : neo_of_row tenth_of_str (dict_reader_row neo_header ["2100"; ""; ""; "N"]%string)
                 = Ok (Some nameless)) by (vm_compute; reflexivity).
  assert (Hd : deref [nameless] nameless_approach = Ok nameless) by reflexivity.
  refine (conj Hn (conj Hd _)). exact (csv_neo_roundtrip _ sample_repr _ _ _ _ Hn Hd).
Defined.

Lemma load_approaches_json_errors_witness :
  load_approaches_json tenth_of_str JNull = Raise AttributeError /\
  load_approaches_json tenth_of_str (JObj [("data", JArr [JArr []])]%string) = Raise TypeError.
Proof.
  destruct (load_approaches_json_errors tenth_of_str JNull [("data", JArr [JArr []])]%string)
    as (H1 & _ & H3); [discriminate|].
  split; [exact H1|]. rewrite (H3 eq_refl [JArr []] eq_refl). reflexivity.
Defined.

(** The columns in reverse order: each value is still read by its name. *)
Lemma load_approaches_json_fields_witness :
  let fields := ["v_rel"; "dist"; "cd"; "des"]%string in
  let row := [Some "0.1"; Some "0.1"; Some "2000-Jan-01 00:00"; Some "2100"]%string in
  NoDup fields /\
  Forall2 (fun r a => exists des cd sdist svrel dist vrel,
      r !! 3 = Some (Some des) /\ r !! 2 = Some (Some cd) /\
      r !! 1 = Some (Some sdist) /\ r !! 0 = Some (Some svrel) /\
      tenth_of_str sdist = Ok dist /\ tenth_of_str svrel = Ok vrel /\
      CloseApproach.init des cd vrel dist None = Ok a) [row] [loaded_approach] /\
  load_approaches_json tenth_of_str (cad_json fields [row]) = Ok (Some <$> [loaded_approach]).
Proof.
  intros fields row.
  assert (Hnd : NoDup fields) by (apply (bool_decide_unpack _); reflexivity).
  assert (Hall : Forall2 (fun r a => exists des cd sdist svrel dist vrel,
      r !! 3 = Some (Some des) /\ r !! 2 = Some (Some cd) /\
      r !! 1 = Some (Some sdist) /\ r !! 0 = Some (Some svrel) /\
      tenth_of_str sdist = Ok dist /\ tenth_of_str svrel = Ok vrel /\
      CloseApproach.init des cd vrel dist None = Ok a) [row] [loaded_approach]).
  { constructor; [|constructor]. do 6 eexists. split_and!; [reflexivity..|vm_compute; reflexivity]. }
  refine (conj Hnd (conj Hall _)).
  exact (load_approaches_json_fields tenth_of_str fields [row] [loaded_approach] 3 2 1 0
           Hnd eq_refl eq_refl eq_refl eq_refl Hall).
Defined.
