(* ===== verification/Main.v ===== *)
(** * The query command of main.py, end to end

    main.py (not in src/) loads the two files, builds the database, turns
    the command-line criteria into filters, queries, limits the result
    and writes it.  The composition of [load_neos], [load_approaches],
    [NEODatabase.init], [run_query] and [write_to_csv] is stated here as
    one theorem: what the CSV file holds after a successful run. *)

From S2P Require Import Prelude PyFloat DateTime Models Database Filters Pipeline Writers Extract.

(** The approaches of a query that pass the criteria are linked. *)
Lemma matching_linked ns aps c a :
  NEODatabase.unlinked ns aps -> all_matched ns aps ->
  a ∈ filter (fun a => approach_ok (NEODatabase.init ns aps) c a = true)
        (NEODatabase._approaches (NEODatabase.init ns aps)) ->
  exists n, deref (NEODatabase._neos (NEODatabase.init ns aps)) a = Ok n.
Proof. intros Hu Hm [_ Ha]%list_elem_of_filter. by apply init_deref. Qed.

(** C6: [main.py query --limit n --outfile out.csv], end to end.  When
    the two files load with every row designated, every approach has its
    NEO, the numeric bounds are non-zero and [n] is a valid limit, the
    run succeeds and the CSV file holds the header and then one row per
    approach among the first [n] of those meeting every criterion, in
    file order; no exception escapes. *)
Theorem query_command_csv float_of_str float_repr lines fields data ns aps c n :
  load_neos float_of_str lines = Ok (Some <$> ns) ->
  load_approaches float_of_str fields data = Ok (Some <$> aps) ->
  all_matched ns aps -> nonzero_bounds c = true -> (0 < n <= maxsize)%Z ->
  let db := NEODatabase.init ns aps in
  exists g rows,
    run_query db c (Some n) = Ok g /\
    write_to_csv float_repr (NEODatabase._neos db) g = (fieldnames :: rows, None) /\
    Forall2 (fun a r => csv_row float_repr (NEODatabase._neos db) a = Ok r)
      (take (Z.to_nat n)
         (filter (fun a => approach_ok db c a = true) (NEODatabase._approaches db))) rows.
Proof.
  intros Hn%load_neos_fresh Ha%load_approaches_fresh Hm Hz Hr db.
  assert (Hu : NEODatabase.unlinked ns aps).
  { apply Forall_and in Hn as [Hn _]. apply Forall_and in Ha as [Ha _]. by split. }
  set (l := filter (fun a => approach_ok db c a = true) (NEODatabase._approaches db)).
  destruct (mapR_total (csv_row float_repr (NEODatabase._neos db)) (take (Z.to_nat n) l))
    as [rows Hrows].
  { intros a (i & Hi & _)%elem_of_take.
    destruct (matching_linked ns aps c a Hu Hm) as [n0 Hd]; [by eapply list_elem_of_lookup_2|].
    eexists. apply (csv_row_cells _ _ _ _ Hd). }
  exists (gen_of_list (take (Z.to_nat n) l)), rows. split_and!.
  - unfold run_query. apply limit_in_range; [|done].
    by apply query_create_filters.
  - by apply write_to_csv_complete.
  - by apply mapR_Ok.
Qed.

(** ** Witness *)

Definition sample_lines : list (list string) := [neo_header; ["2100"; ""; ""; "N"]%string].
Definition sample_data : list (list (option string)) :=
  [[Some "2100"; Some "2000-Jan-01 00:00"; Some "0.1"; Some "0.1"]%string].

Lemma sample_matched : all_matched [nameless] [loaded_approach].
Proof.
  intros a ->%list_elem_of_singleton. exists nameless.
  split; [apply elem_of_cons; by left | reflexivity].
Qed.

Lemma query_command_csv_witness :
  load_neos tenth_of_str sample_lines = Ok (Some <$> [nameless]) /\
  load_approaches tenth_of_str approach_fields sample_data = Ok (Some <$> [loaded_approach]) /\
  all_matched [nameless] [loaded_approach] /\ nonzero_bounds no_criteria = true /\
  (0 < 5 <= maxsize)%Z /\
  (let db := NEODatabase.init [nameless] [loaded_approach] in
   exists g rows,
     run_query db no_criteria (Some 5%Z) = Ok g /\
     write_to_csv sample_repr (NEODatabase._neos db) g = (fieldnames :: rows, None) /\
     Forall2 (fun a r => csv_row sample_repr (NEODatabase._neos db) a = Ok r)
       (take (Z.to_nat 5)
          (filter (fun a => approach_ok db no_criteria a = true) (NEODatabase._approaches db))) rows).
Proof.
  assert (Hn : load_neos tenth_of_str sample_lines = Ok (Some <$> [nameless]))
    by (vm_compute; reflexivity).
  assert (Ha : load_approaches tenth_of_str approach_fields sample_data
                 = Ok (Some <$> [loaded_approach])) by (vm_compute; reflexivity).
  assert (Hr : (0 < 5 <= maxsize)%Z) by (unfold maxsize; lia).
  refine (conj Hn (conj Ha (conj sample_matched (conj eq_refl (conj Hr _))))).
  exact (query_command_csv tenth_of_str sample_repr _ _ _ _ _ no_criteria 5 Hn Ha
           sample_matched eq_refl Hr).
Defined.
